(** * ds-imerg: the IMERG download / convert / upload pipeline

    A shallow embedding of [src/datasources/imerg.py] and
    [src/utils/blob.py].  The Python functions are translated into Rocq
    functions over an explicit world (local file system, remote blob
    container, console and call log) in a small state-and-exception
    monad.  The third-party libraries the code calls (pandas, requests,
    xarray, rioxarray, the Azure client, the [os] module) are modelled by
    their documented behaviour; what depends on the outside world (the
    clock, the HTTP server, the NetCDF decoder, the raster encoder, remote
    failures) is read from an environment record. *)

From Stdlib Require Import ZArith List String Ascii Lia Sorted DecimalString Decimal DecimalPos.
From Stdlib.Strings Require Import Byte.
From stdpp Require Import base option gmap strings list.

Open Scope Z_scope.

(** ** Exceptions and results *)

(** A raised Python exception (an instance of a subclass of [Exception]):
    its class name and the text [str(e)] gives. *)
Record exn := Exn { exn_class : string; exn_msg : string }.

(** The outcome of a Python call: [inl e] when it raised [e], [inr v] when
    it returned [v]. *)
Definition result (A : Type) : Type := exn + A.

Definition raise {A : Type} (cls msg : string) : result A := inl (Exn cls msg).

Definition result_bind {A B : Type} (r : result A) (k : A -> result B) : result B :=
  match r with
  | inl e => inl e
  | inr a => k a
  end.

(** ** Python strings and integers *)
Module py.

(** [str(n)] for an [int]. *)
Definition str_int (n : Z) : string := NilZero.string_of_int (Z.to_int n).

Fixpoint zeros (k : nat) : string :=
  match k with
  | O => ""
  | S k' => String "0" (zeros k')
  end.

(** [s.zfill(width)] for a string of digits. *)
Definition zfill (width : nat) (s : string) : string :=
  zeros (width - String.length s) +:+ s.

(** A non-negative field printed with at least [width] digits, as
    ["%0<width>d"] does. *)
Definition fmt_field (width : nat) (n : Z) : string := zfill width (str_int n).

(** [int(s)] for a non-empty string of decimal digits. *)
Definition parse_digits (s : string) : option Z :=
  match s with
  | EmptyString => None
  | _ => Z.of_uint <$> NilZero.uint_of_string s
  end.

Definition is_digit (c : ascii) : bool :=
  (48 <=? nat_of_ascii c)%nat && (nat_of_ascii c <=? 57)%nat.

(** The last character of a string, if any. *)
Fixpoint last_char (s : string) : option ascii :=
  match s with
  | EmptyString => None
  | String c EmptyString => Some c
  | String _ s' => last_char s'
  end.

(** [s.endswith(suffix)] *)
Definition endswith (s suffix : string) : Prop := exists p, s = p +:+ suffix.

End py.

(** ** The proleptic Gregorian calendar *)
Module calendar.

Definition is_leap (y : Z) : bool :=
  ((y mod 4 =? 0) && negb (y mod 100 =? 0)) || (y mod 400 =? 0).

Definition days_in_month (y m : Z) : Z :=
  if m =? 2 then (if is_leap y then 29 else 28)
  else if (m =? 4) || (m =? 6) || (m =? 9) || (m =? 11) then 30
  else 31.

Definition valid_date (y m d : Z) : bool :=
  (1 <=? m) && (m <=? 12) && (1 <=? d) && (d <=? days_in_month y m).

(** Days from 1970-01-01 to the civil date [y]-[m]-[d]. *)
Definition days_from_civil (y m d : Z) : Z :=
  let y' := if m <=? 2 then y - 1 else y in
  let era := y' / 400 in
  let yoe := y' - era * 400 in
  let mp := if m <=? 2 then m + 9 else m - 3 in
  let doy := (153 * mp + 2) / 5 + d - 1 in
  let doe := yoe * 365 + yoe / 4 - yoe / 100 + doy in
  era * 146097 + doe - 719468.

(** The civil date (year, month, day) of a day count from 1970-01-01. *)
Definition civil_from_days (z : Z) : Z * Z * Z :=
  let z' := z + 719468 in
  let era := z' / 146097 in
  let doe := z' - era * 146097 in
  let yoe := (doe - doe / 1460 + doe / 36524 - doe / 146096) / 365 in
  let doy := doe - (365 * yoe + yoe / 4 - yoe / 100) in
  let mp := (5 * doy + 2) / 153 in
  let d := doy - (153 * mp + 2) / 5 + 1 in
  let m := if mp <? 10 then mp + 3 else mp - 9 in
  let y := yoe + era * 400 in
  (if m <=? 2 then y + 1 else y, m, d).

End calendar.

(** ** pandas: timestamps, [strftime], parsing, [date_range] *)
Module pd.

(** A [pd.Timestamp] is a signed 64-bit count of nanoseconds since
    1970-01-01T00:00:00. *)
Definition Timestamp : Type := Z.

Definition NS_PER_SECOND : Z := 1000000000.
Definition NS_PER_DAY : Z := 86400 * NS_PER_SECOND.

(** [Timestamp.min.value] and [Timestamp.max.value]; the least 64-bit
    value is reserved for [NaT]. *)
Definition TS_MIN : Z := - (2 ^ 63 - 1).
Definition TS_MAX : Z := 2 ^ 63 - 1.

(** A calendar day ([datetime.date]) is counted in days since
    1970-01-01. *)
Definition date : Type := Z.

Definition ts_days (t : Timestamp) : Z := t / NS_PER_DAY.
Definition ts_time_of_day (t : Timestamp) : Z := t mod NS_PER_DAY.

Definition year (t : Timestamp) : Z := (calendar.civil_from_days (ts_days t)).1.1.
Definition month (t : Timestamp) : Z := (calendar.civil_from_days (ts_days t)).1.2.
Definition day (t : Timestamp) : Z := (calendar.civil_from_days (ts_days t)).2.
Definition hour (t : Timestamp) : Z := ts_time_of_day t / (3600 * NS_PER_SECOND).
Definition minute (t : Timestamp) : Z := ts_time_of_day t / (60 * NS_PER_SECOND) mod 60.
Definition second (t : Timestamp) : Z := ts_time_of_day t / NS_PER_SECOND mod 60.
Definition microsecond (t : Timestamp) : Z := ts_time_of_day t mod NS_PER_SECOND / 1000.
Definition nanosecond (t : Timestamp) : Z := ts_time_of_day t mod 1000.

(** The date and time fields an object with a [strftime] method
    exposes. *)
Record fields := Fields {
  f_year : Z; f_month : Z; f_day : Z;
  f_hour : Z; f_minute : Z; f_second : Z
}.

Definition ts_fields (t : Timestamp) : fields :=
  Fields (year t) (month t) (day t) (hour t) (minute t) (second t).

(** [strftime] on the directives the repository uses (%Y %m %d %H %M
    %S, and %% for a percent sign); other characters are copied.  %Y
    prints four digits for the years 1000 to 9999. *)
Fixpoint strftime_fields (f : fields) (fmt : string) : string :=
  match fmt with
  | EmptyString => ""
  | String "%" (String c rest) =>
      (if Ascii.eqb c "Y" then py.fmt_field 4 (f_year f)
       else if Ascii.eqb c "m" then py.fmt_field 2 (f_month f)
       else if Ascii.eqb c "d" then py.fmt_field 2 (f_day f)
       else if Ascii.eqb c "H" then py.fmt_field 2 (f_hour f)
       else if Ascii.eqb c "M" then py.fmt_field 2 (f_minute f)
       else if Ascii.eqb c "S" then py.fmt_field 2 (f_second f)
       else if Ascii.eqb c "%" then "%"
       else String "%" (String c ""))
      +:+ strftime_fields f rest
  | String c rest => String c (strftime_fields f rest)
  end.

(** [t.strftime(fmt)] and [format(t, fmt)] for a non-empty [fmt]. *)
Definition strftime (t : Timestamp) (fmt : string) : string :=
  strftime_fields (ts_fields t) fmt.

(** [str(t)]: ISO format with a space separator; the fraction of a
    second is printed only when it is not zero. *)
Definition Timestamp_str (t : Timestamp) : string :=
  strftime t "%Y-%m-%d %H:%M:%S" +:+
  (if nanosecond t =? 0 then
     if microsecond t =? 0 then ""
     else "." +:+ py.fmt_field 6 (microsecond t)
   else "." +:+ py.fmt_field 6 (microsecond t) +:+ py.fmt_field 3 (nanosecond t)).

(** [pd.Timestamp(s)] for a string [s] of the shape YYYY-MM-DD (what
    [strftime("%Y-%m-%d")] prints for a four-digit year): midnight of
    that day.  Raises when [s] has another shape, when it is not a date
    of the Gregorian calendar, or when the day lies outside the 64-bit
    nanosecond range. *)
Definition Timestamp_of_string (s : string) : result Timestamp :=
  match py.parse_digits (substring 0 4 s),
        py.parse_digits (substring 5 2 s),
        py.parse_digits (substring 8 2 s) with
  | Some y, Some m, Some d =>
      if negb ((String.length s =? 10)%nat
               && bool_decide (substring 4 1 s = "-")
               && bool_decide (substring 7 1 s = "-"))
      then raise "ValueError" ("could not convert string to Timestamp: " +:+ s)
      else if negb (calendar.valid_date y m d)
      then raise "ValueError" ("day is out of range for month: " +:+ s)
      else
        let t := calendar.days_from_civil y m d * NS_PER_DAY in
        if (TS_MIN <=? t) && (t <=? TS_MAX) then inr t
        else raise "OutOfBoundsDatetime" ("Out of bounds nanosecond timestamp: " +:+ s)
  | _, _, _ => raise "ValueError" ("could not convert string to Timestamp: " +:+ s)
  end.

(** [pd.Timestamp(d)] for a [datetime.date]: midnight of that day. *)
Definition Timestamp_of_date (d : date) : Timestamp := d * NS_PER_DAY.

(** [t - pd.DateOffset(days=n)] *)
Definition sub_days (t : Timestamp) (n : Z) : Timestamp := t - n * NS_PER_DAY.

(** [pd.date_range(start, end)] with the default daily frequency:
    [start], [start] + 1 day, ... up to and including the last one that
    is not after [end]; empty when [end] is before [start]. *)
Definition date_range (start stop : Timestamp) : list Timestamp :=
  map (fun k : nat => start + Z.of_nat k * NS_PER_DAY)
      (seq 0 (Z.to_nat ((stop - start) / NS_PER_DAY + 1))).

End pd.

(** ** The world the pipeline runs in *)

(** The three stages the driver calls for a date. *)
Inductive stage := Fetch | Transform | Publish.

(** What a run does that can be observed: lines printed to the console,
    HTTP requests sent, and the driver's calls of a stage, tagged with the
    date of the loop iteration that makes the call. *)
Inductive event :=
| EPrint (line : string)
| EHttpGet (url : string)
| ECall (d : pd.Timestamp) (s : stage).

(** An entry of the local file system: a regular file with its content, or
    a directory. *)
Inductive node := File (content : list byte) | Dir.

Record world := World {
  fs : gmap string node;            (* local files, by path *)
  blobs : gmap string (list byte);  (* the remote container, by blob name *)
  out : list event;                 (* events so far, oldest first *)
  tmp_count : nat                   (* temporary files created so far *)
}.

Definition set_fs (f : gmap string node -> gmap string node) (w : world) : world :=
  World (f (fs w)) (blobs w) (out w) (tmp_count w).
Definition set_blobs (f : gmap string (list byte) -> gmap string (list byte)) (w : world) : world :=
  World (fs w) (f (blobs w)) (out w) (tmp_count w).
Definition emit (e : event) (w : world) : world :=
  World (fs w) (blobs w) (out w ++ [e]) (tmp_count w).

(** Computations that read and change the world and may raise; the world
    reached when an exception is raised is kept. *)
Definition M (A : Type) : Type := world -> result A * world.

Definition ret {A : Type} (a : A) : M A := fun w => (inr a, w).

Definition bind {A B : Type} (m : M A) (k : A -> M B) : M B :=
  fun w => match m w with
           | (inl e, w') => (inl e, w')
           | (inr a, w') => k a w'
           end.

Definition lift {A : Type} (r : result A) : M A := fun w => (r, w).

(** [try: m except Exception as e: h e] *)
Definition try_except {A : Type} (m : M A) (h : exn -> M A) : M A :=
  fun w => match m w with
           | (inl e, w') => h e w'
           | (inr a, w') => (inr a, w')
           end.

Definition print (line : string) : M unit := fun w => (inr tt, emit (EPrint line) w).
Definition log_call (d : pd.Timestamp) (s : stage) : M unit :=
  fun w => (inr tt, emit (ECall d s) w).

Declare Scope io_scope.
Delimit Scope io_scope with io.
Notation "x ← y ; z" := (bind y (fun x => z))
  (at level 20, y at level 100, z at level 200, only parsing) : io_scope.
Notation "x ;; z" := (bind x (fun _ => z))
  (at level 100, z at level 200, only parsing, right associativity) : io_scope.

(** [if b: m] *)
Definition when (b : bool) (m : M unit) : M unit := if b then m else ret tt.

(** [for x in l: body x]; an exception raised by [body] ends the loop. *)
Fixpoint for_each {A : Type} (l : list A) (body : A -> M unit) : M unit :=
  match l with
  | [] => ret tt
  | x :: l' => bind (body x) (fun _ => for_each l' body)
  end.

(** ** requests *)
Module requests.

(** The part of a [requests.Response] the code reads. *)
Record Response := { status_code : Z; content : list byte }.

(** [response.raise_for_status()]: raises [HTTPError] for a status from
    400 to 599, and returns for any other status. *)
Definition raise_for_status (r : Response) : result unit :=
  if (400 <=? status_code r) && (status_code r <? 500)
  then raise "HTTPError" (py.str_int (status_code r) +:+ " Client Error")
  else if (500 <=? status_code r) && (status_code r <? 600)
  then raise "HTTPError" (py.str_int (status_code r) +:+ " Server Error")
  else inr tt.

End requests.

(** ** xarray: labelled arrays *)
Module xr.

(** A position in an array, given by dimension name. *)
Definition index : Type := string -> nat.

(** A Python object stored in an array of dtype [object]: one with date
    and time fields and a [strftime] method (a [cftime] or [datetime]
    date-time), or any other object. *)
Inductive pyobj :=
| PyDatetime (f : pd.fields)
| PyOther (repr : string).

(** The values of an array with their numpy dtype: nanosecond
    date-times (['<M8[ns]'], as nanoseconds since the epoch), Python
    objects, or any other dtype (the bit pattern of each value).  A
    value is looked up by named position, so the order of the axes is
    not part of the values. *)
Inductive ndarray :=
| ArrDatetime64ns (f : index -> Z)
| ArrObject (f : index -> pyobj)
| ArrOther (dtype : string) (f : index -> Z).

(** One element of an array. *)
Inductive scalar :=
| SDatetime64ns (ns : Z)
| SObject (o : pyobj)
| SOther (dtype : string) (bits : Z).

Definition arr_get (a : ndarray) (i : index) : scalar :=
  match a with
  | ArrDatetime64ns f => SDatetime64ns (f i)
  | ArrObject f => SObject (f i)
  | ArrOther dt f => SOther dt (f i)
  end.

(** The array that holds at [i] what [a] holds at [g i]. *)
Definition arr_reindex (g : index -> index) (a : ndarray) : ndarray :=
  match a with
  | ArrDatetime64ns f => ArrDatetime64ns (fun i => f (g i))
  | ArrObject f => ArrObject (fun i => f (g i))
  | ArrOther dt f => ArrOther dt (fun i => f (g i))
  end.

(** [a.dtype == "<M8[ns]"] *)
Definition is_datetime64_ns (a : ndarray) : bool :=
  match a with
  | ArrDatetime64ns _ => true
  | _ => false
  end.

(** An [xarray.Variable]: named dimensions with their lengths, in axis
    order, the values, and the attributes. *)
Record Var := {
  v_dims : list (string * nat);
  v_data : ndarray;
  v_attrs : gmap string string
}.

Definition dim_names (v : Var) : list string := (v_dims v).*1.

(** The length of dimension [d] of [v], if [v] has it. *)
Definition dim_size (v : Var) (d : string) : option nat :=
  snd <$> find (fun p => String.eqb p.1 d) (v_dims v).

(** An [xarray.Dataset]: its variables by name, and which of them are
    coordinates. *)
Record Dataset := {
  ds_variables : gmap string Var;
  ds_coord_names : gset string
}.

(** An [xarray.DataArray]: a named variable with the coordinates that
    label it. *)
Record DataArray := {
  da_name : string;
  da_variable : Var;
  da_coords : gmap string Var
}.

End xr.

(** ** The outside world *)

(** What a run reads from outside the program. *)
Record env := {
  (* [os.getenv("DEV_BLOB_SAS")] *)
  dev_blob_sas : string;
  (* [datetime.date.today()] *)
  today : pd.date;
  (* what the data provider answers to a GET of a URL: a raised
     exception (no connection, too many redirects, ...) or a response *)
  http : string -> result requests.Response;
  (* how the content of a local file decodes as a NetCDF dataset *)
  nc_decode : list byte -> result xr.Dataset;
  (* the cloud-optimized raster encoding of an array *)
  cog_encode : xr.DataArray -> result (list byte);
  (* the path of the n-th temporary file *)
  tmp_name : nat -> string;
  (* a failure of the remote listing, if any *)
  list_error : option exn;
  (* a failure of the upload to a blob name, if any *)
  upload_error : string -> option exn
}.

Open Scope io_scope.

(** ** The [os] module, [open] and [tempfile] over the modelled file system

    Paths are the strings the program passes; the empty path names nothing
    ([os.path.exists("")] is false), and a path without a directory part
    lies in the working directory, which exists. *)
Module os.

Definition is_sep (c : ascii) : bool := Ascii.eqb c "/".

(** [p[:p.rfind("/") + 1]], or [None] when [p] has no separator. *)
Fixpoint head_part (p : string) : option string :=
  match p with
  | EmptyString => None
  | String c p' =>
      match head_part p' with
      | Some h => Some (String c h)
      | None => if is_sep c then Some (String c "") else None
      end
  end.

(** [s.rstrip("/")] *)
Fixpoint rstrip_sep (s : string) : string :=
  match s with
  | EmptyString => ""
  | String c s' =>
      match rstrip_sep s' with
      | EmptyString => if is_sep c then "" else String c ""
      | r => String c r
      end
  end.

(** [os.path.dirname(p)] *)
Definition path_dirname (p : string) : string :=
  match head_part p with
  | None => ""
  | Some h => match rstrip_sep h with
              | EmptyString => h
              | r => r
              end
  end.

(** [os.path.exists(p)] *)
Definition path_exists (p : string) : M bool :=
  fun w => (inr (bool_decide (is_Some (fs w !! p))), w).

(** [os.remove(p)]: removes a regular file; raises for a directory and
    for a path that does not exist. *)
Definition remove (p : string) : M unit :=
  fun w => match fs w !! p with
           | Some (File _) => (inr tt, set_fs (delete p) w)
           | Some Dir => (raise "IsADirectoryError" p, w)
           | None => (raise "FileNotFoundError" p, w)
           end.

(** Whether a file can be created in the directory part of [p]. *)
Definition parent_ok (tree : gmap string node) (p : string) : result unit :=
  match path_dirname p with
  | EmptyString => inr tt
  | d => match tree !! d with
         | Some Dir => inr tt
         | Some (File _) => raise "NotADirectoryError" p
         | None => raise "FileNotFoundError" p
         end
  end.

(** [os.mkdir(p)] *)
Definition mkdir (p : string) : M unit :=
  fun w => match p with
           | EmptyString => (raise "FileNotFoundError" p, w)
           | _ =>
               match fs w !! p with
               | Some _ => (raise "FileExistsError" p, w)
               | None =>
                   match parent_ok (fs w) p with
                   | inl e => (inl e, w)
                   | inr _ => (inr tt, set_fs (insert p Dir) w)
                   end
               end
           end.

(** [os.makedirs(p, exist_ok=True)]: creates the missing directories of
    the directory part of [p], then [p]; an existing directory [p] is
    not an error.  [fuel] bounds the recursion on the directory part,
    which is shorter than [p]. *)
Fixpoint makedirs_go (fuel : nat) (p : string) : M unit :=
  match fuel with
  | O => lift (raise "RecursionError" p)
  | S fuel' =>
      let head := path_dirname p in
      missing ← (if bool_decide (head = "") then ret false
                 else b ← path_exists head; ret (negb b));
      when missing
           (try_except (makedirs_go fuel' head)
              (fun e => if bool_decide (exn_class e = "FileExistsError")
                        then ret tt else lift (inl e)));;
      try_except (mkdir p)
        (fun e => fun w => match fs w !! p with
                           | Some Dir => (inr tt, w)
                           | _ => (inl e, w)
                           end)
  end.

Definition makedirs (p : string) : M unit := makedirs_go (S (String.length p)) p.

(** [open(p, "wb")]: creates the file or empties it. *)
Definition open_wb (p : string) : M unit :=
  fun w => match fs w !! p with
           | Some Dir => (raise "IsADirectoryError" p, w)
           | _ => match parent_ok (fs w) p with
                  | inl e => (inl e, w)
                  | inr _ => (inr tt, set_fs (insert p (File [])) w)
                  end
           end.

(** [f.write(bytes)] on the file opened at [p]: appends to what has
    been written since it was opened. *)
Definition write (p : string) (bytes : list byte) : M unit :=
  fun w => match fs w !! p with
           | Some (File old) => (inr tt, set_fs (insert p (File (old ++ bytes))) w)
           | _ => (raise "OSError" p, w)
           end.

(** [open(p, "rb").read()] *)
Definition read_rb (p : string) : M (list byte) :=
  fun w => match fs w !! p with
           | Some (File c) => (inr c, w)
           | Some Dir => (raise "IsADirectoryError" p, w)
           | None => (raise "FileNotFoundError" p, w)
           end.

(** [tempfile.NamedTemporaryFile(delete=False, ...)]: a new empty file;
    returns its path. *)
Definition NamedTemporaryFile (E : env) : M string :=
  fun w => let p := tmp_name E (tmp_count w) in
           (inr p, World (<[p := File []]> (fs w)) (blobs w) (out w) (S (tmp_count w))).

End os.

(** ** xarray operations *)
Module xrops.
Import xr.

(** The dimension lengths of a dataset ([ds.sizes]), collected from its
    variables. *)
Definition ds_sizes (ds : Dataset) : gmap string nat :=
  foldr (fun kv acc => list_to_map (v_dims kv.2) ∪ acc) ∅
        (map_to_list (ds_variables ds)).

(** [xr.open_dataset(path)] *)
Definition open_dataset (E : env) (path : string) : M Dataset :=
  bytes ← os.read_rb path;
  lift (nc_decode E bytes).

(** [var.transpose] in the order [order], for the dimensions of [order] that [v] has. *)
Definition transpose_var (order : list string) (v : Var) : Var :=
  {| v_dims := omap (fun d => pair d <$> dim_size v d) order;
     v_data := v_data v;
     v_attrs := v_attrs v |}.

(** [ds.transpose] with the names [order]: raises unless [order] names the dimensions
    of the dataset, each of them and no other; then puts the dimensions
    of every variable in that order. *)
Definition transpose (order : list string) (ds : Dataset) : result Dataset :=
  if bool_decide (list_to_set order = dom (ds_sizes ds))
  then inr {| ds_variables := transpose_var order <$> ds_variables ds;
              ds_coord_names := ds_coord_names ds |}
  else raise "ValueError" "must be a permuted list of the dimensions".

(** [key in ds] *)
Definition contains (ds : Dataset) (key : string) : bool :=
  bool_decide (is_Some (ds_variables ds !! key)).

(** The index [0 .. n-1] that stands for a dimension without a
    coordinate. *)
Definition range_var (d : string) (n : nat) : Var :=
  {| v_dims := [(d, n)];
     v_data := ArrOther "int64" (fun i => Z.of_nat (i d));
     v_attrs := ∅ |}.

(** The array of [ds] for a variable [v] named [key]: it takes the
    coordinates of [ds] whose dimensions are dimensions of [v]. *)
Definition construct_dataarray (ds : Dataset) (key : string) (v : Var) : DataArray :=
  {| da_name := key;
     da_variable := v;
     da_coords :=
       filter (fun kv => kv.1 ∈ ds_coord_names ds
                         /\ Forall (fun d => d ∈ dim_names v) (dim_names kv.2))
              (ds_variables ds) |}.

(** [ds[key]]: the variable of that name, or the index of the dimension
    of that name; [KeyError] otherwise. *)
Definition getitem (ds : Dataset) (key : string) : result DataArray :=
  match ds_variables ds !! key with
  | Some v => inr (construct_dataarray ds key v)
  | None =>
      match ds_sizes ds !! key with
      | Some n => inr (construct_dataarray ds key (range_var key n))
      | None => raise "KeyError" key
      end
  end.

(** [da[key]] for a string: the coordinate of that name, or the index
    of the dimension of that name; [KeyError] otherwise. *)
Definition da_getitem (da : DataArray) (key : string) : result Var :=
  match da_coords da !! key with
  | Some v => inr v
  | None =>
      match dim_size (da_variable da) key with
      | Some n => inr (range_var key n)
      | None => raise "KeyError" key
      end
  end.

(** The index that is [pos] along dimension [d]. *)
Definition at_pos (d : string) (pos : nat) : index := fun _ => pos.

(** [list(v.values)]: the elements of a one-dimensional array, [None]
    standing for a sub-array when there are more dimensions; iterating
    over an array without dimensions raises. *)
Definition iter_values (v : Var) : result (list (option scalar)) :=
  match v_dims v with
  | [] => raise "TypeError" "iteration over a 0-d array"
  | [(d, n)] => inr (map (fun k => Some (arr_get (v_data v) (at_pos d k))) (seq 0 n))
  | (d, n) :: _ => inr (repeat None n)
  end.

(** [pd.DatetimeIndex] assigned as the coordinate [key] of [da]
    ([da[key] = index]): [key] must be a dimension of [da] of the
    length of the index. *)
Definition set_coord (da : DataArray) (key : string) (times : list pd.Timestamp)
  : result DataArray :=
  if bool_decide (dim_size (da_variable da) key = Some (length times))
  then inr {| da_name := da_name da;
              da_variable := da_variable da;
              da_coords :=
                <[key := {| v_dims := [(key, length times)];
                            v_data := ArrDatetime64ns (fun i => nth (i key) times 0);
                            v_attrs := ∅ |}]> (da_coords da) |}
  else raise "ValueError" "cannot add coordinates with new dimensions to a DataArray".

(** The new name of [k] under a renaming. *)
Definition rename_key (name_dict : list (string * string)) (k : string) : string :=
  match find (fun p => String.eqb p.1 k) name_dict with
  | Some p => p.2
  | None => k
  end.

Definition rename_var (name_dict : list (string * string)) (v : Var) : Var :=
  {| v_dims := map (fun p => (rename_key name_dict p.1, p.2)) (v_dims v);
     v_data := arr_reindex (fun i d => i (rename_key name_dict d)) (v_data v);
     v_attrs := v_attrs v |}.

(** [da.rename(name_dict)]: every old name must be a coordinate or a
    dimension of [da], and the new names of the coordinates must be
    distinct. *)
Definition rename (name_dict : list (string * string)) (da : DataArray)
  : result DataArray :=
  if negb (forallb (fun p => bool_decide (is_Some (da_coords da !! p.1)
                                          \/ p.1 ∈ dim_names (da_variable da)))
                   name_dict)
  then raise "ValueError" "cannot rename: not a variable or dimension"
  else if negb (bool_decide (NoDup (rename_key name_dict <$> (map_to_list (da_coords da)).*1)))
  then raise "ValueError" "the new name conflicts"
  else inr {| da_name := da_name da;
              da_variable := rename_var name_dict (da_variable da);
              da_coords :=
                list_to_map (map (fun kv => (rename_key name_dict kv.1,
                                             rename_var name_dict kv.2))
                                 (map_to_list (da_coords da))) |}.

(** The dimensions of length one. *)
Definition squeeze_dims (v : Var) : list string :=
  (filter (fun p => p.2 = 1%nat) (v_dims v)).*1.

(** [v.isel({d: 0 for d in sq})] *)
Definition isel0 (sq : list string) (v : Var) : Var :=
  {| v_dims := filter (fun p => p.1 ∉ sq) (v_dims v);
     v_data := arr_reindex (fun i d => if bool_decide (d ∈ sq) then 0%nat else i d)
                           (v_data v);
     v_attrs := v_attrs v |}.

(** [da.squeeze(drop=True)]: selects position 0 along every dimension
    of length one, which removes the dimension; a coordinate that this
    leaves without dimensions is dropped. *)
Definition squeeze_drop (da : DataArray) : DataArray :=
  let sq := squeeze_dims (da_variable da) in
  {| da_name := da_name da;
     da_variable := isel0 sq (da_variable da);
     da_coords :=
       omap (fun c => if bool_decide (Exists (fun d => d ∈ sq) (dim_names c))
                      then let c' := isel0 sq c in
                           if bool_decide (v_dims c' = []) then None else Some c'
                      else Some c)
            (da_coords da) |}.

End xrops.

(** ** [src/utils/blob.py] and the container client *)
Module blob.

Definition DEV_BLOB_NAME : string := "imb0chd0dev".
Definition DEV_BLOB_BASE_URL : string :=
  "https://" +:+ DEV_BLOB_NAME +:+ ".blob.core.windows.net/".
Definition GLOBAL_CONTAINER_NAME : string := "global".

(** [DEV_BLOB_SAS] is the value of the environment variable of that
    name. *)
Definition DEV_BLOB_GLB_URL (DEV_BLOB_SAS : string) : string :=
  DEV_BLOB_BASE_URL +:+ GLOBAL_CONTAINER_NAME +:+ "?" +:+ DEV_BLOB_SAS.

(** An [azure.storage.blob.ContainerClient]. *)
Record ContainerClient := { container_url : string }.

Definition get_glb_container_client (DEV_BLOB_SAS : string) : ContainerClient :=
  {| container_url := DEV_BLOB_GLB_URL DEV_BLOB_SAS |}.

(** The names in a container that start with [p]. *)
Definition blob_names (p : string) (store : gmap string (list byte)) : list string :=
  filter (fun n => Strings.String.prefix p n = true) (map_to_list store).*1.

(** [[x.name for x in client.list_blobs(name_starts_with=p)]] *)
Definition list_blob_names (E : env) (client : ContainerClient) (p : string)
  : M (list string) :=
  fun w => match list_error E with
           | Some e => (inl e, w)
           | None => (inr (blob_names p (blobs w)), w)
           end.

(** [client.get_blob_client(name).upload_blob(data, overwrite=True)] *)
Definition upload_blob (E : env) (client : ContainerClient) (name : string)
    (data : list byte) : M unit :=
  fun w => match upload_error E name with
           | Some e => (inl e, w)
           | None => (inr tt, set_blobs (insert name data) w)
           end.

End blob.

(** ** [str.format] on a template with named fields *)
Module fmt.

(** An argument of [format]. *)
Inductive value :=
| VStr (s : string)
| VInt (n : Z)
| VTimestamp (t : pd.Timestamp).

(** A piece of a template: literal text, or a replacement field
    [{name:spec}] ([{name}] has the empty spec). *)
Inductive piece :=
| Lit (s : string)
| Field (name spec : string).

(** Where the scan of a template is: in literal text, in the name of a
    field, or in its spec; with what has been read of it. *)
Inductive mode :=
| InText (text : string)
| InName (name : string)
| InSpec (name spec : string).

Definition snoc (s : string) (c : ascii) : string := s +:+ String c "".

(** Splits a template into its pieces (a template without doubled
    braces); [None] for a brace that is not closed or not opened. *)
Fixpoint parse (m : mode) (s : string) : option (list piece) :=
  match s, m with
  | EmptyString, InText t => Some [Lit t]
  | EmptyString, _ => None
  | String c s', InText t =>
      if Ascii.eqb c "{" then cons (Lit t) <$> parse (InName "") s'
      else if Ascii.eqb c "}" then None
      else parse (InText (snoc t c)) s'
  | String c s', InName n =>
      if Ascii.eqb c "}" then cons (Field n "") <$> parse (InText "") s'
      else if Ascii.eqb c ":" then parse (InSpec n "") s'
      else parse (InName (snoc n c)) s'
  | String c s', InSpec n sp =>
      if Ascii.eqb c "}" then cons (Field n sp) <$> parse (InText "") s'
      else parse (InSpec n (snoc sp c)) s'
  end.

(** [format(v, spec)] for the values and specs the repository uses. *)
Definition format_value (v : value) (spec : string) : result string :=
  match v, spec with
  | VStr s, EmptyString => inr s
  | VInt n, EmptyString => inr (py.str_int n)
  | VTimestamp t, EmptyString => inr (pd.Timestamp_str t)
  | VTimestamp t, _ => inr (pd.strftime t spec)
  | _, _ => raise "ValueError" "Invalid format specifier"
  end.

Fixpoint render (kwargs : list (string * value)) (ps : list piece) : result string :=
  match ps with
  | [] => inr ""
  | Lit s :: ps' => result_bind (render kwargs ps') (fun r => inr (s +:+ r))
  | Field n sp :: ps' =>
      match find (fun kv => String.eqb kv.1 n) kwargs with
      | None => raise "KeyError" n
      | Some kv =>
          result_bind (format_value kv.2 sp) (fun a =>
          result_bind (render kwargs ps') (fun r => inr (a +:+ r)))
      end
  end.

(** [template.format] with keyword arguments [kwargs] *)
Definition format (template : string) (kwargs : list (string * value)) : result string :=
  match parse (InText "") template with
  | None => raise "ValueError" "Single brace encountered in format string"
  | Some ps => render kwargs ps
  end.

End fmt.

(** ** [src/datasources/imerg.py] *)
Module imerg.
Import xr.

Definition IMERG_BASE_URL : string :=
  "https://gpm1.gesdisc.eosdis.nasa.gov/data/GPM_L3/GPM_3IMERGD" +:+
  "{run}.0{version}/{date:%Y}/{date:%m}/3B-DAY-{run}.MS.MRG.3IMERG." +:+
  "{date:%Y%m%d}-S000000-E235959.V0{version}{version_letter}.nc4".

(** A path argument: a [str] or a [pathlib.Path]. *)
Inductive pathlike :=
| PStr (s : string)
| PPath (s : string).

(** [os.fspath(p)] *)
Definition fspath (p : pathlike) : string :=
  match p with
  | PStr s => s
  | PPath s => s
  end.

(** [prefix + p]: defined for a [str] only. *)
Definition str_add (prefix : string) (p : pathlike) : result string :=
  match p with
  | PStr s => inr (prefix +:+ s)
  | PPath _ => raise "TypeError" "can only concatenate str (not PosixPath) to str"
  end.

(** [requests.get(url)] *)
Definition requests_get (E : env) (url : string) : M requests.Response :=
  fun w => (http E url, emit (EHttpGet url) w).

(** The [version_letter] of line 84. *)
Definition version_letter (version : Z) : string :=
  if version =? 7 then "B" else "".

(** The URL of lines 84 to 87. *)
Definition imerg_url (date : pd.Timestamp) (run : string) (version : Z) : result string :=
  fmt.format IMERG_BASE_URL
    [("run", fmt.VStr run); ("date", fmt.VTimestamp date);
     ("version", fmt.VInt version);
     ("version_letter", fmt.VStr (version_letter version))].

(** Lines 92 to 96: the directory of [p] is created when it does not
    exist, and the content is written to [p]. *)
Definition write_content (p : string) (content : list byte) : M unit :=
  dir_found ← os.path_exists (os.path_dirname p);
  when (negb dir_found) (os.makedirs (os.path_dirname p));;
  os.open_wb p;;
  os.write p content.

Definition download_imerg (E : env) (date : pd.Timestamp) (run : string)
    (version : Z) (save_path : pathlike) (verbose : bool) : M unit :=
  found ← os.path_exists (fspath save_path);
  when found (os.remove (fspath save_path));;
  url ← lift (imerg_url date run version);
  when verbose (print ("downloading from " +:+ url));;
  response ← requests_get E url;
  lift (requests.raise_for_status response);;
  write_content (fspath save_path) (requests.content response);;
  when verbose (msg ← lift (str_add "contents of URL written to " save_path);
                print msg).

(** The defaults of [download_imerg]. *)
Definition DEFAULT_RUN : string := "L".
Definition DEFAULT_VERSION : Z := 7.
Definition DEFAULT_SAVE_PATH : pathlike := PPath "temp/imerg_temp.nc".

(** [pd.Timestamp(t.strftime("%Y-%m-%d"))] for an element [t] of the
    time values; an element without a [strftime] method raises. *)
Definition truncate_to_date (t : option scalar) : result pd.Timestamp :=
  match t with
  | Some (SObject (PyDatetime f)) =>
      pd.Timestamp_of_string (pd.strftime_fields f "%Y-%m-%d")
  | _ => raise "AttributeError" "object has no attribute strftime"
  end.

(** A list comprehension whose element expression may raise. *)
Fixpoint list_comp {A B : Type} (f : A -> result B) (l : list A) : result (list B) :=
  match l with
  | [] => inr []
  | a :: l' => result_bind (f a) (fun b =>
               result_bind (list_comp f l') (fun bs => inr (b :: bs)))
  end.

(** Lines 108 to 111: unless the time variable of the dataset has the
    nanosecond date-time dtype, the time coordinate of [da] is replaced
    by the dates of its values. *)
Definition times_to_dates (ds : Dataset) (da : DataArray) : result DataArray :=
  result_bind (xrops.getitem ds "time") (fun ds_time =>
  if negb (is_datetime64_ns (v_data (da_variable ds_time))) then
    result_bind (xrops.da_getitem da "time") (fun da_time =>
    result_bind (xrops.iter_values da_time) (fun values =>
    result_bind (list_comp truncate_to_date values) (fun times =>
    xrops.set_coord da "time" times)))
  else inr da).

(** The name of lines 104 to 106. *)
Definition var_name (ds : Dataset) : string :=
  if xrops.contains ds "precipitationCal" then "precipitationCal" else "precipitation".

Definition process_imerg (E : env) (path : string) : M DataArray :=
  ds ← xrops.open_dataset E path;
  ds ← lift (xrops.transpose ["lat"; "lon"; "time"; "nv"] ds);
  da ← lift (xrops.getitem ds (var_name ds));
  da ← lift (times_to_dates ds da);
  da ← lift (xrops.rename [("lon", "x"); ("lat", "y")] da);
  ret (xrops.squeeze_drop da).

Definition DEFAULT_PATH : string := "temp/imerg_temp.nc".

(** [da.rio.to_raster(filename, driver="COG")] *)
Definition to_raster (E : env) (da : DataArray) (filename : string) : M unit :=
  bytes ← lift (cog_encode E da);
  fun w => (inr tt, set_fs (insert filename (File bytes)) w).

Definition upload_imerg (E : env) (da : DataArray) (output_path : string) : M unit :=
  temp_filename ← os.NamedTemporaryFile E;
  to_raster E da temp_filename;;
  f ← os.read_rb temp_filename;
  blob.upload_blob E (blob.get_glb_container_client (dev_blob_sas E)) output_path f.

(** The blob name of line 40. *)
Definition output_blob_of (date : pd.Timestamp) : string :=
  "imerg/v7/imerg-daily-late-" +:+ pd.strftime date "%Y-%m-%d" +:+ ".tif".

(** The three calls of lines 48 to 50; each call is recorded with the
    date of the iteration. *)
Definition fetch_transform_publish (E : env) (date : pd.Timestamp)
    (output_blob : string) : M unit :=
  log_call date Fetch;;
  download_imerg E date DEFAULT_RUN DEFAULT_VERSION DEFAULT_SAVE_PATH false;;
  log_call date Transform;;
  da ← process_imerg E DEFAULT_PATH;
  log_call date Publish;;
  upload_imerg E da output_blob.

(** The body of the loop of [download_recent_imerg], lines 39 to 53. *)
Definition process_date (E : env) (existing_files : list string) (date : pd.Timestamp)
  : M unit :=
  let output_blob := output_blob_of date in
  if bool_decide (output_blob ∈ existing_files) then
    print (output_blob +:+ " already exists, skipping")
  else
    print ("downloading and processing " +:+ output_blob);;
    try_except
      (fetch_transform_publish E date output_blob)
      (fun e =>
         print ("failed to download and process " +:+ pd.Timestamp_str date);;
         print (exn_msg e)).

(** The dates of the loop, lines 36 to 38. *)
Definition recent_dates (E : env) : result (list pd.Timestamp) :=
  result_bind (pd.Timestamp_of_string "2024-06-01") (fun start =>
  inr (pd.date_range start (pd.sub_days (pd.Timestamp_of_date (today E)) 1))).

Definition download_recent_imerg (E : env) : M unit :=
  existing_files ←
    blob.list_blob_names E (blob.get_glb_container_client (dev_blob_sas E)) "imerg/v7";
  dates ← lift (recent_dates E);
  for_each dates (process_date E existing_files).

End imerg.
(** * The vocabulary of the statements *)

(** [emits P m]: whatever the world, [m] only appends events to the log,
    and every event it appends satisfies [P]. *)
Definition emits {A : Type} (P : event -> Prop) (m : M A) : Prop :=
  forall w, exists evs, out (m w).2 = out w ++ evs /\ Forall P evs.

(** An event that is not the record of a driver call. *)
Definition not_call (e : event) : Prop :=
  match e with
  | ECall _ _ => False
  | _ => True
  end.

(** The line an iteration prints first. *)
Definition iteration_header (existing : list string) (d : pd.Timestamp) : string :=
  if bool_decide (imerg.output_blob_of d ∈ existing)
  then imerg.output_blob_of d +:+ " already exists, skipping"
  else "downloading and processing " +:+ imerg.output_blob_of d.

(** An event an iteration for date [d] may add after its first line: a
    call is recorded only for [d], and only when the blob of [d] is not in
    the listing. *)
Definition iteration_event (existing : list string) (d : pd.Timestamp) (e : event) : Prop :=
  match e with
  | ECall d' _ => d' = d /\ imerg.output_blob_of d ∉ existing
  | _ => True
  end.

(** The events of one iteration: its first line and nothing else when the
    blob of [d] is in the listing; otherwise its first line, the record of
    the call of the fetch stage, and further events of the iteration. *)
Definition iteration_events (existing : list string) (d : pd.Timestamp)
    (chunk : list event) : Prop :=
  exists rest, chunk = EPrint (iteration_header existing d) :: rest
               /\ Forall (iteration_event existing d) rest
               /\ if bool_decide (imerg.output_blob_of d ∈ existing)
                  then rest = []
                  else exists rest', rest = ECall d Fetch :: rest'.

(** [keeps_files m]: a regular file found after [m] was there before, with
    the same content: [m] creates no file and rewrites none. *)
Definition keeps_files {A : Type} (m : M A) : Prop :=
  forall w p c, fs (m w).2 !! p = Some (File c) -> fs w !! p = Some (File c).

(** The world in which the GET of [url] has been sent, after the removal
    of what was at [p]. *)
Definition after_get (url p : string) (w : world) : world :=
  emit (EHttpGet url) (set_fs (delete p) w).

(** The order of the dimensions of line 103, and the renaming of line
    112. *)
Definition DIM_ORDER : list string := ["lat"; "lon"; "time"; "nv"].
Definition XY_NAMES : list (string * string) := [("lon", "x"); ("lat", "y")].

(** What [process_imerg] does to the selected variable: transposed,
    renamed, squeezed. *)
Definition transformed (v : xr.Var) : xr.Var :=
  let v2 := xrops.rename_var XY_NAMES (xrops.transpose_var DIM_ORDER v) in
  xrops.isel0 (xrops.squeeze_dims v2) v2.

(** A variable that has only the dimension time. *)
Definition along_time (c : xr.Var) : Prop := exists n, xr.v_dims c = [("time", n)].

(** Whether [n] prints with exactly four (two) digits that read back as
    [n]. *)
Definition four_digits_ok (n : Z) : bool :=
  match py.fmt_field 4 n with
  | String a (String b (String c (String d EmptyString))) =>
      match py.parse_digits (String a (String b (String c (String d EmptyString)))) with
      | Some n' => n' =? n
      | None => false
      end
  | _ => false
  end.

Definition two_digits_ok (n : Z) : bool :=
  match py.fmt_field 2 n with
  | String a (String b EmptyString) =>
      match py.parse_digits (String a (String b EmptyString)) with
      | Some n' => n' =? n
      | None => false
      end
  | _ => false
  end.

(** A date-time whose date is a date of the calendar that the 64-bit
    nanosecond range holds. *)
Definition representable (f : pd.fields) : Prop :=
  calendar.valid_date (pd.f_year f) (pd.f_month f) (pd.f_day f) = true
  /\ pd.TS_MIN
     <= calendar.days_from_civil (pd.f_year f) (pd.f_month f) (pd.f_day f) * pd.NS_PER_DAY
     <= pd.TS_MAX.

(** What lines 109 to 111 make of one time value [t]: the timestamp [ts]
    read back from the text of the date of [t]; it is midnight of that
    date. *)
Definition date_of_value (t : option xr.scalar) (ts : pd.Timestamp) : Prop :=
  exists f,
    t = Some (xr.SObject (xr.PyDatetime f))
    /\ pd.Timestamp_of_string (pd.strftime_fields f "%Y-%m-%d") = inr ts
    /\ ts = pd.Timestamp_of_date
              (calendar.days_from_civil (pd.f_year f) (pd.f_month f) (pd.f_day f))
    /\ (pd.year ts, pd.month ts, pd.day ts) = (pd.f_year f, pd.f_month f, pd.f_day f)
    /\ pd.ts_time_of_day ts = 0.

(** ** A sample granule, and sample worlds *)
Module example.
Import xr.

Definition mkvar (dims : list (string * nat)) (a : ndarray) : Var :=
  {| v_dims := dims; v_data := a; v_attrs := ∅ |}.

(** A small granule of one day, 2024-06-01, with its time given as a
    date-time object at half past twelve: two longitudes, three
    latitudes, both precipitation variables. *)
Definition granule : Dataset :=
  {| ds_variables :=
       list_to_map
         [("precipitationCal",
           mkvar [("time", 1%nat); ("lon", 2%nat); ("lat", 3%nat)]
                 (ArrOther "float32" (fun i => Z.of_nat (i "lon" * 10 + i "lat"))));
          ("precipitation",
           mkvar [("time", 1%nat); ("lon", 2%nat); ("lat", 3%nat)]
                 (ArrOther "float32" (fun i => Z.of_nat (i "lon" * 100 + i "lat"))));
          ("time",
           mkvar [("time", 1%nat)]
                 (ArrObject (fun _ => PyDatetime (pd.Fields 2024 6 1 12 30 0))));
          ("lon", mkvar [("lon", 2%nat)] (ArrOther "float32" (fun i => Z.of_nat (i "lon"))));
          ("lat", mkvar [("lat", 3%nat)] (ArrOther "float32" (fun i => Z.of_nat (i "lat"))));
          ("time_bnds",
           mkvar [("time", 1%nat); ("nv", 2%nat)]
                 (ArrObject (fun _ => PyDatetime (pd.Fields 2024 6 1 0 0 0))))];
     ds_coord_names := {["time"; "lon"; "lat"]} |}.

(** The day after 2024-06-03, a provider that answers every GET with
    the given status and a two-byte body, a decoder that reads the
    sample granule, and a remote container without failures. *)
Definition env_with_status (status : Z) : env :=
  {| dev_blob_sas := "sig";
     today := 19878;
     http := fun _ => inr {| requests.status_code := status;
                             requests.content := [x01; x02] |};
     nc_decode := fun _ => inr granule;
     cog_encode := fun _ => inr [x03];
     tmp_name := fun n => "/tmp/tmp" +:+ py.str_int (Z.of_nat n) +:+ ".tif";
     list_error := None;
     upload_error := fun _ => None |}.

Definition E200 : env := env_with_status 200.
Definition E304 : env := env_with_status 304.
Definition E404 : env := env_with_status 404.

(** Midnight of 2024-06-01, 2024-06-02 and 2024-06-03. *)
Definition june1 : pd.Timestamp := 19875 * pd.NS_PER_DAY.
Definition june2 : pd.Timestamp := 19876 * pd.NS_PER_DAY.
Definition june3 : pd.Timestamp := 19877 * pd.NS_PER_DAY.

(** Nothing on disk, nothing remote. *)
Definition w_empty : world := World ∅ ∅ [] 0.

(** The blob of 2024-06-02 is in the container. *)
Definition w_listed : world :=
  World ∅ {["imerg/v7/imerg-daily-late-2024-06-02.tif" := [x09]]} [] 0.

(** A raw file of an earlier date is on disk. *)
Definition w_downloaded : world :=
  World {["temp" := Dir; "temp/imerg_temp.nc" := File [x07]]} ∅ [] 0.

(** What [process_imerg] returns for the sample granule. *)
Definition da_out : DataArray :=
  match (imerg.process_imerg E200 imerg.DEFAULT_PATH w_downloaded).1 with
  | inr da => da
  | inl _ => {| da_name := ""; da_variable := mkvar [] (ArrOther "" (fun _ => 0));
                da_coords := ∅ |}
  end.

(** The selected variable and the time variable of the sample granule,
    as arrays. *)
Definition da_cal : DataArray :=
  xrops.construct_dataarray granule "precipitationCal"
    (mkvar [("time", 1%nat); ("lon", 2%nat); ("lat", 3%nat)]
           (ArrOther "float32" (fun i => Z.of_nat (i "lon" * 10 + i "lat")))).

Definition da_time : DataArray :=
  xrops.construct_dataarray granule "time"
    (mkvar [("time", 1%nat)]
           (ArrObject (fun _ => PyDatetime (pd.Fields 2024 6 1 12 30 0)))).

End example.

(** ** More sample worlds *)
Module example2.


(** An environment like [example.E200] whose clock says 2024-06-01. *)
Definition E_first_day : env :=
  {| dev_blob_sas := "sig";
     today := 19875;
     http := http example.E200;
     nc_decode := nc_decode example.E200;
     cog_encode := cog_encode example.E200;
     tmp_name := tmp_name example.E200;
     list_error := None;
     upload_error := fun _ => None |}.

(** A granule without a precipitation variable. *)
Definition granule_without_precipitation : xr.Dataset :=
  {| xr.ds_variables :=
       delete "precipitation" (delete "precipitationCal" (xr.ds_variables example.granule));
     xr.ds_coord_names := xr.ds_coord_names example.granule |}.

(** A granule without the variable of the time bounds, hence without the
    dimension nv. *)
Definition granule_without_nv : xr.Dataset :=
  {| xr.ds_variables := delete "time_bnds" (xr.ds_variables example.granule);
     xr.ds_coord_names := xr.ds_coord_names example.granule |}.

(** An environment like [example.E200] with another decoded dataset. *)
Definition E_decoding (ds : xr.Dataset) : env :=
  {| dev_blob_sas := "sig";
     today := 19878;
     http := http example.E200;
     nc_decode := fun _ => inr ds;
     cog_encode := cog_encode example.E200;
     tmp_name := tmp_name example.E200;
     list_error := None;
     upload_error := fun _ => None |}.

(** A granule of one day on a grid with a single latitude and two
    longitudes. *)
Definition granule_one_latitude : xr.Dataset :=
  {| xr.ds_variables :=
       list_to_map
         [("precipitationCal",
           example.mkvar [("time", 1%nat); ("lon", 2%nat); ("lat", 1%nat)]
                         (xr.ArrOther "float32" (fun i => Z.of_nat (i "lon"))));
          ("time",
           example.mkvar [("time", 1%nat)]
                         (xr.ArrObject (fun _ => xr.PyDatetime (pd.Fields 2024 6 1 12 30 0))));
          ("lon", example.mkvar [("lon", 2%nat)]
                                (xr.ArrOther "float32" (fun i => Z.of_nat (i "lon"))));
          ("lat", example.mkvar [("lat", 1%nat)]
                                (xr.ArrOther "float32" (fun i => Z.of_nat (i "lat"))));
          ("time_bnds",
           example.mkvar [("time", 1%nat); ("nv", 2%nat)]
                         (xr.ArrObject (fun _ => xr.PyDatetime (pd.Fields 2024 6 1 0 0 0))))];
     xr.ds_coord_names := {["time"; "lon"; "lat"]} |}.

(** The sample granule with its time given as text: an array of dtype
    object that holds the string 2024-06-01. *)
Definition granule_string_time : xr.Dataset :=
  {| xr.ds_variables :=
       <["time" := example.mkvar [("time", 1%nat)]
                     (xr.ArrObject (fun _ => xr.PyOther "2024-06-01"))]>
         (xr.ds_variables example.granule);
     xr.ds_coord_names := xr.ds_coord_names example.granule |}.

(** A regular file named temp stands where the directory of the raw
    file should be. *)
Definition w_temp_is_file : world := World {["temp" := File [x07]]} ∅ [] 0.

End example2.

(** Where the value at position [i] of the transformed variable sits in
    the variable [v] it was made from: along a dimension that the squeeze
    removed, at position 0; along any other, at the position [i] gives
    under the new name of the dimension. *)
Definition source_index (v : xr.Var) (i : xr.index) : xr.index :=
  fun d =>
    if bool_decide (xrops.rename_key XY_NAMES d
                      ∈ xrops.squeeze_dims
                          (xrops.rename_var XY_NAMES (xrops.transpose_var DIM_ORDER v)))
    then 0%nat
    else i (xrops.rename_key XY_NAMES d).

(** [keeps_entries m]: what is in the file system before [m] is there
    after it, unchanged: [m] removes nothing and rewrites nothing. *)
Definition keeps_entries {A : Type} (m : M A) : Prop :=
  forall w q x, fs w !! q = Some x -> fs (m w).2 !! q = Some x.

(** [keeps_blobs m]: [m] leaves the remote container as it is. *)
Definition keeps_blobs {A : Type} (m : M A) : Prop :=
  forall w, blobs (m w).2 = blobs w.

(** [publishes name m]: when [m] returns, it has put one blob in the
    container, under [name], and left every other blob as it was; when it
    raises, the container is as before. *)
Definition publishes {A : Type} (name : string) (m : M A) : Prop :=
  forall w, match (m w).1 with
            | inr _ => exists bytes, blobs (m w).2 = <[name := bytes]> (blobs w)
            | inl _ => blobs (m w).2 = blobs w
            end.

(** The line an iteration prints first when one of the three calls for
    date [d] has raised. *)
Definition failure_line (d : pd.Timestamp) : string :=
  "failed to download and process " +:+ pd.Timestamp_str d.

(** [keeps_longer n m]: [m] leaves alone every path longer than [n]
    characters. *)
Definition keeps_longer {A : Type} (n : nat) (m : M A) : Prop :=
  forall w q, (n < String.length q)%nat -> fs (m w).2 !! q = fs w !! q.

(** * Verification *)

(** ** Strings *)
Section strings.

Lemma append_cons (c : ascii) (s t : string) : String c s +:+ t = String c (s +:+ t).
Proof. reflexivity. Qed.

Lemma append_nil_r (s : string) : s +:+ "" = s.
Proof.
  induction s as [|c s IH]; [reflexivity |].
  rewrite append_cons. now f_equal.
Qed.

Lemma append_assoc (a b c : string) : (a +:+ b) +:+ c = a +:+ (b +:+ c).
Proof.
  induction a as [|x a IH]; [reflexivity |].
  rewrite !append_cons. now f_equal.
Qed.

Lemma endswith_app (p s : string) : py.endswith (p +:+ s) s.
Proof. now exists p. Qed.

Lemma endswith_app_l (p s t : string) : py.endswith s t -> py.endswith (p +:+ s) t.
Proof. intros [q ->]. exists (p +:+ q). now rewrite append_assoc. Qed.

(** A string of decimal digits that is not empty ends in a digit. *)
Lemma string_of_uint_last (d : uint) :
  d <> Nil ->
  exists c, py.last_char (NilZero.string_of_uint d) = Some c /\ py.is_digit c = true.
Proof.
  induction d as [|d IH|d IH|d IH|d IH|d IH|d IH|d IH|d IH|d IH|d IH];
    intros Hne; [congruence | ..];
    (destruct d as [|d'|d'|d'|d'|d'|d'|d'|d'|d'|d'];
     [ eexists; split; [reflexivity | reflexivity]
     | destruct IH as [c [Hc Hd]]; [discriminate | exists c; split; [exact Hc | exact Hd]] .. ]).
Qed.

(** [str(n)] ends in a digit. *)
Lemma str_int_last (n : Z) :
  exists c, py.last_char (py.str_int n) = Some c /\ py.is_digit c = true.
Proof.
  unfold py.str_int. destruct n as [|p|p]; simpl.
  - eexists; split; reflexivity.
  - apply string_of_uint_last, DecimalPos.Unsigned.to_uint_nonnil.
  - destruct (string_of_uint_last (Pos.to_uint p) (DecimalPos.Unsigned.to_uint_nonnil p)) as [c [Hc Hd]].
    exists c. split; [| exact Hd].
    destruct (NilZero.string_of_uint (Pos.to_uint p)); [discriminate | exact Hc].
Qed.

End strings.

(** ** The download URL *)

Lemma IMERG_BASE_URL_pieces :
  fmt.parse (fmt.InText "") imerg.IMERG_BASE_URL =
  Some [fmt.Lit "https://gpm1.gesdisc.eosdis.nasa.gov/data/GPM_L3/GPM_3IMERGD";
        fmt.Field "run" ""; fmt.Lit ".0"; fmt.Field "version" "";
        fmt.Lit "/"; fmt.Field "date" "%Y"; fmt.Lit "/";
        fmt.Field "date" "%m"; fmt.Lit "/3B-DAY-"; fmt.Field "run" "";
        fmt.Lit ".MS.MRG.3IMERG."; fmt.Field "date" "%Y%m%d";
        fmt.Lit "-S000000-E235959.V0"; fmt.Field "version" ""; fmt.Lit "";
        fmt.Field "version_letter" ""; fmt.Lit ".nc4"].
Proof. vm_compute. reflexivity. Qed.

(** The URL is the template with its fields filled in; building it never
    raises. *)
Lemma imerg_url_eq (date : pd.Timestamp) (run : string) (version : Z) :
  imerg.imerg_url date run version =
  inr ("https://gpm1.gesdisc.eosdis.nasa.gov/data/GPM_L3/GPM_3IMERGD" +:+ run +:+
       ".0" +:+ py.str_int version +:+
       "/" +:+ pd.strftime date "%Y" +:+ "/" +:+ pd.strftime date "%m" +:+
       "/3B-DAY-" +:+ run +:+ ".MS.MRG.3IMERG." +:+ pd.strftime date "%Y%m%d" +:+
       "-S000000-E235959.V0" +:+ py.str_int version +:+
       imerg.version_letter version +:+ ".nc4").
Proof.
  unfold imerg.imerg_url, fmt.format. rewrite IMERG_BASE_URL_pieces.
  cbn -[py.str_int pd.strftime String.append].
  now rewrite append_nil_r.
Qed.

(** C3: for every date, run and version the URL of [download_imerg] is the
    fixed template with run, version and date substituted; it ends in
    V07B.nc4 for version 7, and for any other version in V0, the version
    number and .nc4 with no letter between them (the character before .nc4
    is a digit); version 6 gives V06.nc4. *)
Theorem C3_url_version_suffix (date : pd.Timestamp) (run : string) (version : Z) :
  exists url,
    imerg.imerg_url date run version = inr url
    /\ url = "https://gpm1.gesdisc.eosdis.nasa.gov/data/GPM_L3/GPM_3IMERGD" +:+ run +:+
             ".0" +:+ py.str_int version +:+
             "/" +:+ pd.strftime date "%Y" +:+ "/" +:+ pd.strftime date "%m" +:+
             "/3B-DAY-" +:+ run +:+ ".MS.MRG.3IMERG." +:+ pd.strftime date "%Y%m%d" +:+
             "-S000000-E235959.V0" +:+ py.str_int version +:+
             (if version =? 7 then "B" else "") +:+ ".nc4"
    /\ (if version =? 7 then py.endswith url "V07B.nc4"
        else py.endswith url ("V0" +:+ py.str_int version +:+ ".nc4")
             /\ exists c, py.last_char (py.str_int version) = Some c
                          /\ py.is_digit c = true)
    /\ (exists url6, imerg.imerg_url date run 6 = inr url6 /\ py.endswith url6 "V06.nc4").
Proof.
  eexists. split; [apply imerg_url_eq |]. split; [reflexivity |]. split.
  - unfold imerg.version_letter. destruct (Z.eqb_spec version 7) as [-> | Hne].
    + do 12 apply endswith_app_l. exists "-S000000-E235959.". reflexivity.
    + split; [| apply str_int_last].
      do 12 apply endswith_app_l. exists "-S000000-E235959.". reflexivity.
  - eexists. split; [apply imerg_url_eq |].
    do 12 apply endswith_app_l. exists "-S000000-E235959.". reflexivity.
Qed.

(** ** What a computation adds to the event log *)
Section emits.

Context (P : event -> Prop).

Lemma emits_ret {A : Type} (a : A) : emits P (ret a).
Proof. intros w. exists []. split; [now rewrite app_nil_r | constructor]. Qed.

Lemma emits_lift {A : Type} (r : result A) : emits P (lift r).
Proof. intros w. exists []. split; [now rewrite app_nil_r | constructor]. Qed.

Lemma emits_bind {A B : Type} (m : M A) (k : A -> M B) :
  emits P m -> (forall a, emits P (k a)) -> emits P (bind m k).
Proof.
  intros Hm Hk w. unfold bind.
  destruct (Hm w) as [evs [Hout Hall]].
  destruct (m w) as [[e | a] w1]; simpl in *.
  - now exists evs.
  - destruct (Hk a w1) as [evs' [Hout' Hall']].
    exists (evs ++ evs'). split.
    + now rewrite Hout', Hout, app_assoc.
    + now apply Forall_app.
Qed.

Lemma emits_try {A : Type} (m : M A) (h : exn -> M A) :
  emits P m -> (forall e, emits P (h e)) -> emits P (try_except m h).
Proof.
  intros Hm Hh w. unfold try_except.
  destruct (Hm w) as [evs [Hout Hall]].
  destruct (m w) as [[e | a] w1]; simpl in *.
  - destruct (Hh e w1) as [evs' [Hout' Hall']].
    exists (evs ++ evs'). split.
    + now rewrite Hout', Hout, app_assoc.
    + now apply Forall_app.
  - now exists evs.
Qed.

Lemma emits_when (b : bool) (m : M unit) : emits P m -> emits P (when b m).
Proof. intros Hm. destruct b; [exact Hm | apply emits_ret]. Qed.

Lemma emits_event (e : event) : P e -> emits P (fun w => (inr tt, emit e w)).
Proof. intros He w. exists [e]. split; [reflexivity | now constructor]. Qed.

Lemma emits_print (line : string) : P (EPrint line) -> emits P (print line).
Proof. apply emits_event. Qed.

Lemma emits_log_call (d : pd.Timestamp) (s : stage) :
  P (ECall d s) -> emits P (log_call d s).
Proof. apply emits_event. Qed.

(** A computation that leaves the log as it is. *)
Lemma emits_silent {A : Type} (m : M A) :
  (forall w, out (m w).2 = out w) -> emits P m.
Proof. intros H w. exists []. split; [now rewrite app_nil_r, H | constructor]. Qed.

Lemma emits_for_each {A : Type} (l : list A) (body : A -> M unit) :
  (forall a, emits P (body a)) -> emits P (for_each l body).
Proof.
  intros Hb. induction l as [|a l IH]; simpl.
  - apply emits_ret.
  - apply emits_bind; [apply Hb | intros _; exact IH].
Qed.

End emits.

Lemma emits_weaken {A : Type} (P Q : event -> Prop) (m : M A) :
  (forall e, P e -> Q e) -> emits P m -> emits Q m.
Proof.
  intros HPQ Hm w. destruct (Hm w) as [evs [Hout Hall]].
  exists evs. split; [exact Hout |]. eapply Forall_impl; eauto.
Qed.

(** ** The stages record no driver call *)

Section silent_operations.

Lemma path_exists_silent P p : emits P (os.path_exists p).
Proof. apply emits_silent. reflexivity. Qed.

Lemma remove_silent P p : emits P (os.remove p).
Proof.
  apply emits_silent. intros w. unfold os.remove.
  destruct (fs w !! p) as [[c|]|]; reflexivity.
Qed.

Lemma mkdir_silent P p : emits P (os.mkdir p).
Proof.
  apply emits_silent. intros w. unfold os.mkdir.
  destruct p; [reflexivity |].
  destruct (fs w !! _); [reflexivity |].
  destruct (os.parent_ok _ _); reflexivity.
Qed.

Lemma makedirs_go_silent P fuel p : emits P (os.makedirs_go fuel p).
Proof.
  revert p. induction fuel as [|fuel IH]; intros p; simpl.
  - apply emits_lift.
  - apply emits_bind.
    + destruct (bool_decide _); [apply emits_ret |].
      apply emits_bind; [apply path_exists_silent | intros; apply emits_ret].
    + intros missing. apply emits_bind.
      * apply emits_when, emits_try; [apply IH |].
        intros e. destruct (bool_decide _); [apply emits_ret | apply emits_lift].
      * intros _. apply emits_try; [apply mkdir_silent |].
        intros e. apply emits_silent. intros w.
        destruct (fs w !! p) as [[c|]|]; reflexivity.
Qed.

Lemma open_wb_silent P p : emits P (os.open_wb p).
Proof.
  apply emits_silent. intros w. unfold os.open_wb.
  destruct (fs w !! p) as [[c|]|]; try reflexivity;
    destruct (os.parent_ok _ _); reflexivity.
Qed.

Lemma write_silent P p bytes : emits P (os.write p bytes).
Proof.
  apply emits_silent. intros w. unfold os.write.
  destruct (fs w !! p) as [[c|]|]; reflexivity.
Qed.

Lemma read_rb_silent P p : emits P (os.read_rb p).
Proof.
  apply emits_silent. intros w. unfold os.read_rb.
  destruct (fs w !! p) as [[c|]|]; reflexivity.
Qed.

Lemma download_imerg_emits E date run version save_path verbose :
  emits not_call (imerg.download_imerg E date run version save_path verbose).
Proof.
  unfold imerg.download_imerg.
  apply emits_bind; [apply path_exists_silent | intros found].
  apply emits_bind; [apply emits_when, remove_silent | intros _].
  apply emits_bind; [apply emits_lift | intros url].
  apply emits_bind; [apply emits_when, emits_print; exact I | intros _].
  apply emits_bind; [| intros response].
  { intros w. exists [EHttpGet url]. split; [reflexivity | now constructor]. }
  apply emits_bind; [apply emits_lift | intros _].
  apply emits_bind; [| intros _].
  { apply emits_bind; [apply path_exists_silent | intros dir_found].
    apply emits_bind; [apply emits_when, makedirs_go_silent | intros _].
    apply emits_bind; [apply open_wb_silent | intros _].
    apply write_silent. }
  apply emits_when, emits_bind; [apply emits_lift | intros msg].
  apply emits_print. exact I.
Qed.

Lemma process_imerg_emits E path : emits not_call (imerg.process_imerg E path).
Proof.
  unfold imerg.process_imerg, xrops.open_dataset.
  apply emits_bind; [| intros ds].
  { apply emits_bind; [apply read_rb_silent | intros; apply emits_lift]. }
  repeat (apply emits_bind; [apply emits_lift | intros ?]).
  apply emits_ret.
Qed.

Lemma upload_imerg_emits E da output_path :
  emits not_call (imerg.upload_imerg E da output_path).
Proof.
  unfold imerg.upload_imerg, imerg.to_raster.
  apply emits_bind; [apply emits_silent; reflexivity | intros temp_filename].
  apply emits_bind; [| intros _].
  { apply emits_bind; [apply emits_lift | intros bytes].
    apply emits_silent. reflexivity. }
  apply emits_bind; [apply read_rb_silent | intros f].
  apply emits_silent. intros w. unfold blob.upload_blob.
  destruct (upload_error E output_path); reflexivity.
Qed.

End silent_operations.

(** ** The driver loop *)

Lemma bind_print {A : Type} (line : string) (k : unit -> M A) (w : world) :
  bind (print line) k w = k tt (emit (EPrint line) w).
Proof. reflexivity. Qed.

Lemma try_bind_log_call {A : Type} (d : pd.Timestamp) (s : stage) (k : unit -> M A)
    (h : exn -> M A) (w : world) :
  try_except (bind (log_call d s) k) h w = try_except (k tt) h (emit (ECall d s) w).
Proof. reflexivity. Qed.

(** The handler of the loop body turns every exception of the three calls
    into two printed lines: the [try] statement always returns.  Its first
    event is the record of the call of the fetch stage. *)
Lemma try_fetch_transform_publish E existing d w :
  imerg.output_blob_of d ∉ existing ->
  let m := try_except
             (imerg.fetch_transform_publish E d (imerg.output_blob_of d))
             (fun e =>
                bind (print ("failed to download and process " +:+ pd.Timestamp_str d))
                     (fun _ => print (exn_msg e))) in
  (m w).1 = inr tt
  /\ exists evs, out (m w).2 = out w ++ ECall d Fetch :: evs
                 /\ Forall (iteration_event existing d) evs.
Proof.
  intros Hnew m. split.
  - subst m. unfold try_except.
    destruct (imerg.fetch_transform_publish E d (imerg.output_blob_of d) w)
      as [[e | []] w1]; reflexivity.
  - subst m. unfold imerg.fetch_transform_publish. rewrite try_bind_log_call.
    assert (Hweak : forall A (m : M A),
               emits not_call m -> emits (iteration_event existing d) m).
    { intros A m. apply emits_weaken. intros [l | u | d' s]; simpl; tauto. }
    match goal with
    | |- context [try_except ?body ?h (emit ?e w)] =>
        assert (Hev : emits (iteration_event existing d) (try_except body h))
    end.
    { apply emits_try.
      - apply emits_bind; [apply Hweak, download_imerg_emits | intros _].
        apply emits_bind; [apply emits_log_call; now split | intros _].
        apply emits_bind; [apply Hweak, process_imerg_emits | intros da].
        apply emits_bind; [apply emits_log_call; now split | intros _].
        apply Hweak, upload_imerg_emits.
      - intros e. apply emits_bind; [| intros _]; apply emits_print; exact I. }
    destruct (Hev (emit (ECall d Fetch) w)) as [evs [Hout Hall]].
    exists evs. split; [| exact Hall].
    rewrite Hout. simpl. now rewrite <- app_assoc.
Qed.

(** An iteration always returns, and adds the events of one iteration. *)
Lemma process_date_iteration E existing d w :
  (imerg.process_date E existing d w).1 = inr tt
  /\ exists chunk, out (imerg.process_date E existing d w).2 = out w ++ chunk
                   /\ iteration_events existing d chunk.
Proof.
  unfold imerg.process_date, iteration_events, iteration_header.
  destruct (bool_decide_reflect (imerg.output_blob_of d ∈ existing)) as [Hin | Hnew].
  - split; [reflexivity |]. eexists. split; [reflexivity |]. eexists. split; [reflexivity |].
    split; [constructor | reflexivity].
  - rewrite bind_print.
    destruct (try_fetch_transform_publish E existing d
                (emit (EPrint ("downloading and processing " +:+ imerg.output_blob_of d)) w)
                Hnew) as [Hret [evs [Hout Hall]]].
    split; [exact Hret |].
    exists (EPrint ("downloading and processing " +:+ imerg.output_blob_of d)
            :: ECall d Fetch :: evs).
    split.
    + rewrite Hout. simpl. now rewrite <- app_assoc.
    + eexists. split; [reflexivity |]. split.
      * constructor; [now split | exact Hall].
      * now eexists.
Qed.

(** The loop returns, and adds the events of one iteration per date, in
    the order of the dates. *)
Lemma for_each_process_date E existing dates w :
  (for_each dates (imerg.process_date E existing) w).1 = inr tt
  /\ exists chunks,
       out (for_each dates (imerg.process_date E existing) w).2 = out w ++ concat chunks
       /\ Forall2 (iteration_events existing) dates chunks.
Proof.
  revert w. induction dates as [|d dates IH]; intros w; simpl.
  - split; [reflexivity |]. exists []. split; [now rewrite app_nil_r | constructor].
  - unfold bind.
    destruct (process_date_iteration E existing d w) as [Hret [chunk [Hout Hchunk]]].
    destruct (imerg.process_date E existing d w) as [[e | []] w1]; simpl in *; [discriminate |].
    destruct (IH w1) as [Hret' [chunks [Hout' Hchunks]]].
    split; [exact Hret' |].
    exists (chunk :: chunks). split.
    + simpl. now rewrite Hout', Hout, app_assoc.
    + now constructor.
Qed.

Lemma start_date_parses :
  pd.Timestamp_of_string "2024-06-01" = inr (19875 * pd.NS_PER_DAY).
Proof. vm_compute. reflexivity. Qed.

Lemma recent_dates_eq E :
  imerg.recent_dates E =
  inr (pd.date_range (19875 * pd.NS_PER_DAY) ((today E - 1) * pd.NS_PER_DAY)).
Proof.
  unfold imerg.recent_dates. rewrite start_date_parses.
  cbv beta iota delta [result_bind].
  replace (pd.sub_days (pd.Timestamp_of_date (today E)) 1)
    with ((today E - 1) * pd.NS_PER_DAY); [reflexivity |].
  unfold pd.sub_days, pd.Timestamp_of_date. lia.
Qed.

(** The driver, once the listing is known. *)
Lemma download_recent_imerg_eq E w :
  imerg.download_recent_imerg E w =
  match list_error E with
  | Some e => (inl e, w)
  | None =>
      for_each (pd.date_range (19875 * pd.NS_PER_DAY) ((today E - 1) * pd.NS_PER_DAY))
        (imerg.process_date E (blob.blob_names "imerg/v7" (blobs w))) w
  end.
Proof.
  unfold imerg.download_recent_imerg, blob.list_blob_names, bind at 1.
  destruct (list_error E) as [e|]; [reflexivity |].
  unfold bind, lift. now rewrite recent_dates_eq.
Qed.

(** ** The dates of the loop *)

Lemma elem_of_date_range (start stop t : pd.Timestamp) :
  t ∈ pd.date_range start stop <->
  exists k, 0 <= k /\ start + k * pd.NS_PER_DAY <= stop /\ t = start + k * pd.NS_PER_DAY.
Proof.
  unfold pd.date_range. rewrite list_elem_of_In, in_map_iff.
  unfold pd.NS_PER_DAY, pd.NS_PER_SECOND. split.
  - intros [k [<- Hk]]. apply in_seq in Hk. exists (Z.of_nat k).
    split; [lia |]. split; [| reflexivity].
    assert (Z.of_nat k < (stop - start) / (86400 * 1000000000) + 1) by lia.
    pose proof (Z.div_mod (stop - start) (86400 * 1000000000) ltac:(lia)).
    pose proof (Z.mod_pos_bound (stop - start) (86400 * 1000000000) ltac:(lia)).
    lia.
  - intros [k [Hk [Hle ->]]]. exists (Z.to_nat k). split.
    + rewrite Z2Nat.id by exact Hk. reflexivity.
    + apply in_seq.
      pose proof (Z.div_mod (stop - start) (86400 * 1000000000) ltac:(lia)).
      pose proof (Z.mod_pos_bound (stop - start) (86400 * 1000000000) ltac:(lia)).
      lia.
Qed.

Lemma date_range_sorted (start stop : pd.Timestamp) :
  StronglySorted Z.lt (pd.date_range start stop).
Proof.
  unfold pd.date_range.
  generalize (Z.to_nat ((stop - start) / pd.NS_PER_DAY + 1)) as n. generalize 0%nat as a.
  intros a n. revert a. induction n as [|n IH]; intros a; simpl.
  - constructor.
  - constructor; [apply IH |].
    apply List.Forall_forall. intros x Hx. apply in_map_iff in Hx as [k [<- Hk]].
    apply in_seq in Hk. unfold pd.NS_PER_DAY, pd.NS_PER_SECOND. lia.
Qed.

(** The dates of the loop are the midnights of the days from 2024-06-01 to
    the day before today. *)
Lemma elem_of_recent_dates (E : env) (t : pd.Timestamp) :
  t ∈ pd.date_range (19875 * pd.NS_PER_DAY) ((today E - 1) * pd.NS_PER_DAY) <->
  exists day, calendar.days_from_civil 2024 6 1 <= day <= today E - 1
              /\ t = pd.Timestamp_of_date day.
Proof.
  rewrite elem_of_date_range. change (calendar.days_from_civil 2024 6 1) with 19875.
  unfold pd.Timestamp_of_date, pd.NS_PER_DAY, pd.NS_PER_SECOND. split.
  - intros [k [Hk [Hle ->]]]. exists (19875 + k). lia.
  - intros [day [Hday ->]]. exists (day - 19875). lia.
Qed.

Lemma Forall2_chunk_of_date {A B : Type} (R : A -> B -> Prop) (l : list A) (k : list B) (x : A) :
  Forall2 R l k -> x ∈ l -> exists y, y ∈ k /\ R x y.
Proof.
  induction 1 as [|a b l k Hab _ IH]; intros Hx.
  - now apply elem_of_nil in Hx.
  - apply elem_of_cons in Hx as [-> | Hx].
    + exists b. split; [left | exact Hab].
    + destruct (IH Hx) as [y [Hy Hxy]]. exists y. split; [now right | exact Hxy].
Qed.

Lemma Forall2_date_of_chunk {A B : Type} (R : A -> B -> Prop) (l : list A) (k : list B) (y : B) :
  Forall2 R l k -> y ∈ k -> exists x, x ∈ l /\ R x y.
Proof.
  induction 1 as [|a b l k Hab _ IH]; intros Hy.
  - now apply elem_of_nil in Hy.
  - apply elem_of_cons in Hy as [-> | Hy].
    + exists a. split; [left | exact Hab].
    + destruct (IH Hy) as [x [Hx Hxy]]. exists x. split; [now right | exact Hxy].
Qed.

Lemma elem_of_concat {A : Type} (x : A) (ls : list (list A)) :
  x ∈ concat ls <-> exists l, l ∈ ls /\ x ∈ l.
Proof.
  rewrite list_elem_of_In, in_concat. split; intros [l [H1 H2]]; exists l;
    rewrite ?list_elem_of_In in *; tauto.
Qed.

(** The result of the driver: the exception of the listing, if it raised,
    and a normal return otherwise. *)
Lemma download_recent_imerg_result E w :
  (imerg.download_recent_imerg E w).1 =
  match list_error E with
  | Some e => inl e
  | None => inr tt
  end.
Proof.
  rewrite download_recent_imerg_eq. destruct (list_error E); [reflexivity |].
  apply for_each_process_date.
Qed.

(** A call recorded during the loop is a call for a date whose blob is not
    in the listing. *)
Lemma call_in_loop E existing dates w d s :
  ECall d s ∈ out (for_each dates (imerg.process_date E existing) w).2 ->
  ECall d s ∈ out w \/ (d ∈ dates /\ imerg.output_blob_of d ∉ existing).
Proof.
  destruct (for_each_process_date E existing dates w) as [_ [chunks [-> Hchunks]]].
  rewrite elem_of_app, elem_of_concat. intros [Hw | [chunk [Hchunk Hin]]]; [now left | right].
  destruct (Forall2_date_of_chunk _ _ _ _ Hchunks Hchunk) as [d' [Hd' [rest [-> [Hall _]]]]].
  apply elem_of_cons in Hin as [Heq | Hin]; [discriminate |].
  rewrite List.Forall_forall in Hall. apply list_elem_of_In, Hall in Hin.
  simpl in Hin. destruct Hin as [-> Hnew]. now split.
Qed.

(** In a world where every iteration returns, the loop over a list of
    dates runs the iterations one after the other. *)
Lemma for_each_split E existing before d after w :
  for_each (before ++ d :: after) (imerg.process_date E existing) w =
  for_each after (imerg.process_date E existing)
    (imerg.process_date E existing d
       (for_each before (imerg.process_date E existing) w).2).2.
Proof.
  revert w. induction before as [|b before IH]; intros w; simpl.
  - unfold bind. pose proof (process_date_iteration E existing d w) as [Hret _].
    destruct (imerg.process_date E existing d w) as [[e | []] w1]; [discriminate | reflexivity].
  - unfold bind. pose proof (process_date_iteration E existing b w) as [Hret _].
    destruct (imerg.process_date E existing b w) as [[e | []] w1]; [discriminate |].
    apply IH.
Qed.

(** C9: the dates of the loop of [download_recent_imerg] are exactly the
    days from 2024-06-01 to the day before today, each once and in
    chronological order, and a run performs one iteration per date in that
    order, each iteration complete before the next starts (the events of
    the run are the events of the iterations, one date after the other). *)
Theorem C9_dates_from_start_to_yesterday (E : env) (w : world) :
  exists dates,
    imerg.recent_dates E = inr dates
    /\ (forall t, t ∈ dates <->
                  exists day, calendar.days_from_civil 2024 6 1 <= day <= today E - 1
                              /\ t = pd.Timestamp_of_date day)
    /\ StronglySorted Z.lt dates
    /\ match list_error E with
       | Some e => imerg.download_recent_imerg E w = (inl e, w)
       | None =>
           exists chunks,
             out (imerg.download_recent_imerg E w).2 = out w ++ concat chunks
             /\ Forall2 (iteration_events (blob.blob_names "imerg/v7" (blobs w))) dates chunks
       end.
Proof.
  eexists. split; [apply recent_dates_eq |].
  split; [apply elem_of_recent_dates |].
  split; [apply date_range_sorted |].
  rewrite download_recent_imerg_eq. destruct (list_error E); [reflexivity |].
  apply for_each_process_date.
Qed.

(** C1: a date whose blob name is in the listing taken at the start of the
    run is skipped: its iteration only prints the skip line and returns,
    the loop goes on with the next date in the world so reached, and the
    run records no call of fetch, transform or publish for that date. *)
Theorem C1_listed_date_is_skipped (E : env) (w : world) (d : pd.Timestamp) :
  list_error E = None ->
  imerg.output_blob_of d ∈ blob.blob_names "imerg/v7" (blobs w) ->
  let existing := blob.blob_names "imerg/v7" (blobs w) in
  let skip := EPrint (imerg.output_blob_of d +:+ " already exists, skipping") in
  (forall w1, imerg.process_date E existing d w1 = (inr tt, emit skip w1))
  /\ (forall rest w1,
        for_each (d :: rest) (imerg.process_date E existing) w1 =
        for_each rest (imerg.process_date E existing) (emit skip w1))
  /\ (forall s, ECall d s ∈ out (imerg.download_recent_imerg E w).2 -> ECall d s ∈ out w)
  /\ (forall dates, imerg.recent_dates E = inr dates -> d ∈ dates ->
        skip ∈ out (imerg.download_recent_imerg E w).2).
Proof.
  intros Hlist Hin existing skip. fold existing in Hin.
  assert (Hbody : forall w1, imerg.process_date E existing d w1 = (inr tt, emit skip w1)).
  { intros w1. unfold imerg.process_date.
    now rewrite (bool_decide_eq_true_2 _ Hin). }
  split; [exact Hbody |]. split; [| split].
  - intros rest w1. simpl. unfold bind. now rewrite Hbody.
  - intros s Hs. rewrite download_recent_imerg_eq, Hlist in Hs.
    apply call_in_loop in Hs as [Hw | [_ Hnew]]; [exact Hw | contradiction].
  - intros dates Hdates Hd. rewrite recent_dates_eq in Hdates. injection Hdates as <-.
    rewrite download_recent_imerg_eq, Hlist. fold existing.
    destruct (for_each_process_date E existing
                (pd.date_range (19875 * pd.NS_PER_DAY) ((today E - 1) * pd.NS_PER_DAY)) w)
      as [_ [chunks [-> Hchunks]]].
    destruct (Forall2_chunk_of_date _ _ _ _ Hchunks Hd) as [chunk [Hchunk [rest [-> _]]]].
    apply elem_of_app. right. apply elem_of_concat. eexists. split; [exact Hchunk |].
    unfold iteration_header. rewrite (bool_decide_eq_true_2 _ Hin).
    left.
Qed.

(** C2: whatever exception the fetch / transform / publish sequence raises
    for a date of the range, the iteration catches it, prints the failure
    line with the date and then the exception, and returns; the loop goes
    on with the dates after it (each of them that is not in the listing is
    fetched), and the driver itself returns normally. *)
Theorem C2_failing_date_does_not_stop_the_run
    (E : env) (w : world) (before after : list pd.Timestamp) (d : pd.Timestamp)
    (e : exn) (w2 : world) :
  let existing := blob.blob_names "imerg/v7" (blobs w) in
  let body := imerg.process_date E existing in
  let w1 := (for_each before body w).2 in
  let logged :=
    emit (EPrint (exn_msg e))
         (emit (EPrint ("failed to download and process " +:+ pd.Timestamp_str d)) w2) in
  list_error E = None ->
  imerg.recent_dates E = inr (before ++ d :: after) ->
  imerg.output_blob_of d ∉ existing ->
  imerg.fetch_transform_publish E d (imerg.output_blob_of d)
    (emit (EPrint ("downloading and processing " +:+ imerg.output_blob_of d)) w1)
  = (inl e, w2) ->
  body d w1 = (inr tt, logged)
  /\ imerg.download_recent_imerg E w = for_each after body logged
  /\ (imerg.download_recent_imerg E w).1 = inr tt
  /\ (forall d', d' ∈ after -> imerg.output_blob_of d' ∉ existing ->
        ECall d' Fetch ∈ out (imerg.download_recent_imerg E w).2)
  /\ EPrint ("failed to download and process " +:+ pd.Timestamp_str d)
       ∈ out (imerg.download_recent_imerg E w).2
  /\ EPrint (exn_msg e) ∈ out (imerg.download_recent_imerg E w).2.
Proof.
  intros existing body w1 logged Hlist Hdates Hnew Hfail.
  assert (Hbody : body d w1 = (inr tt, logged)).
  { subst body. unfold imerg.process_date.
    rewrite (bool_decide_eq_false_2 _ Hnew), bind_print.
    unfold try_except. now rewrite Hfail. }
  assert (Hrun : imerg.download_recent_imerg E w = for_each after body logged).
  { rewrite download_recent_imerg_eq, Hlist. rewrite recent_dates_eq in Hdates.
    injection Hdates as Hdates. rewrite Hdates. fold existing. fold body.
    subst body. rewrite for_each_split. fold w1. now rewrite Hbody. }
  split; [exact Hbody |]. split; [exact Hrun |].
  split; [rewrite download_recent_imerg_result; now rewrite Hlist |].
  rewrite Hrun. subst body.
  destruct (for_each_process_date E existing after logged) as [_ [chunks [-> Hchunks]]].
  split; [| split].
  - intros d' Hd' Hnew'.
    destruct (Forall2_chunk_of_date _ _ _ _ Hchunks Hd') as [chunk [Hchunk [rest [-> [_ Hrest]]]]].
    rewrite (bool_decide_eq_false_2 _ Hnew') in Hrest. destruct Hrest as [rest' ->].
    apply elem_of_app. right. apply elem_of_concat. eexists. split; [exact Hchunk |].
    right. left.
  - apply elem_of_app. left. subst logged. simpl.
    apply elem_of_app. left. apply elem_of_app. right. left.
  - apply elem_of_app. left. subst logged. simpl.
    apply elem_of_app. right. left.
Qed.

(** ** The fetcher and the file system *)

Section keeps_files.

Lemma keeps_ret {A : Type} (a : A) : keeps_files (ret a).
Proof. intros w p c H. exact H. Qed.

Lemma keeps_lift {A : Type} (r : result A) : keeps_files (lift r).
Proof. intros w p c H. exact H. Qed.

Lemma keeps_bind {A B : Type} (m : M A) (k : A -> M B) :
  keeps_files m -> (forall a, keeps_files (k a)) -> keeps_files (bind m k).
Proof.
  intros Hm Hk w p c. unfold bind. specialize (Hm w p c).
  destruct (m w) as [[e | a] w1]; simpl in *; [exact Hm |].
  intros H. apply Hm. now apply (Hk a w1).
Qed.

Lemma keeps_try {A : Type} (m : M A) (h : exn -> M A) :
  keeps_files m -> (forall e, keeps_files (h e)) -> keeps_files (try_except m h).
Proof.
  intros Hm Hh w p c. unfold try_except. specialize (Hm w p c).
  destruct (m w) as [[e | a] w1]; simpl in *; [| exact Hm].
  intros H. apply Hm. now apply (Hh e w1).
Qed.

Lemma keeps_when (b : bool) (m : M unit) : keeps_files m -> keeps_files (when b m).
Proof. intros Hm. destruct b; [exact Hm | apply keeps_ret]. Qed.

Lemma keeps_path_exists p : keeps_files (os.path_exists p).
Proof. intros w q c H. exact H. Qed.

Lemma keeps_mkdir p : keeps_files (os.mkdir p).
Proof.
  intros w q c. unfold os.mkdir. destruct p as [|a p]; [trivial |].
  destruct (fs w !! String a p) eqn:Hp; [trivial |].
  destruct (os.parent_ok _ _); [trivial |]. simpl.
  destruct (decide (String a p = q)) as [<- | Hne].
  - rewrite lookup_insert_eq. discriminate.
  - now rewrite lookup_insert_ne.
Qed.

Lemma keeps_makedirs_go fuel p : keeps_files (os.makedirs_go fuel p).
Proof.
  revert p. induction fuel as [|fuel IH]; intros p; simpl.
  - apply keeps_lift.
  - apply keeps_bind.
    + destruct (bool_decide _); [apply keeps_ret |].
      apply keeps_bind; [apply keeps_path_exists | intros; apply keeps_ret].
    + intros missing. apply keeps_bind.
      * apply keeps_when, keeps_try; [apply IH |].
        intros e. destruct (bool_decide _); [apply keeps_ret | apply keeps_lift].
      * intros _. apply keeps_try; [apply keeps_mkdir |].
        intros e w q c. destruct (fs w !! p) as [[c'|]|]; trivial.
Qed.

End keeps_files.

(** Writing the content: when it returns the file holds exactly the
    content; when it raises, no file was created or rewritten. *)
Lemma write_content_outcome (p : string) (content : list byte) (w : world) :
  match (imerg.write_content p content w).1 with
  | inr _ => fs (imerg.write_content p content w).2 !! p = Some (File content)
  | inl _ => forall q c, fs (imerg.write_content p content w).2 !! q = Some (File c) ->
                         fs w !! q = Some (File c)
  end.
Proof.
  unfold imerg.write_content.
  set (prepare := bind (os.path_exists (os.path_dirname p))
                       (fun dir_found => when (negb dir_found) (os.makedirs (os.path_dirname p)))).
  assert (Hprep : keeps_files prepare).
  { apply keeps_bind; [apply keeps_path_exists | intros b].
    apply keeps_when, keeps_makedirs_go. }
  change (match (bind prepare (fun _ => bind (os.open_wb p) (fun _ => os.write p content)) w).1 with
          | inr _ => fs (bind prepare (fun _ => bind (os.open_wb p)
                                                  (fun _ => os.write p content)) w).2 !! p
                     = Some (File content)
          | inl _ => forall q c,
              fs (bind prepare (fun _ => bind (os.open_wb p)
                                             (fun _ => os.write p content)) w).2 !! q
              = Some (File c) -> fs w !! q = Some (File c)
          end).
  unfold bind at 1 3 5. specialize (Hprep w).
  destruct (prepare w) as [[e | []] w1]; simpl in *; [exact Hprep |].
  unfold bind, os.open_wb, os.write.
  destruct (fs w1 !! p) as [[old|]|] eqn:Hp; simpl; [| exact Hprep |].
  - destruct (os.parent_ok (fs w1) p); simpl; [exact Hprep |].
    rewrite lookup_insert_eq. simpl. now rewrite lookup_insert_eq.
  - destruct (os.parent_ok (fs w1) p); simpl; [exact Hprep |].
    rewrite lookup_insert_eq. simpl. now rewrite lookup_insert_eq.
Qed.

Lemma write_content_out (p : string) (content : list byte) (w : world) :
  out (imerg.write_content p content w).2 = out w.
Proof.
  assert (H : emits (fun _ => False) (imerg.write_content p content)).
  { unfold imerg.write_content.
    apply emits_bind; [apply path_exists_silent | intros dir_found].
    apply emits_bind; [apply emits_when, makedirs_go_silent | intros _].
    apply emits_bind; [apply open_wb_silent | intros _].
    apply write_silent. }
  destruct (H w) as [evs [-> Hall]].
  destruct evs as [|e evs]; [now rewrite app_nil_r |].
  now inversion Hall.
Qed.

(** Lines 82 and 83: what was at [p] is removed before the rest runs; a
    directory at [p] makes the removal raise. *)
Lemma remove_if_exists {A : Type} (p : string) (k : M A) (w : world) :
  bind (os.path_exists p) (fun found => bind (when found (os.remove p)) (fun _ => k)) w =
  match fs w !! p with
  | Some Dir => (raise "IsADirectoryError" p, w)
  | _ => k (set_fs (delete p) w)
  end.
Proof.
  unfold bind at 1. unfold os.path_exists. cbv beta iota.
  destruct (fs w !! p) as [[c|]|] eqn:Hp.
  - rewrite bool_decide_eq_true_2 by eauto.
    unfold when, bind, os.remove. now rewrite Hp.
  - rewrite bool_decide_eq_true_2 by eauto.
    unfold when, bind, os.remove. now rewrite Hp.
  - rewrite bool_decide_eq_false_2 by (intros [x Hx]; discriminate).
    unfold when, bind, ret.
    assert (Hw : set_fs (delete p) w = w).
    { destruct w as [f b o t]. unfold set_fs. simpl in *. f_equal. now apply delete_id. }
    now rewrite Hw.
Qed.

(** [download_imerg] without the verbose messages, step by step. *)
Lemma download_imerg_quiet_eq E date run version save_path w url :
  imerg.imerg_url date run version = inr url ->
  imerg.download_imerg E date run version save_path false w =
  match fs w !! imerg.fspath save_path with
  | Some Dir => (raise "IsADirectoryError" (imerg.fspath save_path), w)
  | _ =>
      match http E url with
      | inl e => (inl e, after_get url (imerg.fspath save_path) w)
      | inr response =>
          match requests.raise_for_status response with
          | inl e => (inl e, after_get url (imerg.fspath save_path) w)
          | inr _ =>
              imerg.write_content (imerg.fspath save_path) (requests.content response)
                (after_get url (imerg.fspath save_path) w)
          end
      end
  end.
Proof.
  intros Hurl. unfold imerg.download_imerg. rewrite remove_if_exists, Hurl.
  destruct (fs w !! imerg.fspath save_path) as [[c|]|]; [| reflexivity |];
    unfold after_get, bind, lift, when, ret, imerg.requests_get; simpl;
    (destruct (http E url) as [e | response]; [reflexivity |]);
    (destruct (requests.raise_for_status response) as [e | []]; [reflexivity |]);
    match goal with
    | |- context [imerg.write_content ?p ?c ?w0] =>
        destruct (imerg.write_content p c w0) as [[e | []] w2]; reflexivity
    end.
Qed.

Lemma raise_for_status_raises (r : requests.Response) :
  (exists e, requests.raise_for_status r = inl e) <->
  400 <= requests.status_code r < 600.
Proof.
  unfold requests.raise_for_status, raise.
  destruct (Z.leb_spec 400 (requests.status_code r));
    destruct (Z.ltb_spec (requests.status_code r) 500);
    destruct (Z.leb_spec 500 (requests.status_code r));
    destruct (Z.ltb_spec (requests.status_code r) 600); simpl;
    (split; [intros [e He]; try discriminate; lia | intros Hr; try lia; eauto]).
Qed.

(** [download_imerg] when the GET or the status check raises [e], with or
    without the verbose messages. *)
Lemma download_imerg_fetch_fails E date run version save_path verbose w url e :
  imerg.imerg_url date run version = inr url ->
  fs w !! imerg.fspath save_path <> Some Dir ->
  http E url = inl e
  \/ (exists response, http E url = inr response
                       /\ requests.raise_for_status response = inl e) ->
  (imerg.download_imerg E date run version save_path verbose w).1 = inl e
  /\ fs (imerg.download_imerg E date run version save_path verbose w).2
     = delete (imerg.fspath save_path) (fs w)
  /\ blobs (imerg.download_imerg E date run version save_path verbose w).2 = blobs w.
Proof.
  intros Hurl Hdir Hfail. unfold imerg.download_imerg. rewrite remove_if_exists, Hurl.
  destruct (fs w !! imerg.fspath save_path) as [[c|]|]; [| congruence |];
    unfold bind, lift, when, ret, imerg.requests_get, print;
    (destruct Hfail as [Hget | [response [Hget Hstatus]]];
     [ destruct verbose; simpl; rewrite Hget; simpl; auto
     | destruct verbose; simpl; rewrite Hget; simpl; rewrite Hstatus; simpl; auto ]).
Qed.

(** C10: [download_imerg] removes what was at [save_path] before it sends
    the GET: whatever the invocation does after the removal does not
    depend on the file that was there; and when the invocation fails at the
    construction of the URL, at the GET or at the status check, it raises
    and leaves no file at [save_path] (the previous file is lost), the
    other files and the remote container being as before. *)
Theorem C10_failed_fetch_leaves_no_file
    (E : env) (date : pd.Timestamp) (run : string) (version : Z)
    (save_path : imerg.pathlike) (verbose : bool) (w : world) :
  let p := imerg.fspath save_path in
  let r := imerg.download_imerg E date run version save_path verbose w in
  fs w !! p <> Some Dir ->
  match imerg.imerg_url date run version with
  | inl _ => True
  | inr url => (exists e, http E url = inl e)
               \/ (exists response, http E url = inr response
                                    /\ 400 <= requests.status_code response < 600)
  end ->
  (exists e, r.1 = inl e)
  /\ fs r.2 !! p = None
  /\ (forall q, q <> p -> fs r.2 !! q = fs w !! q)
  /\ blobs r.2 = blobs w
  /\ (exists rest : M unit,
        forall w', fs w' !! p <> Some Dir ->
                   imerg.download_imerg E date run version save_path verbose w'
                   = rest (set_fs (delete p) w')).
Proof.
  intros p r Hdir Hfail.
  pose proof (imerg_url_eq date run version) as Hurl.
  rewrite Hurl in Hfail.
  match type of Hurl with _ = inr ?u => set (url := u) in * end.
  assert (He : exists e, http E url = inl e
                         \/ (exists response, http E url = inr response
                                              /\ requests.raise_for_status response = inl e)).
  { destruct Hfail as [[e He] | [response [Hget Hstatus]]].
    - exists e. now left.
    - apply raise_for_status_raises in Hstatus as [e He]. exists e. right. eauto. }
  destruct He as [e He].
  destruct (download_imerg_fetch_fails E date run version save_path verbose w url e Hurl Hdir He)
    as [Hres [Hfs Hblobs]].
  fold r in Hres, Hfs, Hblobs.
  split; [eauto |]. split; [rewrite Hfs; apply lookup_delete_eq |].
  split; [intros q Hq; rewrite Hfs; now apply lookup_delete_ne |].
  split; [exact Hblobs |].
  eexists. intros w' Hdir'. unfold imerg.download_imerg. rewrite remove_if_exists.
  fold p. destruct (fs w' !! p) as [[c|]|]; [reflexivity | congruence | reflexivity].
Qed.

(** ** The directory part of a path, and [os.makedirs] *)

Lemma head_part_length p h :
  os.head_part p = Some h ->
  (String.length h <= String.length p)%nat
  /\ (String.length h = String.length p -> h = p).
Proof.
  revert h. induction p as [|c p IH]; intros h; cbn [os.head_part]; [discriminate |].
  destruct (os.head_part p) as [h'|].
  - intros [= <-]. destruct (IH h' eq_refl) as [Hle Heq]. cbn [String.length].
    split; [lia |]. intros Hlen. f_equal. apply Heq. lia.
  - destruct (os.is_sep c); [| discriminate]. intros [= <-]. cbn [String.length].
    split; [lia |]. intros Hlen. destruct p; [reflexivity | cbn [String.length] in Hlen; lia].
Qed.

Lemma rstrip_sep_length s :
  (String.length (os.rstrip_sep s) <= String.length s)%nat
  /\ (String.length (os.rstrip_sep s) = String.length s -> os.rstrip_sep s = s).
Proof.
  induction s as [|c s [Hle Heq]]; cbn [os.rstrip_sep]; [split; [lia | reflexivity] |].
  destruct (os.rstrip_sep s) as [|c' r] eqn:Hr.
  - destruct (os.is_sep c); cbn [String.length] in *; (split; [lia |]); intros Hlen;
      [lia |]. destruct s; [reflexivity | cbn [String.length] in Hlen; lia].
  - cbn [String.length] in *. split; [lia |]. intros Hlen. f_equal. apply Heq. lia.
Qed.

(** The directory part of a path is no longer than the path, and shorter
    unless it is the path itself. *)
Lemma dirname_length p :
  (String.length (os.path_dirname p) <= String.length p)%nat
  /\ (String.length (os.path_dirname p) = String.length p -> os.path_dirname p = p).
Proof.
  unfold os.path_dirname. destruct (os.head_part p) as [h|] eqn:Hh.
  - destruct (head_part_length p h Hh) as [Hle Heq].
    destruct (rstrip_sep_length h) as [Hle' Heq'].
    destruct (os.rstrip_sep h) as [|c r] eqn:Hr.
    + split; [exact Hle | exact Heq].
    + split; [lia |]. intros Hlen. rewrite Heq' by lia. apply Heq. lia.
  - cbn [String.length]. split; [lia |]. intros Hlen.
    destruct p; [reflexivity | cbn [String.length] in Hlen; lia].
Qed.

Lemma parent_ok_eq (tree : gmap string node) (p : string) :
  os.path_dirname p <> "" ->
  os.parent_ok tree p =
  match tree !! os.path_dirname p with
  | Some Dir => inr tt
  | Some (File _) => raise "NotADirectoryError" p
  | None => raise "FileNotFoundError" p
  end.
Proof.
  intros Hd. unfold os.parent_ok. destruct (os.path_dirname p); [congruence | reflexivity].
Qed.

Section keeps_longer.

Lemma longer_ret {A : Type} n (a : A) : keeps_longer n (ret a).
Proof. intros w q _. reflexivity. Qed.

Lemma longer_lift {A : Type} n (r : result A) : keeps_longer n (lift r).
Proof. intros w q _. reflexivity. Qed.

Lemma longer_bind {A B : Type} n (m : M A) (k : A -> M B) :
  keeps_longer n m -> (forall a, keeps_longer n (k a)) -> keeps_longer n (bind m k).
Proof.
  intros Hm Hk w q Hq. unfold bind. specialize (Hm w q Hq).
  destruct (m w) as [[e | a] w1]; cbn [fst snd] in *; [exact Hm |].
  now rewrite (Hk a w1 q Hq).
Qed.

Lemma longer_try {A : Type} n (m : M A) (h : exn -> M A) :
  keeps_longer n m -> (forall e, keeps_longer n (h e)) -> keeps_longer n (try_except m h).
Proof.
  intros Hm Hh w q Hq. unfold try_except. specialize (Hm w q Hq).
  destruct (m w) as [[e | a] w1]; cbn [fst snd] in *; [| exact Hm].
  now rewrite (Hh e w1 q Hq).
Qed.

Lemma longer_when n (b : bool) (m : M unit) : keeps_longer n m -> keeps_longer n (when b m).
Proof. intros Hm. destruct b; [exact Hm | apply longer_ret]. Qed.

Lemma longer_weaken {A : Type} n n' (m : M A) :
  (n <= n')%nat -> keeps_longer n m -> keeps_longer n' m.
Proof. intros Hle Hm w q Hq. apply Hm. lia. Qed.

Lemma longer_mkdir p : keeps_longer (String.length p) (os.mkdir p).
Proof.
  intros w q Hq. unfold os.mkdir. destruct p as [|a p]; [reflexivity |].
  destruct (fs w !! String a p); [reflexivity |].
  destruct (os.parent_ok _ _); [reflexivity |]. cbn [snd set_fs fs].
  apply lookup_insert_ne. intros Heq. rewrite Heq in Hq. lia.
Qed.

(** [os.makedirs] creates directories on the way to its argument only:
    it leaves every longer path alone. *)
Lemma longer_makedirs_go fuel p : keeps_longer (String.length p) (os.makedirs_go fuel p).
Proof.
  revert p. induction fuel as [|fuel IH]; intros p; cbn [os.makedirs_go].
  - apply longer_lift.
  - apply longer_bind.
    + destruct (bool_decide _); [apply longer_ret |].
      apply longer_bind; [intros w q _; reflexivity | intros; apply longer_ret].
    + intros missing. apply longer_bind.
      * apply longer_when, longer_try.
        -- eapply longer_weaken; [| apply IH]. apply dirname_length.
        -- intros e. destruct (bool_decide _); [apply longer_ret | apply longer_lift].
      * intros _. apply longer_try; [apply longer_mkdir |].
        intros e w q _. destruct (fs w !! p) as [[c'|]|]; reflexivity.
Qed.

End keeps_longer.

Lemma bind_inr_inv {A B : Type} (m : M A) (k : A -> M B) (w w1 : world) (b : B) :
  bind m k w = (inr b, w1) -> exists a w0, m w = (inr a, w0) /\ k a w0 = (inr b, w1).
Proof.
  unfold bind. destruct (m w) as [[e | a] w0]; [discriminate |]. eauto.
Qed.

(** When [os.makedirs] returns, its argument is a directory. *)
Lemma makedirs_go_returns_dir fuel p w w1 :
  os.makedirs_go fuel p w = (inr tt, w1) -> fs w1 !! p = Some Dir.
Proof.
  destruct fuel as [|fuel]; cbn [os.makedirs_go]; [discriminate |].
  intros H. apply bind_inr_inv in H as (missing & w0 & _ & H).
  apply bind_inr_inv in H as ([] & w0' & _ & H).
  unfold try_except, os.mkdir in H.
  destruct p as [|a p].
  - destruct (fs w0' !! "") as [[c|]|] eqn:Hp; [discriminate | | discriminate].
    now injection H as <-.
  - destruct (fs w0' !! String a p) as [[c|]|] eqn:Hp.
    + rewrite Hp in H. discriminate.
    + rewrite Hp in H. now injection H as <-.
    + destruct (os.parent_ok (fs w0') (String a p)).
      * rewrite Hp in H. discriminate.
      * injection H as <-. cbn [set_fs fs]. apply lookup_insert_eq.
Qed.

(** A directory of one name, in the working directory, can always be
    created when nothing is there. *)
Lemma makedirs_single (d : string) (w : world) :
  d <> "" -> os.path_dirname d = "" -> fs w !! d = None -> (os.makedirs d w).1 = inr tt.
Proof.
  intros Hd Hdd Hnone. destruct d as [|a d]; [congruence |].
  unfold os.makedirs. cbn [os.makedirs_go]. rewrite Hdd.
  rewrite bool_decide_eq_true_2 by reflexivity.
  unfold bind, when, try_except, os.mkdir, os.parent_ok. unfold ret. cbv beta iota.
  rewrite Hnone, Hdd. reflexivity.
Qed.

(** [write_content], once the directory part has been looked after. *)
Lemma write_content_eq (p : string) (content : list byte) (w : world) :
  imerg.write_content p content w =
  match bind (os.path_exists (os.path_dirname p))
             (fun dir_found => when (negb dir_found) (os.makedirs (os.path_dirname p))) w with
  | (inl e, w1) => (inl e, w1)
  | (inr _, w1) =>
      match fs w1 !! p with
      | Some Dir => (raise "IsADirectoryError" p, w1)
      | _ =>
          match os.parent_ok (fs w1) p with
          | inl e => (inl e, w1)
          | inr _ => (inr tt, set_fs (insert p (File content)) w1)
          end
      end
  end.
Proof.
  unfold imerg.write_content, bind.
  destruct (os.path_exists (os.path_dirname p) w) as [[e | found] w0]; [reflexivity |].
  destruct (when (negb found) (os.makedirs (os.path_dirname p)) w0) as [[e | []] w1];
    [reflexivity |].
  unfold os.open_wb, os.write.
  destruct (fs w1 !! p) as [[old|]|]; [| reflexivity |];
    (destruct (os.parent_ok (fs w1) p); [reflexivity |]);
    cbn [set_fs fs]; rewrite lookup_insert_eq; unfold set_fs; cbn [fs blobs out tmp_count];
    now rewrite insert_insert_eq.
Qed.


Lemma prepare_directory_eq (d : string) (w : world) :
  bind (os.path_exists d) (fun dir_found => when (negb dir_found) (os.makedirs d)) w =
  if bool_decide (is_Some (fs w !! d)) then (inr tt, w) else os.makedirs d w.
Proof.
  unfold bind, os.path_exists. destruct (bool_decide _); reflexivity.
Qed.

(** Lines 92 to 96 for a path with a directory part, when nothing is at
    the path: they raise exactly when the directory part is a regular
    file, or it does not exist and [os.makedirs] raises. *)
Lemma write_content_raises (p : string) (content : list byte) (w : world) :
  os.path_dirname p <> "" -> os.path_dirname p <> p ->
  fs w !! p = None ->
  ((exists e, (imerg.write_content p content w).1 = inl e) <->
   (exists c, fs w !! os.path_dirname p = Some (File c))
   \/ (fs w !! os.path_dirname p = None
       /\ exists e, (os.makedirs (os.path_dirname p) w).1 = inl e)).
Proof.
  intros Hd Hself Hp. rewrite write_content_eq, prepare_directory_eq.
  destruct (fs w !! os.path_dirname p) as [[c|]|] eqn:Hdir.
  - rewrite bool_decide_eq_true_2 by eauto. rewrite Hp, parent_ok_eq, Hdir by exact Hd.
    cbn [fst]. split; [intros _; left; eauto | intros _; eexists; reflexivity].
  - rewrite bool_decide_eq_true_2 by eauto. rewrite Hp, parent_ok_eq, Hdir by exact Hd.
    cbn [fst]. split; [intros [e He]; discriminate |].
    intros [[c Hc] | [Hnone _]]; discriminate.
  - rewrite bool_decide_eq_false_2 by (intros [x Hx]; discriminate).
    destruct (os.makedirs (os.path_dirname p) w) as [[e | []] w1] eqn:Hmk; cbn [fst].
    + split; [intros _; right; split; [reflexivity | eauto] | intros _; eauto].
    + assert (Hdir1 : fs w1 !! os.path_dirname p = Some Dir).
      { apply (makedirs_go_returns_dir _ _ _ _ Hmk). }
      assert (Hp1 : fs w1 !! p = None).
      { pose proof (longer_makedirs_go (S (String.length (os.path_dirname p)))
                      (os.path_dirname p) w p) as Hkeep.
        fold (os.makedirs (os.path_dirname p)) in Hkeep. rewrite Hmk in Hkeep.
        cbn [snd] in Hkeep. rewrite Hkeep; [exact Hp |].
        destruct (dirname_length p) as [Hle Heq].
        destruct (Nat.eq_dec (String.length (os.path_dirname p)) (String.length p)) as [Hlen|];
          [now apply Heq in Hlen | lia]. }
      rewrite Hp1, parent_ok_eq, Hdir1 by exact Hd. cbn [fst].
      split; [intros [e He]; discriminate |].
      intros [[c Hc] | [_ [e He]]]; discriminate.
Qed.

(** [download_imerg] with the verbose messages off: it raises exactly
    when the removal fails, the GET raises, the status is from 400 to 599,
    or the writing of the content raises; at most one GET is sent; when it
    returns the file holds the body, and when it raises there is no file
    at the path. *)
Lemma download_imerg_raises_iff
    (E : env) (date : pd.Timestamp) (run : string) (version : Z)
    (save_path : imerg.pathlike) (w : world) :
  let p := imerg.fspath save_path in
  let r := imerg.download_imerg E date run version save_path false w in
  exists url,
    imerg.imerg_url date run version = inr url
    /\ ((exists e, r.1 = inl e) <->
        fs w !! p = Some Dir
        \/ (fs w !! p <> Some Dir
            /\ ((exists e, http E url = inl e)
                \/ (exists response,
                      http E url = inr response
                      /\ (400 <= requests.status_code response < 600
                          \/ exists e,
                               (imerg.write_content p (requests.content response)
                                  (after_get url p w)).1 = inl e)))))
    /\ (forall e, fs w !! p <> Some Dir -> http E url = inl e -> r.1 = inl e)
    /\ (out r.2 = out w \/ out r.2 = out w ++ [EHttpGet url])
    /\ (r.1 = inr tt ->
        exists response,
          http E url = inr response
          /\ ~ 400 <= requests.status_code response < 600
          /\ fs r.2 !! p = Some (File (requests.content response)))
    /\ ((exists e, r.1 = inl e) -> forall c, fs r.2 !! p <> Some (File c)).
Proof.
  intros p r. eexists. split; [apply imerg_url_eq |].
  match goal with |- context [http E ?u] => set (url := u) end.
  assert (Hr : r = match fs w !! p with
                   | Some Dir => (raise "IsADirectoryError" p, w)
                   | _ =>
                       match http E url with
                       | inl e => (inl e, after_get url p w)
                       | inr response =>
                           match requests.raise_for_status response with
                           | inl e => (inl e, after_get url p w)
                           | inr _ =>
                               imerg.write_content p (requests.content response)
                                 (after_get url p w)
                           end
                       end
                   end).
  { subst r p. apply download_imerg_quiet_eq, imerg_url_eq. }
  clearbody r.
  assert (Hgone : fs (after_get url p w) !! p = None) by apply lookup_delete_eq.
  assert (Hcase : fs w !! p = Some Dir \/ fs w !! p <> Some Dir).
  { destruct (fs w !! p) as [[c0|]|]; [right | left | right]; congruence. }
  destruct Hcase as [Hdir | Hdir].
  { rewrite Hdir in Hr. subst r. cbn [fst snd].
    split; [split; [auto | eauto] |]. split; [congruence |].
    split; [now left |]. split; [discriminate |].
    intros _ c. rewrite Hdir. discriminate. }
  assert (Hr' : r = match http E url with
                    | inl e => (inl e, after_get url p w)
                    | inr response =>
                        match requests.raise_for_status response with
                        | inl e => (inl e, after_get url p w)
                        | inr _ =>
                            imerg.write_content p (requests.content response)
                              (after_get url p w)
                        end
                    end).
  { destruct (fs w !! p) as [[c0|]|]; [exact Hr | congruence | exact Hr]. }
  clear Hr. destruct (http E url) as [e | response] eqn:Hget.
  { subst r. cbn [fst snd].
    split; [split; [intros _; right; split; [exact Hdir | eauto] | eauto] |].
    split; [intros e' _ [= <-]; reflexivity |].
    split; [now right |]. split; [discriminate |].
    intros _ c. rewrite Hgone. discriminate. }
  pose proof (raise_for_status_raises response) as Hstatus.
  destruct (requests.raise_for_status response) as [e | []] eqn:Hrfs.
  { assert (Hbad : 400 <= requests.status_code response < 600) by (apply Hstatus; eauto).
    subst r. cbn [fst snd].
    split; [split; [intros _; right; split; [exact Hdir |]; right; eauto | eauto] |].
    split; [intros e' _ Hx; discriminate |].
    split; [now right |]. split; [discriminate |].
    intros _ c. rewrite Hgone. discriminate. }
  assert (Hgood : ~ 400 <= requests.status_code response < 600).
  { intros Hbad. apply Hstatus in Hbad as [e He]. discriminate. }
  pose proof (write_content_outcome p (requests.content response) (after_get url p w))
    as Hwrite.
  pose proof (write_content_out p (requests.content response) (after_get url p w))
    as Hout.
  subst r.
  destruct (imerg.write_content p (requests.content response) (after_get url p w))
    as [[e | []] w2] eqn:Hwc; cbn [fst snd] in *.
  - split.
    { split; [| eauto]. intros _. right. split; [exact Hdir |]. right.
      exists response. split; [reflexivity |]. right. exists e. now rewrite Hwc. }
    split; [intros e' _ Hx; discriminate |].
    split; [right; exact Hout |]. split; [discriminate |].
    intros _ c Hc. apply Hwrite in Hc. rewrite Hgone in Hc. discriminate.
  - split.
    { split; [intros [e He]; discriminate |].
      intros [Hd | [_ [[e He] | [resp [[= <-] [Hbad | [e He]]]]]]];
        [contradiction | discriminate | contradiction |].
      rewrite Hwc in He. discriminate. }
    split; [intros e' _ Hx; discriminate |]. split; [right; exact Hout |].
    split; [intros _; exists response; auto |].
    intros [e He]. discriminate.
Qed.


(** C8, as the code has it: with the verbose messages off and a save path
    that has a directory part, [download_imerg] raises exactly when the
    removal of what is at [save_path] fails (it is a directory), the GET
    raises, the status is from 400 to 599 (what [raise_for_status]
    rejects; any other status, 1xx and 3xx included, is accepted), the
    directory part is a regular file, or the directory part does not exist
    and [os.makedirs] raises for it, which it never does for a directory
    part of one name such as temp.  The exception of the GET reaches the
    caller as raised, and at most one GET is sent (no retry).  When the
    call returns, the file at [save_path] holds the whole body of a
    response whose status is not from 400 to 599; when it raises, there is
    no file at [save_path]. *)
Theorem C8_download_raises_iff
    (E : env) (date : pd.Timestamp) (run : string) (version : Z)
    (save_path : imerg.pathlike) (w : world) :
  let p := imerg.fspath save_path in
  let d := os.path_dirname p in
  let r := imerg.download_imerg E date run version save_path false w in
  d <> "" -> d <> p ->
  exists url,
    imerg.imerg_url date run version = inr url
    /\ ((exists e, r.1 = inl e) <->
        fs w !! p = Some Dir
        \/ (fs w !! p <> Some Dir
            /\ ((exists e, http E url = inl e)
                \/ (exists response,
                      http E url = inr response
                      /\ (400 <= requests.status_code response < 600
                          \/ (exists c, fs w !! d = Some (File c))
                          \/ (fs w !! d = None
                              /\ exists e, (os.makedirs d (after_get url p w)).1 = inl e))))))
    /\ (os.path_dirname d = "" ->
        forall w0, fs w0 !! d = None -> (os.makedirs d w0).1 = inr tt)
    /\ (forall e, fs w !! p <> Some Dir -> http E url = inl e -> r.1 = inl e)
    /\ (out r.2 = out w \/ out r.2 = out w ++ [EHttpGet url])
    /\ (r.1 = inr tt ->
        exists response,
          http E url = inr response
          /\ ~ 400 <= requests.status_code response < 600
          /\ fs r.2 !! p = Some (File (requests.content response)))
    /\ ((exists e, r.1 = inl e) -> forall c, fs r.2 !! p <> Some (File c)).
Proof.
  intros p d r Hd Hself.
  destruct (download_imerg_raises_iff E date run version save_path w)
    as (url & Hurl & Hiff & Hget & Hout & Hret & Hfail).
  fold p in Hiff, Hget, Hret, Hfail. fold r in Hiff, Hget, Hout, Hret, Hfail.
  exists url. split; [exact Hurl |].
  assert (Hwrite : forall content,
             (exists e, (imerg.write_content p content (after_get url p w)).1 = inl e) <->
             (exists c, fs w !! d = Some (File c))
             \/ (fs w !! d = None
                 /\ exists e, (os.makedirs d (after_get url p w)).1 = inl e)).
  { intros content.
    assert (Hsame : fs (after_get url p w) !! d = fs w !! d).
    { unfold after_get. cbn [emit set_fs fs]. now apply lookup_delete_ne. }
    rewrite <- Hsame. apply write_content_raises; [exact Hd | exact Hself |].
    unfold after_get. cbn [emit set_fs fs]. apply lookup_delete_eq. }
  split; [| split; [| split; [exact Hget | split; [exact Hout | split; [exact Hret | exact Hfail]]]]].
  - rewrite Hiff. split.
    + intros [Hdir | [Hnd [Hg | [response [Hresp [Hst | Hwc]]]]]]; [now left | right ..].
      * split; [exact Hnd |]. now left.
      * split; [exact Hnd |]. right. exists response. split; [exact Hresp |]. now left.
      * split; [exact Hnd |]. right. exists response. split; [exact Hresp |]. right.
        now apply Hwrite in Hwc.
    + intros [Hdir | [Hnd [Hg | [response [Hresp [Hst | Hfs]]]]]]; [now left | right ..].
      * split; [exact Hnd |]. now left.
      * split; [exact Hnd |]. right. exists response. split; [exact Hresp |]. now left.
      * split; [exact Hnd |]. right. exists response. split; [exact Hresp |]. right.
        now apply (Hwrite (requests.content response)).
  - intros Hdd w0 Hnone. now apply makedirs_single.
Qed.

(** ** The transformer *)

(** The steps of a call of [process_imerg] that returns. *)
Lemma process_imerg_returns E path w da w' :
  imerg.process_imerg E path w = (inr da, w') ->
  w' = w
  /\ exists ds0 ds da0 da1 da2,
       xrops.open_dataset E path w = (inr ds0, w)
       /\ xrops.transpose DIM_ORDER ds0 = inr ds
       /\ xrops.getitem ds (imerg.var_name ds) = inr da0
       /\ imerg.times_to_dates ds da0 = inr da1
       /\ xrops.rename XY_NAMES da1 = inr da2
       /\ da = xrops.squeeze_drop da2.
Proof.
  unfold imerg.process_imerg. fold DIM_ORDER XY_NAMES.
  unfold bind at 1.
  assert (Hopen : (xrops.open_dataset E path w).2 = w).
  { unfold xrops.open_dataset, bind, os.read_rb, lift.
    destruct (fs w !! path) as [[c|]|]; reflexivity. }
  destruct (xrops.open_dataset E path w) as [[e | ds0] w1]; [discriminate |].
  simpl in Hopen. subst w1.
  unfold bind, lift, ret.
  destruct (xrops.transpose DIM_ORDER ds0) as [e | ds] eqn:H1; [discriminate |].
  destruct (xrops.getitem ds (imerg.var_name ds)) as [e | da0] eqn:H2; [discriminate |].
  destruct (imerg.times_to_dates ds da0) as [e | da1] eqn:H3; [discriminate |].
  destruct (xrops.rename XY_NAMES da1) as [e | da2] eqn:H4; [discriminate |].
  intros [= <- <-]. split; [reflexivity |].
  exists ds0, ds, da0, da1, da2. repeat split; assumption || reflexivity.
Qed.

Lemma transpose_returns order ds0 ds :
  xrops.transpose order ds0 = inr ds ->
  xr.ds_variables ds = xrops.transpose_var order <$> xr.ds_variables ds0
  /\ xr.ds_coord_names ds = xr.ds_coord_names ds0.
Proof.
  unfold xrops.transpose. destruct (bool_decide _); [| discriminate].
  intros [= <-]. split; reflexivity.
Qed.

(** A dimension of a dataset is a dimension of one of its variables. *)
Lemma ds_sizes_lookup ds k n :
  xrops.ds_sizes ds !! k = Some n ->
  exists name v, xr.ds_variables ds !! name = Some v /\ (k, n) ∈ xr.v_dims v.
Proof.
  unfold xrops.ds_sizes.
  assert (Hgen : forall l : list (string * xr.Var),
             foldr (fun kv acc => list_to_map (xr.v_dims kv.2) ∪ acc)
                   (∅ : gmap string nat) l !! k = Some n ->
             exists kv, kv ∈ l /\ (k, n) ∈ xr.v_dims kv.2).
  { induction l as [|kv l IH]; simpl.
    - rewrite lookup_empty. discriminate.
    - rewrite lookup_union_Some_raw. intros [H | [_ H]].
      + exists kv. split; [left |]. now apply elem_of_list_to_map_2 in H.
      + destruct (IH H) as [kv' [Hin Hd]]. exists kv'. split; [now right | exact Hd]. }
  intros H. destruct (Hgen _ H) as [[name v] [Hin Hd]].
  exists name, v. split; [| exact Hd]. now apply elem_of_map_to_list.
Qed.

Lemma dim_size_elem v d n : xr.dim_size v d = Some n -> (d, n) ∈ xr.v_dims v.
Proof.
  unfold xr.dim_size. destruct (find _ _) as [[d' n']|] eqn:Hf; [| discriminate].
  intros [= <-]. apply find_some in Hf as [Hin Heq]. simpl in *.
  apply String.eqb_eq in Heq. subst d'. now apply list_elem_of_In.
Qed.

(** The dimensions of a transposed variable are among those asked for. *)
Lemma transpose_var_dims order v d n :
  (d, n) ∈ xr.v_dims (xrops.transpose_var order v) -> d ∈ order /\ (d, n) ∈ xr.v_dims v.
Proof.
  unfold xrops.transpose_var. simpl. rewrite list_elem_of_omap.
  intros [d' [Hd' Hsome]]. destruct (xr.dim_size v d') as [n'|] eqn:Hsz; [| discriminate].
  simpl in Hsome. injection Hsome as <- <-. split; [exact Hd' | now apply dim_size_elem].
Qed.

(** The variable the transformer selects is a variable of the decoded
    dataset, once the dimensions have been accepted. *)
Lemma getitem_selected ds0 ds da0 :
  xrops.transpose DIM_ORDER ds0 = inr ds ->
  xrops.getitem ds (imerg.var_name ds) = inr da0 ->
  imerg.var_name ds = imerg.var_name ds0
  /\ exists v, xr.ds_variables ds0 !! imerg.var_name ds0 = Some v
               /\ da0 = xrops.construct_dataarray ds (imerg.var_name ds0)
                          (xrops.transpose_var DIM_ORDER v).
Proof.
  intros Htr Hget. destruct (transpose_returns _ _ _ Htr) as [Hvars Hcoords].
  assert (Hname : imerg.var_name ds = imerg.var_name ds0).
  { unfold imerg.var_name, xrops.contains. rewrite Hvars, lookup_fmap.
    destruct (xr.ds_variables ds0 !! "precipitationCal"); reflexivity. }
  split; [exact Hname |]. rewrite Hname in Hget.
  unfold xrops.getitem in Hget. rewrite Hvars, lookup_fmap in Hget.
  destruct (xr.ds_variables ds0 !! imerg.var_name ds0) as [v|] eqn:Hv; simpl in Hget.
  - exists v. split; [reflexivity |]. now injection Hget as <-.
  - exfalso. destruct (xrops.ds_sizes ds !! imerg.var_name ds0) as [n|] eqn:Hsz;
      [| discriminate].
    apply ds_sizes_lookup in Hsz as [name [v' [Hv' Hd]]].
    rewrite Hvars, lookup_fmap in Hv'.
    destruct (xr.ds_variables ds0 !! name) as [v0|]; [| discriminate].
    injection Hv' as <-. apply transpose_var_dims in Hd as [Hd _].
    unfold imerg.var_name in Hd. unfold DIM_ORDER in Hd.
    destruct (xrops.contains ds0 "precipitationCal");
      repeat (apply elem_of_cons in Hd as [Hd | Hd]; [discriminate |]);
      now apply elem_of_nil in Hd.
Qed.

Lemma times_to_dates_variable ds da da' :
  imerg.times_to_dates ds da = inr da' ->
  xr.da_variable da' = xr.da_variable da /\ xr.da_name da' = xr.da_name da.
Proof.
  unfold imerg.times_to_dates, result_bind.
  destruct (xrops.getitem ds "time") as [e | ds_time]; [discriminate |].
  destruct (negb _); [| intros [= <-]; now split].
  destruct (xrops.da_getitem da "time") as [e | da_time]; [discriminate |].
  destruct (xrops.iter_values da_time) as [e | values]; [discriminate |].
  destruct (imerg.list_comp _ _) as [e | times]; [discriminate |].
  unfold xrops.set_coord. destruct (bool_decide _); [| discriminate].
  intros [= <-]. now split.
Qed.

Lemma rename_returns name_dict da da' :
  xrops.rename name_dict da = inr da' ->
  xr.da_name da' = xr.da_name da
  /\ xr.da_variable da' = xrops.rename_var name_dict (xr.da_variable da)
  /\ NoDup (xrops.rename_key name_dict <$> (map_to_list (xr.da_coords da)).*1)
  /\ xr.da_coords da' =
     list_to_map (map (fun kv => (xrops.rename_key name_dict kv.1,
                                  xrops.rename_var name_dict kv.2))
                      (map_to_list (xr.da_coords da))).
Proof.
  unfold xrops.rename. destruct (negb (forallb _ _)); [discriminate |].
  destruct (bool_decide_reflect
              (NoDup (xrops.rename_key name_dict <$> (map_to_list (xr.da_coords da)).*1)))
    as [Hnd | Hnd]; simpl; [| discriminate].
  intros [= <-]. simpl. auto.
Qed.

(** The array [process_imerg] returns is the selected variable of the
    decoded dataset, transposed, renamed and squeezed, under its name. *)
Lemma process_imerg_variable E path w da w' ds0 :
  imerg.process_imerg E path w = (inr da, w') ->
  xrops.open_dataset E path w = (inr ds0, w) ->
  exists v, xr.ds_variables ds0 !! imerg.var_name ds0 = Some v
            /\ xr.da_variable da = transformed v
            /\ xr.da_name da = imerg.var_name ds0.
Proof.
  intros Hret Hopen.
  destruct (process_imerg_returns _ _ _ _ _ Hret)
    as [_ (ds0' & ds & da0 & da1 & da2 & Hopen' & Htr & Hget & Htime & Hren & ->)].
  rewrite Hopen in Hopen'. injection Hopen' as <-.
  destruct (getitem_selected _ _ _ Htr Hget) as [_ [v [Hv ->]]].
  destruct (times_to_dates_variable _ _ _ Htime) as [Hvar1 Hname1].
  destruct (rename_returns _ _ _ Hren) as [Hname2 [Hvar2 _]].
  exists v. split; [exact Hv |]. unfold xrops.squeeze_drop, transformed. simpl.
  rewrite Hvar2, Hvar1, Hname2, Hname1. simpl. split; reflexivity.
Qed.

Lemma filter_ext_elem {A : Type} (P Q : A -> Prop)
    `{forall x, Decision (P x)} `{forall x, Decision (Q x)} (l : list A) :
  (forall x, x ∈ l -> (P x <-> Q x)) -> filter P l = filter Q l.
Proof.
  induction l as [|a l IH]; intros Hl; [reflexivity |].
  rewrite !filter_cons.
  assert (Ha : P a <-> Q a) by (apply Hl; left).
  rewrite IH by (intros x Hx; apply Hl; now right).
  destruct (decide (P a)), (decide (Q a)); tauto.
Qed.

(** Squeezing removes exactly the dimensions of length one, when the
    dimension names are distinct. *)
Lemma squeezed_dims (l : list (string * nat)) :
  NoDup l.*1 ->
  filter (fun p => p.1 ∉ (filter (fun p => p.2 = 1%nat) l).*1) l
  = filter (fun p => p.2 <> 1%nat) l.
Proof.
  intros Hnd. apply filter_ext_elem. intros [d n] Hin. simpl. split.
  - intros Hnot ->. apply Hnot. apply list_elem_of_fmap. exists (d, 1%nat).
    split; [reflexivity |]. apply list_elem_of_filter. now split.
  - intros Hn Hsq. apply list_elem_of_fmap in Hsq as [[d' n'] [Hd Hin']].
    simpl in Hd. subst d'. apply list_elem_of_filter in Hin' as [Hone Hin']. simpl in Hone.
    subst n'. apply Hn.
    apply list_elem_of_lookup in Hin as [i Hi]. apply list_elem_of_lookup in Hin' as [j Hj].
    assert (i = j).
    { eapply NoDup_lookup; [exact Hnd | |]; rewrite list_lookup_fmap.
      - now rewrite Hi.
      - now rewrite Hj. }
    subst j. congruence.
Qed.

(** The dimensions of the transformed variable: of lat, lon, time and nv,
    in this order, those the variable has with a length other than one,
    lat under the name y and lon under the name x. *)
Lemma transformed_dims (v : xr.Var) :
  xr.v_dims (transformed v) =
  filter (fun p => p.2 <> 1%nat)
         (omap (fun names => pair names.2 <$> xr.dim_size v names.1)
               [("lat", "y"); ("lon", "x"); ("time", "time"); ("nv", "nv")]).
Proof.
  unfold transformed, xrops.isel0, xrops.squeeze_dims. cbn [xr.v_dims].
  assert (Hdims : xr.v_dims (xrops.rename_var XY_NAMES (xrops.transpose_var DIM_ORDER v)) =
                  omap (fun names => pair names.2 <$> xr.dim_size v names.1)
                       [("lat", "y"); ("lon", "x"); ("time", "time"); ("nv", "nv")]).
  { unfold xrops.rename_var, xrops.transpose_var, DIM_ORDER.
    cbn [xr.v_dims omap list_omap fst snd].
    destruct (xr.dim_size v "lat"), (xr.dim_size v "lon"), (xr.dim_size v "time"),
      (xr.dim_size v "nv"); reflexivity. }
  rewrite Hdims. apply squeezed_dims.
  cbn [omap list_omap fst snd].
  destruct (xr.dim_size v "lat"), (xr.dim_size v "lon"), (xr.dim_size v "time"),
    (xr.dim_size v "nv"); cbn; apply (bool_decide_unpack _); vm_compute; exact I.
Qed.

(** A dimension of the transformed variable comes from one of lat, lon,
    time and nv that the variable has with a length other than one. *)
Lemma transformed_dim (v : xr.Var) (d : string) (n : nat) :
  (d, n) ∈ xr.v_dims (transformed v) <->
  n <> 1%nat
  /\ exists old, (old, d) ∈ [("lat", "y"); ("lon", "x"); ("time", "time"); ("nv", "nv")]
                 /\ xr.dim_size v old = Some n.
Proof.
  rewrite transformed_dims, list_elem_of_filter, list_elem_of_omap. cbn [snd]. split.
  - intros [Hn [[old new] [Hin Hsome]]]. split; [exact Hn |]. cbn [fst snd] in Hsome.
    destruct (xr.dim_size v old) as [k|] eqn:Hk; [| discriminate].
    cbn in Hsome. injection Hsome as <- <-. exists old. now split.
  - intros [Hn [old [Hin Hk]]]. split; [exact Hn |]. exists (old, d). split; [exact Hin |].
    cbn [fst snd]. now rewrite Hk.
Qed.

(** C4, as the code has it: for every dataset the transformer accepts,
    the dimensions of the returned array are, of lat, lon, time and nv and
    in this order, those the selected variable has with a length other
    than one, lat under the name y and lon under the name x.  So the array
    has a dimension y exactly when the variable has a dimension lat of a
    length other than one, and a dimension x exactly when it has a
    dimension lon of a length other than one; with both, its dimensions
    are y, x and then those of time and nv that are longer than one.  No
    dimension of length one is left and none is named lat or lon. *)
Theorem C4_dims_named_x_y_no_singleton
    (E : env) (path : string) (w w' : world) (da : xr.DataArray) (ds0 : xr.Dataset) :
  imerg.process_imerg E path w = (inr da, w') ->
  xrops.open_dataset E path w = (inr ds0, w) ->
  exists v,
    xr.ds_variables ds0 !! imerg.var_name ds0 = Some v
    /\ xr.v_dims (xr.da_variable da) =
       filter (fun p => p.2 <> 1%nat)
              (omap (fun names => pair names.2 <$> xr.dim_size v names.1)
                    [("lat", "y"); ("lon", "x"); ("time", "time"); ("nv", "nv")])
    /\ Forall (fun p => p.2 <> 1%nat) (xr.v_dims (xr.da_variable da))
    /\ Forall (fun p => p.1 ∈ ["y"; "x"; "time"; "nv"]) (xr.v_dims (xr.da_variable da))
    /\ ("lat" ∉ xr.dim_names (xr.da_variable da))
    /\ ("lon" ∉ xr.dim_names (xr.da_variable da))
    /\ ("y" ∈ xr.dim_names (xr.da_variable da)
        <-> exists n, xr.dim_size v "lat" = Some n /\ n <> 1%nat)
    /\ ("x" ∈ xr.dim_names (xr.da_variable da)
        <-> exists n, xr.dim_size v "lon" = Some n /\ n <> 1%nat)
    /\ (forall n m,
          xr.dim_size v "lat" = Some n -> n <> 1%nat ->
          xr.dim_size v "lon" = Some m -> m <> 1%nat ->
          exists rest,
            xr.v_dims (xr.da_variable da) = ("y", n) :: ("x", m) :: rest
            /\ Forall (fun p => p.1 ∈ ["time"; "nv"]) rest).
Proof.
  intros Hret Hopen.
  destruct (process_imerg_variable _ _ _ _ _ _ Hret Hopen) as [v [Hv [Hvar _]]].
  exists v. split; [exact Hv |]. rewrite Hvar. split; [apply transformed_dims |].
  assert (Hnames : Forall (fun p => p.1 ∈ ["y"; "x"; "time"; "nv"])
                          (xr.v_dims (transformed v))).
  { apply List.Forall_forall. intros [d n] Hin.
    apply list_elem_of_In, transformed_dim in Hin as [_ [old [Hin _]]]. cbn [fst].
    repeat (apply elem_of_cons in Hin as [Heq | Hin];
            [injection Heq as -> ->; set_solver |]).
    now apply elem_of_nil in Hin. }
  assert (Hname : forall old new,
             (old, new) ∈ [("lat", "y"); ("lon", "x"); ("time", "time"); ("nv", "nv")] ->
             (forall old', (old', new)
                           ∈ [("lat", "y"); ("lon", "x"); ("time", "time"); ("nv", "nv")] ->
                           old' = old) ->
             new ∈ xr.dim_names (transformed v)
             <-> exists n, xr.dim_size v old = Some n /\ n <> 1%nat).
  { intros old new Hpair Huniq. unfold xr.dim_names. rewrite list_elem_of_fmap. split.
    - intros [[d n] [Hd Hin]]. cbn [fst] in Hd. subst d.
      apply transformed_dim in Hin as [Hn [old' [Hin Hk]]].
      apply Huniq in Hin. subst old'. now exists n.
    - intros [n [Hk Hn]]. exists (new, n). split; [reflexivity |].
      apply transformed_dim. split; [exact Hn |]. now exists old. }
  split; [| split; [exact Hnames | split; [| split; [| split; [| split]]]]].
  - apply List.Forall_forall. intros [d n] Hin.
    now apply list_elem_of_In, transformed_dim in Hin as [Hn _].
  - intros Hin. apply list_elem_of_fmap in Hin as [[d n] [Hd Hin]]. simpl in Hd. subst d.
    rewrite List.Forall_forall in Hnames. apply list_elem_of_In, Hnames in Hin. simpl in Hin.
    repeat (apply elem_of_cons in Hin as [Hin | Hin]; [discriminate |]).
    now apply elem_of_nil in Hin.
  - intros Hin. apply list_elem_of_fmap in Hin as [[d n] [Hd Hin]]. simpl in Hd. subst d.
    rewrite List.Forall_forall in Hnames. apply list_elem_of_In, Hnames in Hin. simpl in Hin.
    repeat (apply elem_of_cons in Hin as [Hin | Hin]; [discriminate |]).
    now apply elem_of_nil in Hin.
  - apply Hname; [left |]. intros old' Hin.
    repeat (apply elem_of_cons in Hin as [Heq | Hin]; [now injection Heq as -> || discriminate |]).
    now apply elem_of_nil in Hin.
  - apply Hname; [right; left |]. intros old' Hin.
    repeat (apply elem_of_cons in Hin as [Heq | Hin]; [now injection Heq as -> || discriminate |]).
    now apply elem_of_nil in Hin.
  - intros n m Hlat Hn Hlon Hm. rewrite transformed_dims.
    cbn [omap list_omap fst snd]. rewrite Hlat, Hlon. cbn [fmap option_fmap option_map].
    rewrite filter_cons_True by exact Hn. rewrite filter_cons_True by exact Hm.
    eexists. split; [reflexivity |].
    apply List.Forall_forall. intros [d k] Hin.
    apply list_elem_of_In, list_elem_of_filter in Hin as [_ Hin]. cbn [fst].
    destruct (xr.dim_size v "time"), (xr.dim_size v "nv");
      cbn [fmap option_fmap option_map] in Hin;
      repeat (apply elem_of_cons in Hin as [Heq | Hin];
              [injection Heq as -> ->; first [left | right; left] |]);
      now apply elem_of_nil in Hin.
Qed.


Lemma transpose_var_along_time c : along_time c -> along_time (xrops.transpose_var DIM_ORDER c).
Proof.
  intros [n Hc]. exists n. unfold xrops.transpose_var, DIM_ORDER, xr.dim_size. simpl.
  rewrite Hc. reflexivity.
Qed.

Lemma rename_var_along_time c : along_time c -> along_time (xrops.rename_var XY_NAMES c).
Proof. intros [n Hc]. exists n. unfold xrops.rename_var. simpl. rewrite Hc. reflexivity. Qed.

Lemma rename_key_time k : xrops.rename_key XY_NAMES k = "time" -> k = "time".
Proof.
  unfold xrops.rename_key, XY_NAMES. cbn [find fst snd].
  destruct (String.eqb_spec "lon" k); [discriminate |].
  destruct (String.eqb_spec "lat" k); [discriminate |]. trivial.
Qed.

(** After lines 108 to 111 a time coordinate has only the dimension time,
    if the one before had. *)
Lemma times_to_dates_time_coord ds da da' :
  imerg.times_to_dates ds da = inr da' ->
  (forall c, xr.da_coords da !! "time" = Some c -> along_time c) ->
  forall c, xr.da_coords da' !! "time" = Some c -> along_time c.
Proof.
  unfold imerg.times_to_dates, result_bind. intros Hret Hbefore.
  destruct (xrops.getitem ds "time") as [e | ds_time]; [discriminate |].
  destruct (negb _); [| injection Hret as <-; exact Hbefore].
  destruct (xrops.da_getitem da "time") as [e | da_time]; [discriminate |].
  destruct (xrops.iter_values da_time) as [e | values]; [discriminate |].
  destruct (imerg.list_comp _ _) as [e | times]; [discriminate |].
  unfold xrops.set_coord in Hret. destruct (bool_decide _); [| discriminate].
  injection Hret as <-. simpl. intros c. rewrite lookup_insert_eq. intros [= <-].
  now eexists.
Qed.

(** C7, as the code has it: when the selected variable has a time
    dimension of length one and the time variable of the dataset has only
    the dimension time, the array [process_imerg] returns has neither a
    time dimension nor a time coordinate: [squeeze(drop=True)] drops the
    coordinate with the dimension; and its attributes are those of the
    selected variable, to which no date is added. *)
Theorem C7_singleton_time_is_dropped
    (E : env) (path : string) (w w' : world) (da : xr.DataArray) (ds0 : xr.Dataset)
    (v : xr.Var) :
  imerg.process_imerg E path w = (inr da, w') ->
  xrops.open_dataset E path w = (inr ds0, w) ->
  xr.ds_variables ds0 !! imerg.var_name ds0 = Some v ->
  xr.dim_size v "time" = Some 1%nat ->
  (forall c, xr.ds_variables ds0 !! "time" = Some c -> along_time c) ->
  xr.da_coords da !! "time" = None
  /\ ("time" ∉ xr.dim_names (xr.da_variable da))
  /\ xr.v_attrs (xr.da_variable da) = xr.v_attrs v.
Proof.
  intros Hret Hopen Hv Hone Htime.
  destruct (process_imerg_returns _ _ _ _ _ Hret)
    as [_ (ds0' & ds & da0 & da1 & da2 & Hopen' & Htr & Hget & Hdates & Hren & ->)].
  rewrite Hopen in Hopen'. injection Hopen' as <-.
  destruct (transpose_returns _ _ _ Htr) as [Hvars _].
  destruct (getitem_selected _ _ _ Htr Hget) as [_ [v' [Hv' ->]]].
  rewrite Hv in Hv'. injection Hv' as <-.
  destruct (times_to_dates_variable _ _ _ Hdates) as [Hvar1 _].
  destruct (rename_returns _ _ _ Hren) as [_ [Hvar2 [_ Hcoords2]]].
  simpl in Hvar1. rewrite Hvar1 in Hvar2.
  (* the time coordinate, before the squeeze, has only the dimension time *)
  assert (Hc1 : forall c, xr.da_coords da1 !! "time" = Some c -> along_time c).
  { apply (times_to_dates_time_coord _ _ _ Hdates). simpl. intros c Hc.
    apply map_lookup_filter_Some in Hc as [Hc _]. rewrite Hvars, lookup_fmap in Hc.
    destruct (xr.ds_variables ds0 !! "time") as [c0|] eqn:Hc0; [| discriminate].
    injection Hc as <-. now apply transpose_var_along_time, Htime. }
  assert (Hc2 : forall c, xr.da_coords da2 !! "time" = Some c -> along_time c).
  { intros c Hc. rewrite Hcoords2 in Hc. apply elem_of_list_to_map_2 in Hc.
    apply list_elem_of_In, in_map_iff in Hc as [[k c1] [Heq Hin]]. simpl in Heq.
    injection Heq as Hk <-. apply rename_key_time in Hk. subst k.
    apply list_elem_of_In, elem_of_map_to_list in Hin.
    now apply rename_var_along_time, Hc1. }
  (* time is one of the squeezed dimensions *)
  assert (Hsq : "time" ∈ xrops.squeeze_dims (xr.da_variable da2)).
  { rewrite Hvar2. unfold xrops.squeeze_dims. apply list_elem_of_fmap.
    exists ("time", 1%nat). split; [reflexivity |]. apply list_elem_of_filter.
    split; [reflexivity |]. unfold xrops.rename_var, xrops.transpose_var. cbn [xr.v_dims].
    apply list_elem_of_In, in_map_iff. exists ("time", 1%nat). split; [reflexivity |].
    apply list_elem_of_In, list_elem_of_omap. exists "time".
    split; [unfold DIM_ORDER; set_solver |]. now rewrite Hone. }
  split; [| split].
  - unfold xrops.squeeze_drop. simpl. rewrite lookup_omap.
    destruct (xr.da_coords da2 !! "time") as [c2|] eqn:Hc; [| reflexivity]. simpl.
    destruct (Hc2 c2 eq_refl) as [n Hdims].
    rewrite bool_decide_eq_true_2.
    + unfold xrops.isel0. simpl. rewrite Hdims.
      rewrite filter_cons_False by (simpl; tauto). reflexivity.
    + unfold xr.dim_names. rewrite Hdims. now constructor.
  - unfold xrops.squeeze_drop, xrops.isel0, xr.dim_names. simpl.
    intros Hin. apply list_elem_of_fmap in Hin as [[d n] [Hd Hin]]. simpl in Hd. subst d.
    apply list_elem_of_filter in Hin as [Hnot _]. now apply Hnot.
  - unfold xrops.squeeze_drop. simpl. now rewrite Hvar2.
Qed.

(** ** Calendar dates and their text *)

Lemma valid_date_bounds y m d :
  calendar.valid_date y m d = true -> 1 <= m <= 12 /\ 1 <= d <= calendar.days_in_month y m.
Proof.
  unfold calendar.valid_date. rewrite !andb_true_iff, !Z.leb_le. lia.
Qed.

(** The civil date of the day count of a date of the calendar is that
    date. *)
Lemma civil_from_days_from_civil y m d :
  calendar.valid_date y m d = true ->
  calendar.civil_from_days (calendar.days_from_civil y m d) = (y, m, d).
Proof.
  intros H. apply valid_date_bounds in H as [Hm Hd].
  unfold calendar.days_in_month, calendar.is_leap in Hd.
  unfold calendar.civil_from_days, calendar.days_from_civil.
  set (y' := if m <=? 2 then y - 1 else y).
  set (era := y' / 400).
  set (yoe := y' - era * 400).
  set (mp := if m <=? 2 then m + 9 else m - 3).
  set (doy := (153 * mp + 2) / 5 + d - 1).
  set (doe := yoe * 365 + yoe / 4 - yoe / 100 + doy).
  assert (Hyoe : 0 <= yoe < 400) by (subst yoe era; Z.div_mod_to_equations; lia).
  assert (Hmp : 0 <= mp <= 11 /\ (m <= 2 -> mp = m + 9) /\ (2 < m -> mp = m - 3)).
  { subst mp. destruct (Z.leb_spec m 2); lia. }
  assert (Hy' : (m <= 2 -> y' = y - 1) /\ (2 < m -> y' = y)).
  { subst y'. destruct (Z.leb_spec m 2); lia. }
  assert (Hdoy : 0 <= doy <= 365
                 /\ (doy = 365 -> (yoe + 1) mod 4 = 0
                                  /\ ((yoe + 1) mod 100 <> 0 \/ yoe = 399))).
  { clearbody mp y'. subst doy.
    destruct (Z.eqb_spec m 2) as [-> |].
    - destruct (Z.eqb_spec (y mod 4) 0), (Z.eqb_spec (y mod 100) 0),
        (Z.eqb_spec (y mod 400) 0); simpl in Hd; subst yoe era;
        (Z.div_mod_to_equations; lia).
    - assert (mp <> 11) by lia.
      destruct ((m =? 4) || (m =? 6) || (m =? 9) || (m =? 11)) eqn:H30.
      + assert (m = 4 \/ m = 6 \/ m = 9 \/ m = 11)
          by (rewrite !orb_true_iff, !Z.eqb_eq in H30; tauto).
        Z.div_mod_to_equations; lia.
      + rewrite !orb_false_iff, !Z.eqb_neq in H30.
        Z.div_mod_to_equations; lia. }
  assert (Hdoe : 0 <= doe < 146097).
  { subst doe. Z.div_mod_to_equations; lia. }
  replace (era * 146097 + doe - 719468 + 719468) with (doe + era * 146097) by lia.
  rewrite Z.div_add by lia. rewrite (Z.div_small doe) by lia.
  replace (doe + era * 146097 - (0 + era) * 146097) with doe by lia.
  assert (Hyoe' : (doe - doe / 1460 + doe / 36524 - doe / 146096) / 365 = yoe).
  { subst doe. clearbody yoe doy.
    assert (Hc : yoe / 100 = 0 \/ yoe / 100 = 1 \/ yoe / 100 = 2 \/ yoe / 100 = 3)
      by (Z.div_mod_to_equations; lia).
    destruct Hc as [Hc | [Hc | [Hc | Hc]]]; rewrite Hc; rewrite Hc in *;
      (Z.div_mod_to_equations; lia). }
  rewrite Hyoe'.
  replace (doe - (365 * yoe + yoe / 4 - yoe / 100)) with doy by (subst doe; lia).
  assert (Hmp' : (5 * doy + 2) / 153 = mp).
  { assert (Hd31 : 1 <= d <= 31 /\ (m = 4 \/ m = 6 \/ m = 9 \/ m = 11 -> d <= 30)
                   /\ (m = 2 -> d <= 29)).
    { destruct (Z.eqb_spec m 2) as [-> |].
      - destruct ((y mod 4 =? 0) && negb (y mod 100 =? 0) || (y mod 400 =? 0)); lia.
      - destruct (Z.eqb_spec m 4), (Z.eqb_spec m 6), (Z.eqb_spec m 9), (Z.eqb_spec m 11);
          simpl in Hd; lia. }
    subst doy. clear Hdoy Hdoe Hyoe' doe.
    assert (Hcases : m = 1 \/ m = 2 \/ m = 3 \/ m = 4 \/ m = 5 \/ m = 6 \/ m = 7
                     \/ m = 8 \/ m = 9 \/ m = 10 \/ m = 11 \/ m = 12) by lia.
    clear Hd.
    destruct Hcases as [Hc|[Hc|[Hc|[Hc|[Hc|[Hc|[Hc|[Hc|[Hc|[Hc|[Hc|Hc]]]]]]]]]]];
      (assert (Hmpv : mp = if m <=? 2 then m + 9 else m - 3) by reflexivity;
       rewrite Hc in Hmpv; simpl in Hmpv; rewrite Hmpv; clearbody mp;
       Z.div_mod_to_equations; lia). }
  rewrite Hmp'.
  replace (doy - (153 * mp + 2) / 5 + 1) with d by (subst doy; lia).
  destruct Hmp as [Hmp1 [Hmp2 Hmp3]]. destruct Hy' as [Hy1 Hy2].
  destruct (Z.ltb_spec mp 10).
  - assert (2 < m) by lia. replace (mp + 3) with m by lia.
    destruct (Z.leb_spec m 2); [lia |]. f_equal. f_equal. subst yoe. lia.
  - assert (m <= 2) by lia. replace (mp - 9) with m by lia.
    destruct (Z.leb_spec m 2); [| lia]. f_equal. f_equal. subst yoe. lia.
Qed.

(** A day that the 64-bit nanosecond range holds lies in the years 1677
    to 2262. *)
Lemma year_of_day_in_range y m d :
  1 <= m <= 12 -> 1 <= d <= 31 ->
  -106751 <= calendar.days_from_civil y m d <= 106751 -> 1677 <= y <= 2262.
Proof.
  intros Hm Hd. unfold calendar.days_from_civil.
  destruct (Z.leb_spec m 2); Z.div_mod_to_equations; lia.
Qed.

Lemma forallb_range (P : Z -> bool) (bound z : Z) :
  forallb P (map Z.of_nat (seq 0 (Z.to_nat bound))) = true -> 0 <= z < bound -> P z = true.
Proof.
  intros Hall Hz. rewrite forallb_forall in Hall. apply Hall.
  apply in_map_iff. exists (Z.to_nat z). split; [lia |]. apply in_seq. lia.
Qed.

Lemma four_digits_all :
  forallb four_digits_ok (map Z.of_nat (seq 0 (Z.to_nat 10000))) = true.
Proof. vm_compute. reflexivity. Qed.

Lemma two_digits_all :
  forallb two_digits_ok (map Z.of_nat (seq 0 (Z.to_nat 100))) = true.
Proof. vm_compute. reflexivity. Qed.

Lemma four_digits (n : Z) :
  0 <= n <= 9999 ->
  exists a b c d,
    py.fmt_field 4 n = String a (String b (String c (String d EmptyString)))
    /\ py.parse_digits (String a (String b (String c (String d EmptyString)))) = Some n.
Proof.
  intros Hn.
  pose proof (forallb_range _ _ n four_digits_all ltac:(lia)) as Hok.
  unfold four_digits_ok in Hok.
  destruct (py.fmt_field 4 n) as [|a [|b [|c [|d [|]]]]]; try discriminate.
  exists a, b, c, d. split; [reflexivity |].
  destruct (py.parse_digits _) as [n'|]; [| discriminate].
  apply Z.eqb_eq in Hok. now subst.
Qed.

Lemma two_digits (n : Z) :
  0 <= n <= 99 ->
  exists a b,
    py.fmt_field 2 n = String a (String b EmptyString)
    /\ py.parse_digits (String a (String b EmptyString)) = Some n.
Proof.
  intros Hn.
  pose proof (forallb_range _ _ n two_digits_all ltac:(lia)) as Hok.
  unfold two_digits_ok in Hok.
  destruct (py.fmt_field 2 n) as [|a [|b [|]]]; try discriminate.
  exists a, b. split; [reflexivity |].
  destruct (py.parse_digits _) as [n'|]; [| discriminate].
  apply Z.eqb_eq in Hok. now subst.
Qed.

(** Printing a date of the years 0 to 9999 as YYYY-MM-DD and reading it
    back gives midnight of that date, or raises when that lies outside the
    64-bit nanosecond range. *)
Lemma parse_strftime_date (f : pd.fields) :
  0 <= pd.f_year f <= 9999 ->
  calendar.valid_date (pd.f_year f) (pd.f_month f) (pd.f_day f) = true ->
  pd.Timestamp_of_string (pd.strftime_fields f "%Y-%m-%d") =
  let t := calendar.days_from_civil (pd.f_year f) (pd.f_month f) (pd.f_day f)
           * pd.NS_PER_DAY in
  if (pd.TS_MIN <=? t) && (t <=? pd.TS_MAX) then inr t
  else raise "OutOfBoundsDatetime"
         ("Out of bounds nanosecond timestamp: " +:+ pd.strftime_fields f "%Y-%m-%d").
Proof.
  intros Hy Hvalid. pose proof (valid_date_bounds _ _ _ Hvalid) as [Hm Hd].
  assert (Hd31 : pd.f_day f <= 31).
  { unfold calendar.days_in_month in Hd.
    destruct (_ =? 2); [destruct (calendar.is_leap _) |]; [lia | lia |].
    destruct (_ || _); lia. }
  destruct (four_digits (pd.f_year f) Hy) as (a & b & c & d & Hfy & Hpy).
  destruct (two_digits (pd.f_month f) ltac:(lia)) as (m1 & m2 & Hfm & Hpm).
  destruct (two_digits (pd.f_day f) ltac:(lia)) as (d1 & d2 & Hfd & Hpd).
  assert (Htext : pd.strftime_fields f "%Y-%m-%d" =
                  String a (String b (String c (String d (String "-"
                    (String m1 (String m2 (String "-" (String d1 (String d2 "")))))))))).
  { cbn -[py.fmt_field String.append]. rewrite Hfy, Hfm, Hfd. reflexivity. }
  rewrite Htext. unfold pd.Timestamp_of_string.
  cbn [substring String.length Nat.eqb].
  rewrite Hpy, Hpm, Hpd.
  rewrite !bool_decide_eq_true_2 by reflexivity.
  cbn [andb negb]. rewrite Hvalid. cbn [negb]. reflexivity.
Qed.

Lemma truncate_representable (f : pd.fields) :
  representable f ->
  exists ts, imerg.truncate_to_date (Some (xr.SObject (xr.PyDatetime f))) = inr ts
             /\ date_of_value (Some (xr.SObject (xr.PyDatetime f))) ts.
Proof.
  intros [Hvalid Hrange].
  pose proof (valid_date_bounds _ _ _ Hvalid) as [Hm Hd].
  assert (Hd31 : pd.f_day f <= 31).
  { unfold calendar.days_in_month in Hd.
    destruct (_ =? 2); [destruct (calendar.is_leap _) |]; [lia | lia |].
    destruct (_ || _); lia. }
  assert (Hy : 1677 <= pd.f_year f <= 2262).
  { apply (year_of_day_in_range _ (pd.f_month f) (pd.f_day f)); [lia | lia |].
    unfold pd.TS_MIN, pd.TS_MAX, pd.NS_PER_DAY, pd.NS_PER_SECOND in Hrange. lia. }
  set (days := calendar.days_from_civil (pd.f_year f) (pd.f_month f) (pd.f_day f)) in *.
  assert (Hparse : pd.Timestamp_of_string (pd.strftime_fields f "%Y-%m-%d")
                   = inr (days * pd.NS_PER_DAY)).
  { rewrite parse_strftime_date by (lia || assumption). fold days. cbv zeta.
    destruct (Z.leb_spec pd.TS_MIN (days * pd.NS_PER_DAY)); [| lia].
    destruct (Z.leb_spec (days * pd.NS_PER_DAY) pd.TS_MAX); [reflexivity | lia]. }
  exists (days * pd.NS_PER_DAY). split; [exact Hparse |].
  exists f. split; [reflexivity |]. split; [exact Hparse |]. split; [reflexivity |].
  assert (Hdays : pd.ts_days (days * pd.NS_PER_DAY) = days).
  { unfold pd.ts_days. apply Z.div_mul. discriminate. }
  split.
  - unfold pd.year, pd.month, pd.day. rewrite Hdays. subst days.
    now rewrite civil_from_days_from_civil.
  - unfold pd.ts_time_of_day. apply Z.mod_mul. discriminate.
Qed.

Lemma list_comp_representable (values : list (option xr.scalar)) :
  Forall (fun t => exists f, t = Some (xr.SObject (xr.PyDatetime f)) /\ representable f)
         values ->
  exists times, imerg.list_comp imerg.truncate_to_date values = inr times
                /\ Forall2 date_of_value values times.
Proof.
  induction 1 as [|t values [f [-> Hf]] _ [times [Htimes Hall]]].
  - exists []. split; [reflexivity | constructor].
  - destruct (truncate_representable f Hf) as [ts [Hts Hdate]].
    exists (ts :: times). split.
    + cbn [imerg.list_comp]. rewrite Hts. cbn [result_bind]. now rewrite Htimes.
    + now constructor.
Qed.

(** ** Reading back what [strftime] printed *)

Lemma length_append (a b : string) :
  String.length (a +:+ b) = (String.length a + String.length b)%nat.
Proof.
  induction a as [|c a IH]; [reflexivity |].
  rewrite append_cons. cbn [String.length]. now rewrite IH.
Qed.

Lemma length_zeros k : String.length (py.zeros k) = k.
Proof. induction k as [|k IH]; [reflexivity |]. cbn [py.zeros String.length]. now rewrite IH. Qed.

(** A field is printed with at least as many characters as its width. *)
Lemma fmt_field_length (width : nat) (n : Z) :
  (width <= String.length (py.fmt_field width n))%nat.
Proof.
  unfold py.fmt_field, py.zfill. rewrite length_append, length_zeros. lia.
Qed.

Lemma uint_of_zeros_none k s :
  NilEmpty.uint_of_string s = None ->
  NilEmpty.uint_of_string (py.zeros k +:+ s) = None.
Proof.
  intros Hs. induction k as [|k IH]; [exact Hs |].
  cbn [py.zeros]. rewrite append_cons. cbn [NilEmpty.uint_of_string]. now rewrite IH.
Qed.

Lemma uint_of_zeros_some k s d :
  NilEmpty.uint_of_string s = Some d ->
  exists d', NilEmpty.uint_of_string (py.zeros k +:+ s) = Some d'
             /\ Z.of_uint d' = Z.of_uint d.
Proof.
  intros Hs. induction k as [|k [d' [Hd' Heq]]]; [now exists d |].
  exists (D0 d'). cbn [py.zeros]. rewrite append_cons.
  cbn [NilEmpty.uint_of_string]. rewrite Hd'. split; [reflexivity | exact Heq].
Qed.

Lemma parse_digits_uint s n :
  py.parse_digits s = Some n ->
  exists d, NilEmpty.uint_of_string s = Some d /\ Z.of_uint d = n.
Proof.
  unfold py.parse_digits, NilZero.uint_of_string. destruct s as [|c s]; [discriminate |].
  destruct (NilEmpty.uint_of_string (String c s)) as [d|]; [| discriminate].
  intros [= <-]. now exists d.
Qed.

(** A printed field reads back as a number only when the number is not
    negative, and then as that number. *)
Lemma parse_fmt_field (width : nat) (n n' : Z) :
  py.parse_digits (py.fmt_field width n) = Some n' -> n' = n /\ 0 <= n.
Proof.
  intros H. apply parse_digits_uint in H as [d [Hd Hn']].
  unfold py.fmt_field, py.zfill, py.str_int in Hd.
  set (k := (width - _)%nat) in Hd. clearbody k.
  assert (Hpos : forall u, u <> Nil -> Z.of_uint u = n ->
             NilEmpty.uint_of_string (py.zeros k +:+ NilZero.string_of_uint u) = Some d ->
             n' = n).
  { intros u Hu Hun Hparse.
    assert (Hs : NilEmpty.uint_of_string (NilZero.string_of_uint u) = Some u).
    { pose proof (NilZero.usu u Hu) as Husu. unfold NilZero.uint_of_string in Husu.
      destruct (NilZero.string_of_uint u); [discriminate | exact Husu]. }
    destruct (uint_of_zeros_some k _ _ Hs) as [d' [Hd' Heq]].
    rewrite Hd' in Hparse. injection Hparse as <-. congruence. }
  destruct n as [|p|p]; cbn [Z.to_int NilZero.string_of_int] in Hd.
  - split; [| lia]. apply (Hpos Decimal.zero); [discriminate | reflexivity | exact Hd].
  - split; [| lia]. apply (Hpos (Pos.to_uint p));
      [apply DecimalPos.Unsigned.to_uint_nonnil | | exact Hd].
    unfold Z.of_uint. now rewrite DecimalPos.Unsigned.of_to.
  - exfalso. rewrite uint_of_zeros_none in Hd; [discriminate |].
    cbn [NilEmpty.uint_of_string].
    destruct (NilEmpty.uint_of_string (NilZero.string_of_uint (Pos.to_uint p)));
      reflexivity.
Qed.

(** The text of a date reads back as a timestamp only when the date is a
    date of the calendar that the nanosecond range holds; the timestamp is
    then midnight of that date. *)
Lemma parse_strftime_returns (f : pd.fields) (ts : pd.Timestamp) :
  pd.Timestamp_of_string (pd.strftime_fields f "%Y-%m-%d") = inr ts ->
  representable f
  /\ ts = calendar.days_from_civil (pd.f_year f) (pd.f_month f) (pd.f_day f) * pd.NS_PER_DAY.
Proof.
  assert (Htext : pd.strftime_fields f "%Y-%m-%d" =
                  py.fmt_field 4 (pd.f_year f) +:+ String "-"
                    (py.fmt_field 2 (pd.f_month f) +:+ String "-"
                       (py.fmt_field 2 (pd.f_day f)))).
  { cbn -[py.fmt_field String.append]. now rewrite append_nil_r. }
  rewrite Htext. clear Htext.
  pose proof (fmt_field_length 4 (pd.f_year f)) as Hly.
  pose proof (fmt_field_length 2 (pd.f_month f)) as Hlm.
  pose proof (fmt_field_length 2 (pd.f_day f)) as Hld.
  pose proof (parse_fmt_field 4 (pd.f_year f)) as Hpy.
  pose proof (parse_fmt_field 2 (pd.f_month f)) as Hpm.
  pose proof (parse_fmt_field 2 (pd.f_day f)) as Hpd.
  destruct (py.fmt_field 4 (pd.f_year f)) as [|a [|b [|c [|d Y]]]];
    try (cbn [String.length] in Hly; lia).
  destruct (py.fmt_field 2 (pd.f_month f)) as [|m1 [|m2 M]];
    try (cbn [String.length] in Hlm; lia).
  destruct (py.fmt_field 2 (pd.f_day f)) as [|d1 [|d2 D]];
    try (cbn [String.length] in Hld; lia).
  unfold pd.Timestamp_of_string.
  destruct ((String.length _ =? 10)%nat) eqn:Hlen.
  2:{ cbn [andb negb].
      repeat match goal with
             | |- context [match py.parse_digits ?x with _ => _ end] =>
                 destruct (py.parse_digits x)
             end; discriminate. }
  apply Nat.eqb_eq in Hlen. rewrite !append_cons in Hlen. cbn [String.length] in Hlen.
  rewrite length_append in Hlen. cbn [String.length] in Hlen.
  rewrite length_append in Hlen. cbn [String.length] in Hlen.
  assert (HY : Y = "") by (destruct Y; [reflexivity | cbn [String.length] in Hlen; lia]).
  assert (HM : M = "") by (destruct M; [reflexivity | cbn [String.length] in Hlen; lia]).
  assert (HD : D = "") by (destruct D; [reflexivity | cbn [String.length] in Hlen; lia]).
  subst Y M D.
  change (String a (String b (String c (String d ""))) +:+
          String "-" (String m1 (String m2 "") +:+ String "-" (String d1 (String d2 ""))))
    with (String a (String b (String c (String d (String "-"
            (String m1 (String m2 (String "-" (String d1 (String d2 "")))))))))).
  cbn [substring].
  destruct (py.parse_digits (String a (String b (String c (String d ""))))) as [y|] eqn:Hy;
    [| discriminate].
  destruct (py.parse_digits (String m1 (String m2 ""))) as [m|] eqn:Hm; [| discriminate].
  destruct (py.parse_digits (String d1 (String d2 ""))) as [dd|] eqn:Hdd; [| discriminate].
  destruct (Hpy y eq_refl) as [-> Hy0]. destruct (Hpm m eq_refl) as [-> Hm0].
  destruct (Hpd dd eq_refl) as [-> Hd0].
  destruct (negb _); [discriminate |].
  destruct (calendar.valid_date _ _ _) eqn:Hvalid; cbn [negb]; [| discriminate].
  cbv zeta.
  destruct (Z.leb_spec pd.TS_MIN
              (calendar.days_from_civil (pd.f_year f) (pd.f_month f) (pd.f_day f)
               * pd.NS_PER_DAY)); cbn [andb]; [| discriminate].
  destruct (Z.leb_spec
              (calendar.days_from_civil (pd.f_year f) (pd.f_month f) (pd.f_day f)
               * pd.NS_PER_DAY) pd.TS_MAX); [| discriminate].
  intros [= <-]. split; [| reflexivity]. split; [exact Hvalid | lia].
Qed.

Lemma truncate_returns (t : option xr.scalar) (ts : pd.Timestamp) :
  imerg.truncate_to_date t = inr ts -> date_of_value t ts.
Proof.
  unfold imerg.truncate_to_date.
  destruct t as [[ns | [f | repr] | dt bits]|]; try discriminate.
  intros Hparse. destruct (parse_strftime_returns f ts Hparse) as [Hrep _].
  destruct (truncate_representable f Hrep) as [ts' [Hts' Hdate]].
  cbn [imerg.truncate_to_date] in Hts'. rewrite Hparse in Hts'. now injection Hts' as <-.
Qed.

Lemma list_comp_returns (values : list (option xr.scalar)) (times : list pd.Timestamp) :
  imerg.list_comp imerg.truncate_to_date values = inr times ->
  Forall2 date_of_value values times.
Proof.
  revert times. induction values as [|t values IH]; intros times; cbn [imerg.list_comp].
  - intros [= <-]. constructor.
  - destruct (imerg.truncate_to_date t) as [e | ts] eqn:Ht; [discriminate |].
    cbn [result_bind].
    destruct (imerg.list_comp imerg.truncate_to_date values) as [e | rest]; [discriminate |].
    cbn [result_bind]. intros [= <-]. constructor; [now apply truncate_returns | now apply IH].
Qed.

(** ** The time coordinate of the returned array *)

Lemma transpose_var_dim order v d k :
  (d, k) ∈ xr.v_dims (xrops.transpose_var order v) -> xr.dim_size v d = Some k.
Proof.
  unfold xrops.transpose_var. cbn [xr.v_dims]. rewrite list_elem_of_omap.
  intros [d' [_ Hsome]]. destruct (xr.dim_size v d') as [n'|] eqn:Hsz; [| discriminate].
  simpl in Hsome. injection Hsome as <- <-. exact Hsz.
Qed.

(** The squeeze removes the time dimension exactly when it has length
    one. *)
Lemma time_squeezed v n :
  xr.dim_size (xrops.transpose_var DIM_ORDER v) "time" = Some n ->
  "time" ∈ xrops.squeeze_dims (xrops.rename_var XY_NAMES (xrops.transpose_var DIM_ORDER v))
  <-> n = 1%nat.
Proof.
  intros Hn. apply dim_size_elem in Hn.
  unfold xrops.squeeze_dims, xrops.rename_var. cbn [xr.v_dims].
  rewrite list_elem_of_fmap. split.
  - intros [[d k] [Hd Hin]]. simpl in Hd. subst d.
    apply list_elem_of_filter in Hin as [Hk Hin]. simpl in Hk. subst k.
    apply list_elem_of_In, in_map_iff in Hin as [[d0 k0] [Heq Hin]]. simpl in Heq.
    injection Heq as Hkey ->. apply rename_key_time in Hkey. subst d0.
    apply list_elem_of_In, transpose_var_dim in Hin.
    apply transpose_var_dim in Hn. congruence.
  - intros ->. exists ("time", 1%nat). split; [reflexivity |].
    apply list_elem_of_filter. split; [reflexivity |].
    apply list_elem_of_In, in_map_iff. exists ("time", 1%nat). split; [reflexivity |].
    now apply list_elem_of_In.
Qed.

Lemma renamed_keys (l : list (string * xr.Var)) :
  (map (fun kv => (xrops.rename_key XY_NAMES kv.1, xrops.rename_var XY_NAMES kv.2)) l).*1
  = xrops.rename_key XY_NAMES <$> l.*1.
Proof. induction l as [|kv l IH]; [reflexivity |]. cbn [map fmap list_fmap fst]. now f_equal. Qed.

(** The renaming of lon and lat keeps the time coordinate under its
    name. *)
Lemma rename_time_coord da da' c :
  xrops.rename XY_NAMES da = inr da' ->
  xr.da_coords da !! "time" = Some c ->
  xr.da_coords da' !! "time" = Some (xrops.rename_var XY_NAMES c).
Proof.
  intros Hren Hc. destruct (rename_returns _ _ _ Hren) as (_ & _ & Hnd & ->).
  apply elem_of_list_to_map_1; [now rewrite renamed_keys |].
  apply list_elem_of_In, in_map_iff. exists ("time", c). split; [reflexivity |].
  now apply list_elem_of_In, elem_of_map_to_list.
Qed.

(** What the squeeze makes of a time coordinate that has only the
    dimension time: dropped with the dimension, kept otherwise. *)
Lemma squeeze_time_coord da c n :
  xr.da_coords da !! "time" = Some c -> xr.v_dims c = [("time", n)] ->
  xr.da_coords (xrops.squeeze_drop da) !! "time" =
  if bool_decide ("time" ∈ xrops.squeeze_dims (xr.da_variable da)) then None else Some c.
Proof.
  intros Hc Hdims. unfold xrops.squeeze_drop. cbn [xr.da_coords].
  rewrite lookup_omap, Hc. cbn [mbind option_bind]. unfold xr.dim_names. rewrite Hdims.
  destruct (bool_decide_reflect ("time" ∈ xrops.squeeze_dims (xr.da_variable da))) as [Hsq | Hsq].
  - rewrite bool_decide_eq_true_2 by (now constructor).
    unfold xrops.isel0. cbn [xr.v_dims]. rewrite Hdims.
    rewrite filter_cons_False by (simpl; tauto). reflexivity.
  - rewrite bool_decide_eq_false_2; [reflexivity |].
    intros Hex. apply Exists_cons in Hex as [Hin | Hex]; [contradiction |].
    now apply Exists_nil in Hex.
Qed.

(** C5, as the code has it: for every dataset the transformer accepts,
    when the time variable does not have the nanosecond date-time dtype,
    every time value is a date-time object with a [strftime] method whose
    date is a date of the Gregorian calendar that the nanosecond range
    holds (a dataset with any other time value, a string for one, is not
    accepted), and lines 108 to 111 make of each value the timestamp read
    back from its YYYY-MM-DD text: midnight of the date of the value.
    These timestamps are the time coordinate of the returned array, with
    the nanosecond dtype, when the time dimension has a length other than
    one; with a time dimension of length one the squeeze drops the
    coordinate.  When the time variable already has the nanosecond dtype
    the lines change nothing: the returned array is the selected array,
    renamed and squeezed. *)
Theorem C5_time_values_become_dates
    (E : env) (path : string) (w w' : world) (da : xr.DataArray) (ds0 : xr.Dataset) :
  imerg.process_imerg E path w = (inr da, w') ->
  xrops.open_dataset E path w = (inr ds0, w) ->
  exists ds da0 ds_time,
    xrops.transpose DIM_ORDER ds0 = inr ds
    /\ xrops.getitem ds (imerg.var_name ds) = inr da0
    /\ xrops.getitem ds "time" = inr ds_time
    /\ if xr.is_datetime64_ns (xr.v_data (xr.da_variable ds_time))
       then exists da2, xrops.rename XY_NAMES da0 = inr da2 /\ da = xrops.squeeze_drop da2
       else exists da_time values times,
           xrops.da_getitem da0 "time" = inr da_time
           /\ xrops.iter_values da_time = inr values
           /\ Forall2 date_of_value values times
           /\ xr.dim_size (xr.da_variable da0) "time" = Some (length times)
           /\ (length times <> 1%nat ->
               xr.da_coords da !! "time"
               = Some {| xr.v_dims := [("time", length times)];
                         xr.v_data := xr.ArrDatetime64ns (fun i => nth (i "time") times 0);
                         xr.v_attrs := ∅ |})
           /\ (length times = 1%nat -> xr.da_coords da !! "time" = None).
Proof.
  intros Hret Hopen.
  destruct (process_imerg_returns _ _ _ _ _ Hret)
    as [_ (ds0' & ds & da0 & da1 & da2 & Hopen' & Htr & Hget & Hdates & Hren & ->)].
  rewrite Hopen in Hopen'. injection Hopen' as <-.
  exists ds, da0. unfold imerg.times_to_dates in Hdates.
  destruct (xrops.getitem ds "time") as [e | ds_time] eqn:Htime; [discriminate |].
  exists ds_time. split; [exact Htr |]. split; [exact Hget |]. split; [reflexivity |].
  cbn [result_bind] in Hdates.
  destruct (xr.is_datetime64_ns (xr.v_data (xr.da_variable ds_time))); cbn [negb] in Hdates.
  { injection Hdates as <-. exists da2. now split. }
  destruct (xrops.da_getitem da0 "time") as [e | da_time] eqn:Hda_time; [discriminate |].
  cbn [result_bind] in Hdates.
  destruct (xrops.iter_values da_time) as [e | values] eqn:Hvalues; [discriminate |].
  cbn [result_bind] in Hdates.
  destruct (imerg.list_comp imerg.truncate_to_date values) as [e | times] eqn:Hcomp;
    [discriminate |].
  cbn [result_bind] in Hdates. unfold xrops.set_coord in Hdates.
  destruct (bool_decide_reflect
              (xr.dim_size (xr.da_variable da0) "time" = Some (length times)))
    as [Hsize | Hsize]; [| discriminate].
  injection Hdates as <-.
  exists da_time, values, times. split; [reflexivity |]. split; [exact Hvalues |].
  split; [now apply list_comp_returns |]. split; [exact Hsize |].
  set (c := {| xr.v_dims := [("time", length times)];
               xr.v_data := xr.ArrDatetime64ns (fun i => nth (i "time") times 0);
               xr.v_attrs := ∅ |}).
  assert (Hc2 : xr.da_coords da2 !! "time" = Some c).
  { change (Some c) with (Some (xrops.rename_var XY_NAMES c)).
    apply (rename_time_coord _ _ _ Hren). cbn [xr.da_coords]. apply lookup_insert_eq. }
  assert (Hsq : "time" ∈ xrops.squeeze_dims (xr.da_variable da2) <-> length times = 1%nat).
  { destruct (rename_returns _ _ _ Hren) as (_ & -> & _). cbn [xr.da_variable].
    destruct (getitem_selected _ _ _ Htr Hget) as [_ [v [_ ->]]].
    cbn [xrops.construct_dataarray xr.da_variable] in *. now apply time_squeezed. }
  rewrite (squeeze_time_coord da2 c (length times) Hc2 eq_refl).
  split; intros Hlen.
  - rewrite bool_decide_eq_false_2; [reflexivity |]. intros Hin. now apply Hsq in Hin.
  - rewrite bool_decide_eq_true_2; [reflexivity |]. now apply Hsq.
Qed.

(** ** The theorems at the sample worlds *)

(** C1 at the sample: 2024-06-02 is in the listing, and the run records no
    call for it. *)
Lemma C1_witness :
  imerg.output_blob_of example.june2
    ∈ blob.blob_names "imerg/v7" (blobs example.w_listed)
  /\ forall s, ECall example.june2 s
                 ∈ out (imerg.download_recent_imerg example.E200 example.w_listed).2 ->
               ECall example.june2 s ∈ out example.w_listed.
Proof.
  assert (Hin : imerg.output_blob_of example.june2
                  ∈ blob.blob_names "imerg/v7" (blobs example.w_listed)).
  { apply (bool_decide_unpack _). vm_compute. exact I. }
  split; [exact Hin |].
  exact (proj1 (proj2 (proj2
           (C1_listed_date_is_skipped example.E200 example.w_listed example.june2
              eq_refl Hin)))).
Defined.

(** C2 at the sample: the fetch of 2024-06-01 fails with status 404; the
    run returns and fetches 2024-06-02. *)
Lemma C2_witness :
  (imerg.download_recent_imerg example.E404 example.w_empty).1 = inr tt
  /\ ECall example.june2 Fetch
       ∈ out (imerg.download_recent_imerg example.E404 example.w_empty).2.
Proof.
  pose proof (C2_failing_date_does_not_stop_the_run
                example.E404 example.w_empty [] [example.june2; example.june3] example.june1
                (Exn "HTTPError" "404 Client Error")
                (imerg.fetch_transform_publish example.E404 example.june1
                   (imerg.output_blob_of example.june1)
                   (emit (EPrint ("downloading and processing "
                                  +:+ imerg.output_blob_of example.june1))
                         example.w_empty)).2) as H.
  cbv zeta in H.
  destruct H as (_ & _ & Hret & Hnext & _).
  - reflexivity.
  - vm_compute. reflexivity.
  - apply (bool_decide_unpack _). vm_compute. exact I.
  - vm_compute. reflexivity.
  - split; [exact Hret |]. apply Hnext.
    + left.
    + apply (bool_decide_unpack _). vm_compute. exact I.
Defined.

Lemma sample_process_imerg :
  imerg.process_imerg example.E200 imerg.DEFAULT_PATH example.w_downloaded
  = (inr example.da_out, example.w_downloaded).
Proof. vm_compute. reflexivity. Qed.

Lemma sample_open_dataset :
  xrops.open_dataset example.E200 imerg.DEFAULT_PATH example.w_downloaded
  = (inr example.granule, example.w_downloaded).
Proof. vm_compute. reflexivity. Qed.

(** C4 at the sample granule: the dimensions are y and x. *)
Lemma C4_witness :
  xr.v_dims (xr.da_variable example.da_out) = [("y", 3%nat); ("x", 2%nat)]
  /\ Forall (fun p => p.2 <> 1%nat) (xr.v_dims (xr.da_variable example.da_out)).
Proof.
  destruct (C4_dims_named_x_y_no_singleton example.E200 imerg.DEFAULT_PATH
              example.w_downloaded example.w_downloaded example.da_out example.granule
              sample_process_imerg sample_open_dataset)
    as (v & _ & _ & Hno & _).
  split; [vm_compute; reflexivity | exact Hno].
Defined.

(** C4, against the claim as stated: a granule on a grid with a single
    latitude is accepted, and the array returned for it has the dimension
    x only: the squeeze has removed the dimension y with the others of
    length one. *)
Lemma C4_counterexample :
  match (imerg.process_imerg (example2.E_decoding example2.granule_one_latitude)
           imerg.DEFAULT_PATH example.w_downloaded).1 with
  | inr da => xr.v_dims (xr.da_variable da) = [("x", 2%nat)]
  | inl _ => False
  end.
Proof. vm_compute. reflexivity. Qed.

(** C5 at the sample granule, whose time is a date-time object: the time
    value 2024-06-01 12:30 becomes midnight of 2024-06-01, and the time
    dimension having length one, the returned array has no time
    coordinate. *)
Lemma C5_witness :
  exists times,
    Forall2 date_of_value
            [Some (xr.SObject (xr.PyDatetime (pd.Fields 2024 6 1 12 30 0)))] times
    /\ xr.da_coords example.da_out !! "time" = None.
Proof.
  destruct (C5_time_values_become_dates example.E200 imerg.DEFAULT_PATH
              example.w_downloaded example.w_downloaded example.da_out example.granule
              sample_process_imerg sample_open_dataset)
    as (ds & da0 & ds_time & Htr & Hget & Htime & Hrest).
  vm_compute in Htr. injection Htr as <-.
  vm_compute in Hget. injection Hget as <-.
  vm_compute in Htime. injection Htime as <-.
  match type of Hrest with
  | if ?b then _ else _ => change b with false in Hrest
  end.
  cbv iota in Hrest.
  destruct Hrest as (da_time & values & times & Hda & Hvalues & Hall & _ & _ & Hone).
  vm_compute in Hda. injection Hda as <-.
  vm_compute in Hvalues. injection Hvalues as <-.
  exists times. split; [exact Hall |]. apply Hone.
  symmetry. exact (Forall2_length _ _ _ Hall).
Defined.

(** C5, against the claim as stated: the time of this granule does not
    have the nanosecond dtype, it is text; [process_imerg] does not turn
    it into a date, it raises [AttributeError], a string having no
    [strftime] method. *)
Lemma C5_counterexample :
  xr.ds_variables example2.granule_string_time !! "time"
  = Some (example.mkvar [("time", 1%nat)] (xr.ArrObject (fun _ => xr.PyOther "2024-06-01")))
  /\ (imerg.process_imerg (example2.E_decoding example2.granule_string_time)
        imerg.DEFAULT_PATH example.w_downloaded).1
     = raise "AttributeError" "object has no attribute strftime".
Proof. split; vm_compute; reflexivity. Qed.


(** C7 at the sample granule, whose time dimension has length one: the
    array returned has no time coordinate. *)
Lemma C7_witness :
  xr.da_coords example.da_out !! "time" = None
  /\ ("time" ∉ xr.dim_names (xr.da_variable example.da_out))
  /\ xr.v_attrs (xr.da_variable example.da_out) = ∅.
Proof.
  refine (C7_singleton_time_is_dropped example.E200 imerg.DEFAULT_PATH
            example.w_downloaded example.w_downloaded example.da_out example.granule
            (example.mkvar [("time", 1%nat); ("lon", 2%nat); ("lat", 3%nat)]
               (xr.ArrOther "float32" (fun i => Z.of_nat (i "lon" * 10 + i "lat"))))
            sample_process_imerg sample_open_dataset _ _ _).
  - vm_compute. reflexivity.
  - vm_compute. reflexivity.
  - intros c Hc. vm_compute in Hc. injection Hc as <-. eexists. reflexivity.
Defined.

(** C7, against the claim as stated: the sample granule is accepted, and
    the array returned for it has the coordinates y and x only, no time
    dimension and no attribute: no timestamp comes with it. *)
Lemma C7_counterexample :
  imerg.process_imerg example.E200 imerg.DEFAULT_PATH example.w_downloaded
  = (inr example.da_out, example.w_downloaded)
  /\ xr.da_coords example.da_out !! "time" = None
  /\ (map_to_list (xr.da_coords example.da_out)).*1 = ["y"; "x"]
  /\ xr.dim_names (xr.da_variable example.da_out) = ["y"; "x"]
  /\ xr.v_attrs (xr.da_variable example.da_out) = ∅
  /\ xr.da_name example.da_out = "precipitationCal".
Proof. repeat split; vm_compute; reflexivity. Qed.

(** C8, against the claim as stated: the provider answers with status 304,
    which is not a success status; [download_imerg] does not raise, and
    writes the body to the file. *)
Lemma C8_counterexample :
  exists url response,
    imerg.imerg_url example.june1 "L" 7 = inr url
    /\ http example.E304 url = inr response
    /\ ~ (200 <= requests.status_code response < 300)
    /\ (imerg.download_imerg example.E304 example.june1 "L" 7
          imerg.DEFAULT_SAVE_PATH false example.w_empty).1 = inr tt
    /\ fs (imerg.download_imerg example.E304 example.june1 "L" 7
             imerg.DEFAULT_SAVE_PATH false example.w_empty).2 !! "temp/imerg_temp.nc"
       = Some (File (requests.content response)).
Proof.
  eexists. eexists. split; [apply imerg_url_eq |]. split; [reflexivity |].
  split; [simpl; lia |]. split; vm_compute; reflexivity.
Qed.

(** C8 at the default path, with status 200: where a regular file named
    temp is in the way the call raises, and on an empty disk it returns. *)
Lemma C8_witness :
  (exists e, (imerg.download_imerg example.E200 example.june1 "L" 7
                imerg.DEFAULT_SAVE_PATH false example2.w_temp_is_file).1 = inl e)
  /\ ~ (exists e, (imerg.download_imerg example.E200 example.june1 "L" 7
                     imerg.DEFAULT_SAVE_PATH false example.w_empty).1 = inl e).
Proof.
  split.
  - destruct (C8_download_raises_iff example.E200 example.june1 "L" 7
                imerg.DEFAULT_SAVE_PATH example2.w_temp_is_file)
      as (url & Hurl & Hiff & _); [vm_compute; discriminate | vm_compute; discriminate |].
    apply Hiff. right. split; [vm_compute; discriminate |]. right.
    eexists. split; [reflexivity |]. right. left. eexists. vm_compute. reflexivity.
  - vm_compute. intros [e He]. discriminate.
Defined.

(** C10 at the sample: a raw file of an earlier date is on disk and the
    provider answers 404; the call raises and the file is gone. *)
Lemma C10_witness :
  fs example.w_downloaded !! "temp/imerg_temp.nc" = Some (File [x07])
  /\ (exists e, (imerg.download_imerg example.E404 example.june1 "L" 7
                   imerg.DEFAULT_SAVE_PATH false example.w_downloaded).1 = inl e)
  /\ fs (imerg.download_imerg example.E404 example.june1 "L" 7
           imerg.DEFAULT_SAVE_PATH false example.w_downloaded).2 !! "temp/imerg_temp.nc"
     = None.
Proof.
  split; [vm_compute; reflexivity |].
  destruct (C10_failed_fetch_leaves_no_file example.E404 example.june1 "L" 7
              imerg.DEFAULT_SAVE_PATH false example.w_downloaded)
    as (Hraise & Hgone & _).
  - vm_compute. discriminate.
  - rewrite imerg_url_eq. right. eexists. split; [reflexivity |]. simpl. lia.
  - split; [exact Hraise | exact Hgone].
Defined.

(** * Further properties of the code *)

(** ** The publisher *)

(** [upload_imerg], step by step: the temporary file is created, the
    encoding is written to it and read back, and the bytes are uploaded. *)
Lemma upload_imerg_eq E da output_path w :
  imerg.upload_imerg E da output_path w =
  let p := tmp_name E (tmp_count w) in
  match cog_encode E da with
  | inl e => (inl e, World (<[p := File []]> (fs w)) (blobs w) (out w) (S (tmp_count w)))
  | inr bytes =>
      let w2 := World (<[p := File bytes]> (fs w)) (blobs w) (out w) (S (tmp_count w)) in
      match upload_error E output_path with
      | Some e => (inl e, w2)
      | None => (inr tt, set_blobs (insert output_path bytes) w2)
      end
  end.
Proof.
  unfold imerg.upload_imerg, imerg.to_raster, os.NamedTemporaryFile, os.read_rb,
    blob.upload_blob, bind, lift, set_fs. cbn [fs blobs out tmp_count].
  destruct (cog_encode E da) as [e | bytes]; [reflexivity |].
  cbn [fs blobs out tmp_count]. rewrite insert_insert_eq, lookup_insert_eq.
  destruct (upload_error E output_path); reflexivity.
Qed.

(** X1: when the encoding and the upload succeed, [upload_imerg] returns;
    the container then holds the encoded bytes under the output name,
    whatever it held there before, and every other blob is as before; the
    temporary file stays on disk with the same bytes, and no other file is
    touched. *)
Theorem X1_upload_publishes_encoding
    (E : env) (da : xr.DataArray) (output_path : string) (w : world) (bytes : list byte) :
  cog_encode E da = inr bytes ->
  upload_error E output_path = None ->
  let r := imerg.upload_imerg E da output_path w in
  r.1 = inr tt
  /\ blobs r.2 !! output_path = Some bytes
  /\ (forall n, n <> output_path -> blobs r.2 !! n = blobs w !! n)
  /\ fs r.2 !! tmp_name E (tmp_count w) = Some (File bytes)
  /\ (forall q, q <> tmp_name E (tmp_count w) -> fs r.2 !! q = fs w !! q)
  /\ out r.2 = out w.
Proof.
  intros Henc Hup r. subst r. rewrite upload_imerg_eq, Henc, Hup. cbn.
  split; [reflexivity |]. split; [apply lookup_insert_eq |].
  split; [intros n Hn; now apply lookup_insert_ne |].
  split; [apply lookup_insert_eq |].
  split; [intros q Hq; now apply lookup_insert_ne | reflexivity].
Qed.

Lemma X1_witness :
  blobs (imerg.upload_imerg example.E200 example.da_out
           "imerg/v7/imerg-daily-late-2024-06-02.tif" example.w_listed).2
    !! "imerg/v7/imerg-daily-late-2024-06-02.tif" = Some [x03].
Proof.
  exact (proj1 (proj2 (X1_upload_publishes_encoding example.E200 example.da_out
                         "imerg/v7/imerg-daily-late-2024-06-02.tif" example.w_listed [x03]
                         eq_refl eq_refl))).
Defined.



(** ** The listing and the names of the output blobs *)

Lemma output_blob_has_prefix (d : pd.Timestamp) :
  Strings.String.prefix "imerg/v7" (imerg.output_blob_of d) = true.
Proof. reflexivity. Qed.

(** X3: the prefix of the listing matches the name of every output blob:
    the blob of a date is in the listing exactly when the container holds a
    blob of that name; so a date whose blob is in the container when the
    listing is taken is skipped, whatever the date. *)
Theorem X3_listing_sees_every_output_blob (E : env) (w : world) (d : pd.Timestamp) :
  (imerg.output_blob_of d ∈ blob.blob_names "imerg/v7" (blobs w)
   <-> is_Some (blobs w !! imerg.output_blob_of d))
  /\ (is_Some (blobs w !! imerg.output_blob_of d) ->
      forall w1,
        imerg.process_date E (blob.blob_names "imerg/v7" (blobs w)) d w1
        = (inr tt, emit (EPrint (imerg.output_blob_of d +:+ " already exists, skipping")) w1)).
Proof.
  assert (Hiff : imerg.output_blob_of d ∈ blob.blob_names "imerg/v7" (blobs w)
                 <-> is_Some (blobs w !! imerg.output_blob_of d)).
  { unfold blob.blob_names. rewrite list_elem_of_filter, list_elem_of_fmap. split.
    - intros [_ [[n c] [Hn Hin]]]. simpl in Hn. subst n.
      apply elem_of_map_to_list in Hin. eauto.
    - intros [c Hc]. split; [apply output_blob_has_prefix |].
      exists (imerg.output_blob_of d, c). split; [reflexivity |].
      now apply elem_of_map_to_list. }
  split; [exact Hiff |]. intros Hsome w1. apply Hiff in Hsome.
  unfold imerg.process_date. now rewrite (bool_decide_eq_true_2 _ Hsome).
Qed.

(** ** The number of dates *)

(** X4: the loop has one date for each day from 2024-06-01 to yesterday:
    today minus 2024-06-01 of them, and none when today is 2024-06-01 or
    earlier; in that case a run, once the listing is taken, sends no
    request, prints nothing and changes nothing. *)
Theorem X4_number_of_dates (E : env) (w : world) :
  exists dates,
    imerg.recent_dates E = inr dates
    /\ length dates = Z.to_nat (today E - calendar.days_from_civil 2024 6 1)
    /\ (today E <= calendar.days_from_civil 2024 6 1 ->
        dates = []
        /\ imerg.download_recent_imerg E w
           = match list_error E with
             | Some e => (inl e, w)
             | None => (inr tt, w)
             end).
Proof.
  eexists. split; [apply recent_dates_eq |].
  change (calendar.days_from_civil 2024 6 1) with 19875.
  assert (Hn : Z.to_nat (((today E - 1) * pd.NS_PER_DAY - 19875 * pd.NS_PER_DAY)
                         / pd.NS_PER_DAY + 1)
               = Z.to_nat (today E - 19875)).
  { replace ((today E - 1) * pd.NS_PER_DAY - 19875 * pd.NS_PER_DAY)
      with ((today E - 1 - 19875) * pd.NS_PER_DAY) by lia.
    rewrite Z.div_mul by discriminate. f_equal. lia. }
  assert (Hlen : length (pd.date_range (19875 * pd.NS_PER_DAY)
                                       ((today E - 1) * pd.NS_PER_DAY))
                 = Z.to_nat (today E - 19875)).
  { unfold pd.date_range. now rewrite length_map, length_seq, Hn. }
  split; [exact Hlen |]. intros Hearly.
  assert (Hnil : pd.date_range (19875 * pd.NS_PER_DAY) ((today E - 1) * pd.NS_PER_DAY) = []).
  { apply length_zero_iff_nil. rewrite Hlen. lia. }
  split; [exact Hnil |].
  rewrite download_recent_imerg_eq, Hnil. reflexivity.
Qed.

Lemma X4_witness :
  imerg.download_recent_imerg example2.E_first_day example.w_listed
  = (inr tt, example.w_listed).
Proof.
  destruct (X4_number_of_dates example2.E_first_day example.w_listed)
    as (dates & _ & _ & Hearly).
  destruct Hearly as [_ Hrun]; [vm_compute; discriminate | exact Hrun].
Defined.

(** ** The transformer: what it leaves alone, and how it fails *)

(** X5: [process_imerg] only reads: whether it returns or raises, the
    world after the call is the world before it (files, container, console
    and temporary files); and it raises [FileNotFoundError] when there is
    nothing at the path, and the exception of the decoder when the file
    does not decode. *)
Theorem X5_process_imerg_only_reads (E : env) (path : string) (w : world) :
  (imerg.process_imerg E path w).2 = w
  /\ (fs w !! path = None ->
      (imerg.process_imerg E path w).1 = raise "FileNotFoundError" path)
  /\ (forall content e,
        fs w !! path = Some (File content) -> nc_decode E content = inl e ->
        (imerg.process_imerg E path w).1 = inl e).
Proof.
  unfold imerg.process_imerg, xrops.open_dataset, os.read_rb, bind, lift, ret.
  destruct (fs w !! path) as [[content|]|] eqn:Hp.
  - destruct (nc_decode E content) as [e | ds0] eqn:Hdec.
    + split; [reflexivity |]. split; [discriminate |].
      intros c e' [= <-] He. rewrite Hdec in He. now injection He as <-.
    + assert (Hw : forall r : result xr.DataArray * world, r.2 = w ->
                (r.2 = w
                 /\ (Some (File content) = None -> r.1 = raise "FileNotFoundError" path)
                 /\ (forall c e, Some (File content) = Some (File c) ->
                                 nc_decode E c = inl e -> r.1 = inl e))).
      { intros r Hr. split; [exact Hr |]. split; [discriminate |].
        intros c e [= <-] He. rewrite Hdec in He. discriminate. }
      apply Hw.
      destruct (xrops.transpose _ ds0) as [e | ds]; [reflexivity |].
      destruct (xrops.getitem ds _) as [e | da0]; [reflexivity |].
      destruct (imerg.times_to_dates ds da0) as [e | da1]; [reflexivity |].
      destruct (xrops.rename _ da1) as [e | da2]; reflexivity.
  - split; [reflexivity |]. split; [discriminate |]. discriminate.
  - split; [reflexivity |]. split; [reflexivity |]. discriminate.
Qed.

Lemma X5_witness :
  (imerg.process_imerg example.E200 imerg.DEFAULT_PATH example.w_empty).1
  = raise "FileNotFoundError" "temp/imerg_temp.nc".
Proof.
  exact (proj1 (proj2 (X5_process_imerg_only_reads example.E200 imerg.DEFAULT_PATH
                         example.w_empty)) eq_refl).
Defined.

(** The dimensions of a dataset are the dimensions of its variables. *)
Lemma ds_sizes_dom (ds : xr.Dataset) (k : string) :
  k ∈ dom (xrops.ds_sizes ds) <->
  exists name v, xr.ds_variables ds !! name = Some v /\ k ∈ xr.dim_names v.
Proof.
  rewrite elem_of_dom. split.
  - intros [n Hn]. apply ds_sizes_lookup in Hn as (name & v & Hv & Hin).
    exists name, v. split; [exact Hv |]. apply list_elem_of_fmap. now exists (k, n).
  - intros (name & v & Hv & Hin). unfold xrops.ds_sizes.
    apply elem_of_map_to_list in Hv.
    induction (map_to_list (xr.ds_variables ds)) as [|kv l IH]; [now apply elem_of_nil in Hv |].
    simpl. apply elem_of_cons in Hv as [<- | Hv].
    + simpl. apply list_elem_of_fmap in Hin as [[k' n] [Hk Hin]]. simpl in Hk. subst k'.
      destruct ((list_to_map (xr.v_dims v) : gmap string nat) !! k) as [n'|] eqn:Hl.
      * exists n'. apply lookup_union_Some_raw. now left.
      * exfalso. apply not_elem_of_list_to_map_2 in Hl. apply Hl.
        apply list_elem_of_fmap. now exists (k, n).
    + destruct (IH Hv) as [n Hn].
      destruct ((list_to_map (xr.v_dims kv.2) : gmap string nat) !! k) as [n'|] eqn:Hl.
      * exists n'. apply lookup_union_Some_raw. now left.
      * exists n. apply lookup_union_Some_raw. right. now split.
Qed.

(** X6: a decoded dataset whose dimensions are not exactly lat, lon, time
    and nv is rejected: when one of the four is a dimension of no
    variable (a file without the time bounds has no nv), or a variable has
    another dimension, [process_imerg] raises [ValueError]. *)
Theorem X6_other_dimensions_rejected
    (E : env) (path : string) (w : world) (ds0 : xr.Dataset) :
  xrops.open_dataset E path w = (inr ds0, w) ->
  (exists d, d ∈ DIM_ORDER
             /\ forall name v, xr.ds_variables ds0 !! name = Some v -> d ∉ xr.dim_names v)
  \/ (exists name v d, xr.ds_variables ds0 !! name = Some v
                       /\ d ∈ xr.dim_names v /\ d ∉ DIM_ORDER) ->
  (imerg.process_imerg E path w).1
  = raise "ValueError" "must be a permuted list of the dimensions".
Proof.
  intros Hopen Hbad. unfold imerg.process_imerg, bind at 1. rewrite Hopen.
  unfold bind, lift. fold DIM_ORDER. unfold xrops.transpose.
  rewrite bool_decide_eq_false_2; [reflexivity |].
  intros Heq. destruct Hbad as [[d [Hd Hnone]] | (name & v & d & Hv & Hin & Hnot)].
  - assert (Hdom : d ∈ dom (xrops.ds_sizes ds0)).
    { rewrite <- Heq. now apply elem_of_list_to_set. }
    apply ds_sizes_dom in Hdom as (name & v & Hv & Hin). exact (Hnone name v Hv Hin).
  - apply Hnot. apply (elem_of_list_to_set (C := gset string)). rewrite Heq.
    apply ds_sizes_dom. eauto.
Qed.

Lemma X6_witness :
  (imerg.process_imerg (example2.E_decoding example2.granule_without_nv)
     imerg.DEFAULT_PATH example.w_downloaded).1
  = raise "ValueError" "must be a permuted list of the dimensions".
Proof.
  apply (X6_other_dimensions_rejected _ _ _ example2.granule_without_nv).
  - vm_compute. reflexivity.
  - left. exists "nv". split; [unfold DIM_ORDER; set_solver |].
    intros name v Hv Hin.
    unfold example2.granule_without_nv in Hv. cbn [xr.ds_variables] in Hv.
    apply lookup_delete_Some in Hv as [Hne Hv].
    unfold example.granule in Hv. cbn [xr.ds_variables] in Hv.
    repeat (rewrite list_to_map_cons in Hv;
            apply lookup_insert_Some in Hv as [[<- <-] | [_ Hv]];
            [first [congruence
                   | vm_compute in Hin;
                     repeat (apply elem_of_cons in Hin as [Hin | Hin]; [discriminate |]);
                     now apply elem_of_nil in Hin] |]).
    rewrite list_to_map_nil, lookup_empty in Hv. discriminate.
Defined.

(** X7: a decoded dataset with the four dimensions and neither a variable
    precipitationCal nor a variable precipitation makes [process_imerg]
    raise [KeyError] for the name precipitation: the fallback name is
    looked up without a test. *)
Theorem X7_no_precipitation_variable
    (E : env) (path : string) (w : world) (ds0 ds : xr.Dataset) :
  xrops.open_dataset E path w = (inr ds0, w) ->
  xrops.transpose DIM_ORDER ds0 = inr ds ->
  xrops.contains ds0 "precipitationCal" = false ->
  xrops.contains ds0 "precipitation" = false ->
  (imerg.process_imerg E path w).1 = raise "KeyError" "precipitation".
Proof.
  intros Hopen Htr Hcal Hpre. unfold imerg.process_imerg, bind at 1. rewrite Hopen.
  unfold bind, lift. fold DIM_ORDER. rewrite Htr.
  destruct (transpose_returns _ _ _ Htr) as [Hvars _].
  assert (Hname : imerg.var_name ds = "precipitation").
  { unfold imerg.var_name, xrops.contains. rewrite Hvars, lookup_fmap.
    unfold xrops.contains in Hcal.
    destruct (xr.ds_variables ds0 !! "precipitationCal"); [| reflexivity].
    rewrite bool_decide_eq_true_2 in Hcal by eauto. discriminate. }
  rewrite Hname. unfold xrops.getitem. rewrite Hvars, lookup_fmap.
  unfold xrops.contains in Hpre.
  destruct (xr.ds_variables ds0 !! "precipitation") as [v|] eqn:Hv.
  { rewrite bool_decide_eq_true_2 in Hpre by eauto. discriminate. }
  cbn [fmap option_fmap option_map].
  destruct (xrops.ds_sizes ds !! "precipitation") as [n|] eqn:Hsz; [| reflexivity].
  exfalso. apply ds_sizes_lookup in Hsz as [name [v' [Hv' Hd]]].
  rewrite Hvars, lookup_fmap in Hv'.
  destruct (xr.ds_variables ds0 !! name) as [v0|]; [| discriminate].
  injection Hv' as <-. apply transpose_var_dims in Hd as [Hd _]. unfold DIM_ORDER in Hd.
  repeat (apply elem_of_cons in Hd as [Hd | Hd]; [discriminate |]).
  now apply elem_of_nil in Hd.
Qed.

Lemma X7_witness :
  (imerg.process_imerg (example2.E_decoding example2.granule_without_precipitation)
     imerg.DEFAULT_PATH example.w_downloaded).1
  = raise "KeyError" "precipitation".
Proof.
  apply (X7_no_precipitation_variable _ _ _ example2.granule_without_precipitation
           {| xr.ds_variables :=
                xrops.transpose_var DIM_ORDER
                  <$> xr.ds_variables example2.granule_without_precipitation;
              xr.ds_coord_names := xr.ds_coord_names example2.granule_without_precipitation |}).
  - vm_compute. reflexivity.
  - unfold xrops.transpose. rewrite bool_decide_eq_true_2; [reflexivity |].
    apply (bool_decide_unpack _). vm_compute. exact I.
  - vm_compute. reflexivity.
  - vm_compute. reflexivity.
Defined.

(** X8: the values of the returned array are the values of the selected
    variable: the value at a position is the value the variable has at the
    position with the same place along lat (named y), lon (named x) and
    any other dimension kept, and place 0 along the dimensions of length
    one; nothing is computed from the values. *)
Theorem X8_values_are_those_of_the_variable
    (E : env) (path : string) (w w' : world) (da : xr.DataArray) (ds0 : xr.Dataset) :
  imerg.process_imerg E path w = (inr da, w') ->
  xrops.open_dataset E path w = (inr ds0, w) ->
  exists v,
    xr.ds_variables ds0 !! imerg.var_name ds0 = Some v
    /\ (forall i, xr.arr_get (xr.v_data (xr.da_variable da)) i
                  = xr.arr_get (xr.v_data v) (source_index v i))
    /\ (forall i n, xr.dim_size v "lat" = Some n -> n <> 1%nat ->
                    source_index v i "lat" = i "y")
    /\ (forall i n, xr.dim_size v "lon" = Some n -> n <> 1%nat ->
                    source_index v i "lon" = i "x")
    /\ (forall i, xr.dim_size v "time" = Some 1%nat -> source_index v i "time" = 0%nat).
Proof.
  intros Hret Hopen.
  destruct (process_imerg_variable _ _ _ _ _ _ Hret Hopen) as [v [Hv [Hvar _]]].
  exists v. split; [exact Hv |]. split.
  { intros i. rewrite Hvar. unfold transformed, xrops.isel0, xrops.rename_var,
      xrops.transpose_var, source_index. cbn [xr.v_data].
    destruct (xr.v_data v); reflexivity. }
  (* the squeezed names, read off the dimensions of the variable *)
  assert (Hsq : forall old new n,
             (old, new) ∈ [("lat", "y"); ("lon", "x"); ("time", "time"); ("nv", "nv")] ->
             xr.dim_size v old = Some n ->
             (new ∈ xrops.squeeze_dims
                      (xrops.rename_var XY_NAMES (xrops.transpose_var DIM_ORDER v))
              <-> n = 1%nat)).
  { intros old new n Hnames Hsize. unfold xrops.squeeze_dims.
    set (dims := xr.v_dims (xrops.rename_var XY_NAMES (xrops.transpose_var DIM_ORDER v))).
    assert (Hdims : dims = omap (fun names => pair names.2 <$> xr.dim_size v names.1)
                             [("lat", "y"); ("lon", "x"); ("time", "time"); ("nv", "nv")]).
    { subst dims. unfold xrops.rename_var, xrops.transpose_var, DIM_ORDER.
      cbn [xr.v_dims omap list_omap fst snd].
      destruct (xr.dim_size v "lat"), (xr.dim_size v "lon"), (xr.dim_size v "time"),
        (xr.dim_size v "nv"); reflexivity. }
    assert (Hnd : NoDup dims.*1).
    { rewrite Hdims. cbn [omap list_omap fst snd].
      destruct (xr.dim_size v "lat"), (xr.dim_size v "lon"), (xr.dim_size v "time"),
        (xr.dim_size v "nv"); cbn; apply (bool_decide_unpack _); vm_compute; exact I. }
    assert (Hmem : (new, n) ∈ dims).
    { rewrite Hdims. apply list_elem_of_omap. exists (old, new). split; [exact Hnames |].
      cbn [fst snd]. now rewrite Hsize. }
    rewrite list_elem_of_fmap. split.
    - intros [[d m] [Hd Hin]]. cbn [fst] in Hd. subst d.
      apply list_elem_of_filter in Hin as [Hone Hin]. cbn [snd] in Hone. subst m.
      apply list_elem_of_lookup in Hin as [a Ha]. apply list_elem_of_lookup in Hmem as [b Hb].
      assert (a = b).
      { eapply NoDup_lookup; [exact Hnd | |]; rewrite list_lookup_fmap.
        - now rewrite Ha.
        - now rewrite Hb. }
      subst b. congruence.
    - intros ->. exists (new, 1%nat). split; [reflexivity |].
      apply list_elem_of_filter. now split. }
  split; [| split].
  - intros i n Hsize Hn. unfold source_index.
    change (xrops.rename_key XY_NAMES "lat") with "y".
    rewrite bool_decide_eq_false_2; [reflexivity |].
    rewrite (Hsq "lat" "y" n); [exact Hn | left | exact Hsize].
  - intros i n Hsize Hn. unfold source_index.
    change (xrops.rename_key XY_NAMES "lon") with "x".
    rewrite bool_decide_eq_false_2; [reflexivity |].
    rewrite (Hsq "lon" "x" n); [exact Hn | right; left | exact Hsize].
  - intros i Hsize. unfold source_index.
    change (xrops.rename_key XY_NAMES "time") with "time".
    rewrite bool_decide_eq_true_2; [reflexivity |].
    rewrite (Hsq "time" "time" 1%nat); [reflexivity | do 2 right; left | exact Hsize].
Qed.

Lemma X8_witness :
  xr.arr_get (xr.v_data (xr.da_variable example.da_out))
             (fun d => if String.eqb d "x" then 1%nat else 2%nat)
  = xr.SOther "float32" 12.
Proof.
  destruct (X8_values_are_those_of_the_variable example.E200 imerg.DEFAULT_PATH
              example.w_downloaded example.w_downloaded example.da_out example.granule
              sample_process_imerg sample_open_dataset)
    as (v & Hv & Hval & _).
  rewrite (Hval (fun d => if String.eqb d "x" then 1%nat else 2%nat)).
  vm_compute in Hv. injection Hv as <-. reflexivity.
Defined.

(** Printing the date of any date-time with a year from 0 to 9999 and a
    month and a day from 0 to 99 as YYYY-MM-DD and reading it back: an
    error for a date that is not in the calendar or that lies outside the
    64-bit nanosecond range, midnight of the date otherwise. *)
Lemma parse_strftime_fields (f : pd.fields) :
  0 <= pd.f_year f <= 9999 -> 0 <= pd.f_month f <= 99 -> 0 <= pd.f_day f <= 99 ->
  pd.Timestamp_of_string (pd.strftime_fields f "%Y-%m-%d") =
  let text := pd.strftime_fields f "%Y-%m-%d" in
  let t := calendar.days_from_civil (pd.f_year f) (pd.f_month f) (pd.f_day f)
           * pd.NS_PER_DAY in
  if negb (calendar.valid_date (pd.f_year f) (pd.f_month f) (pd.f_day f))
  then raise "ValueError" ("day is out of range for month: " +:+ text)
  else if (pd.TS_MIN <=? t) && (t <=? pd.TS_MAX) then inr t
  else raise "OutOfBoundsDatetime" ("Out of bounds nanosecond timestamp: " +:+ text).
Proof.
  intros Hy Hm Hd.
  destruct (four_digits (pd.f_year f) Hy) as (a & b & c & d & Hfy & Hpy).
  destruct (two_digits (pd.f_month f) Hm) as (m1 & m2 & Hfm & Hpm).
  destruct (two_digits (pd.f_day f) Hd) as (d1 & d2 & Hfd & Hpd).
  assert (Htext : pd.strftime_fields f "%Y-%m-%d" =
                  String a (String b (String c (String d (String "-"
                    (String m1 (String m2 (String "-" (String d1 (String d2 "")))))))))).
  { cbn -[py.fmt_field String.append]. rewrite Hfy, Hfm, Hfd. reflexivity. }
  rewrite Htext. unfold pd.Timestamp_of_string.
  cbn [substring String.length Nat.eqb].
  rewrite Hpy, Hpm, Hpd.
  rewrite !bool_decide_eq_true_2 by reflexivity.
  cbn [andb negb]. reflexivity.
Qed.

Lemma list_comp_stops_at_first_error
    {A B : Type} (f : A -> result B) (good : list A) (bad : A) (rest : list A) (e : exn) :
  Forall (fun a => exists b, f a = inr b) good ->
  f bad = inl e ->
  imerg.list_comp f (good ++ bad :: rest) = inl e.
Proof.
  intros Hgood Hbad. induction Hgood as [|a good [b Hb] _ IH]; cbn [app imerg.list_comp].
  - now rewrite Hbad.
  - rewrite Hb. cbn [result_bind]. now rewrite IH.
Qed.

(** X9: lines 108 to 111 fail on the first time value they cannot turn
    into a date (the values before it being date-times with a date the
    nanosecond range holds): a value that is not a date-time object with a
    [strftime] method (a number, a string, a date-time of numpy) raises
    [AttributeError]; a date-time whose date is not a date of the Gregorian
    calendar (30 February of a 360-day calendar, 29 February 1900 of the
    Julian calendar) raises [ValueError]; a date outside the nanosecond
    range raises [OutOfBoundsDatetime]. *)
Theorem X9_time_values_that_fail
    (ds : xr.Dataset) (da ds_time : xr.DataArray) (da_time : xr.Var)
    (good rest : list (option xr.scalar)) (bad : option xr.scalar) (cls : string) :
  xrops.getitem ds "time" = inr ds_time ->
  xr.is_datetime64_ns (xr.v_data (xr.da_variable ds_time)) = false ->
  xrops.da_getitem da "time" = inr da_time ->
  xrops.iter_values da_time = inr (good ++ bad :: rest) ->
  Forall (fun t => exists f, t = Some (xr.SObject (xr.PyDatetime f)) /\ representable f)
         good ->
  ((forall f, bad <> Some (xr.SObject (xr.PyDatetime f))) /\ cls = "AttributeError")
  \/ (exists f, bad = Some (xr.SObject (xr.PyDatetime f))
                /\ 0 <= pd.f_year f <= 9999 /\ 0 <= pd.f_month f <= 99
                /\ 0 <= pd.f_day f <= 99
                /\ ((calendar.valid_date (pd.f_year f) (pd.f_month f) (pd.f_day f) = false
                     /\ cls = "ValueError")
                    \/ (calendar.valid_date (pd.f_year f) (pd.f_month f) (pd.f_day f) = true
                        /\ ~ pd.TS_MIN
                             <= calendar.days_from_civil
                                  (pd.f_year f) (pd.f_month f) (pd.f_day f) * pd.NS_PER_DAY
                             <= pd.TS_MAX
                        /\ cls = "OutOfBoundsDatetime"))) ->
  exists e, imerg.times_to_dates ds da = inl e /\ exn_class e = cls.
Proof.
  intros Htime Hns Hget Hiter Hgood Hbad.
  unfold imerg.times_to_dates. rewrite Htime. cbn [result_bind]. rewrite Hns. cbn [negb].
  rewrite Hget. cbn [result_bind]. rewrite Hiter. cbn [result_bind].
  assert (Hgood' : Forall (fun t => exists ts, imerg.truncate_to_date t = inr ts) good).
  { eapply Forall_impl; [exact Hgood |]. intros t [f [-> Hf]].
    destruct (truncate_representable f Hf) as [ts [Hts _]]. eauto. }
  assert (He : exists e, imerg.truncate_to_date bad = inl e /\ exn_class e = cls).
  { destruct Hbad as [[Hnot ->] | (f & -> & Hy & Hm & Hd & Hcase)].
    - unfold imerg.truncate_to_date.
      destruct bad as [[ns | [f | r] | dt bits]|];
        try (eexists; split; reflexivity).
      now destruct (Hnot f).
    - unfold imerg.truncate_to_date. rewrite parse_strftime_fields by assumption. cbv zeta.
      destruct Hcase as [[Hinvalid ->] | (Hvalid & Hout & ->)].
      + rewrite Hinvalid. cbn [negb]. eexists. split; reflexivity.
      + rewrite Hvalid. cbn [negb].
        destruct (Z.leb_spec pd.TS_MIN
                    (calendar.days_from_civil (pd.f_year f) (pd.f_month f) (pd.f_day f)
                     * pd.NS_PER_DAY));
          destruct (Z.leb_spec
                      (calendar.days_from_civil (pd.f_year f) (pd.f_month f) (pd.f_day f)
                       * pd.NS_PER_DAY) pd.TS_MAX);
          cbn [andb]; try (eexists; split; reflexivity).
        exfalso. apply Hout. lia. }
  destruct He as [e [He Hcls]].
  rewrite (list_comp_stops_at_first_error _ good bad rest e Hgood' He).
  cbn [result_bind]. eauto.
Qed.

(** X9 at a granule of the Julian calendar: 29 February 1900 is a date of
    that calendar and not of the Gregorian one. *)
Lemma X9_witness :
  exists e,
    imerg.times_to_dates
      {| xr.ds_variables :=
           <["time" := example.mkvar [("time", 1%nat)]
                         (xr.ArrObject (fun _ => xr.PyDatetime (pd.Fields 1900 2 29 0 0 0)))]>
             (xr.ds_variables example.granule);
         xr.ds_coord_names := xr.ds_coord_names example.granule |}
      (xrops.construct_dataarray
         {| xr.ds_variables :=
              <["time" := example.mkvar [("time", 1%nat)]
                            (xr.ArrObject (fun _ => xr.PyDatetime (pd.Fields 1900 2 29 0 0 0)))]>
                (xr.ds_variables example.granule);
            xr.ds_coord_names := xr.ds_coord_names example.granule |}
         "precipitationCal" (xr.da_variable example.da_cal))
    = inl e
    /\ exn_class e = "ValueError".
Proof.
  eapply (X9_time_values_that_fail _ _ _ _ [] []
            (Some (xr.SObject (xr.PyDatetime (pd.Fields 1900 2 29 0 0 0))))).
  - vm_compute. reflexivity.
  - vm_compute. reflexivity.
  - vm_compute. reflexivity.
  - vm_compute. reflexivity.
  - constructor.
  - right. eexists. split; [reflexivity |]. cbn [pd.f_year pd.f_month pd.f_day].
    split; [lia |]. split; [lia |]. split; [lia |]. left. split; reflexivity.
Defined.

(** ** The fetcher: the verbose messages, and the directory *)

(** [download_imerg] with the verbose messages, step by step. *)
Lemma download_imerg_verbose_eq E date run version save_path w url :
  imerg.imerg_url date run version = inr url ->
  imerg.download_imerg E date run version save_path true w =
  match fs w !! imerg.fspath save_path with
  | Some Dir => (raise "IsADirectoryError" (imerg.fspath save_path), w)
  | _ =>
      let w1 := emit (EHttpGet url)
                  (emit (EPrint ("downloading from " +:+ url))
                     (set_fs (delete (imerg.fspath save_path)) w)) in
      match http E url with
      | inl e => (inl e, w1)
      | inr response =>
          match requests.raise_for_status response with
          | inl e => (inl e, w1)
          | inr _ =>
              match imerg.write_content (imerg.fspath save_path)
                      (requests.content response) w1 with
              | (inl e, w2) => (inl e, w2)
              | (inr _, w2) =>
                  match imerg.str_add "contents of URL written to " save_path with
                  | inl e => (inl e, w2)
                  | inr msg => (inr tt, emit (EPrint msg) w2)
                  end
              end
          end
      end
  end.
Proof.
  intros Hurl. unfold imerg.download_imerg. rewrite remove_if_exists, Hurl.
  destruct (fs w !! imerg.fspath save_path) as [[c|]|]; [| reflexivity |];
    unfold bind, lift, when, ret, imerg.requests_get, print; simpl;
    (destruct (http E url) as [e | response]; [reflexivity |]);
    (destruct (requests.raise_for_status response) as [e | []]; [reflexivity |]);
    match goal with
    | |- context [imerg.write_content ?p ?c ?w0] =>
        destruct (imerg.write_content p c w0) as [[e | []] w2]; [reflexivity |]
    end;
    destruct (imerg.str_add _ save_path); reflexivity.
Qed.

(** X10: with the verbose messages on and a [pathlib.Path] as save path
    (the default), [download_imerg] never returns: when nothing else
    fails, the last message, which adds the path to a string, raises
    [TypeError]; by then the file has been written: a file found at the
    path after the call holds the body of the response, and the call has
    raised that [TypeError]. *)
Theorem X10_verbose_with_a_path_object_raises
    (E : env) (date : pd.Timestamp) (run : string) (version : Z) (s : string) (w : world) :
  let r := imerg.download_imerg E date run version (imerg.PPath s) true w in
  (exists e, r.1 = inl e)
  /\ forall c, fs r.2 !! s = Some (File c) ->
       r.1 = raise "TypeError" "can only concatenate str (not PosixPath) to str"
       /\ exists url response,
            imerg.imerg_url date run version = inr url
            /\ http E url = inr response
            /\ c = requests.content response.
Proof.
  intros r. subst r.
  rewrite (download_imerg_verbose_eq E date run version (imerg.PPath s) w _
             (imerg_url_eq date run version)).
  cbn [imerg.fspath imerg.str_add].
  match goal with |- context [http E ?u] => set (url := u) end.
  assert (Hgone : forall w0, fs (emit (EHttpGet url)
                                   (emit (EPrint ("downloading from " +:+ url))
                                      (set_fs (delete s) w0))) !! s = None).
  { intros w0. apply lookup_delete_eq. }
  assert (Hcase : fs w !! s = Some Dir \/ fs w !! s <> Some Dir).
  { destruct (fs w !! s) as [[c0|]|]; [right | left | right]; congruence. }
  destruct Hcase as [Hdir | Hdir].
  { rewrite Hdir. cbn [fst snd]. split; [eauto |]. intros c. rewrite Hdir. discriminate. }
  assert (Hrest : forall T (a b : T), match fs w !! s with
                                      | Some Dir => a
                                      | _ => b
                                      end = b).
  { intros T a b. destruct (fs w !! s) as [[c0|]|]; congruence. }
  rewrite Hrest. cbv zeta.
  destruct (http E url) as [e | response] eqn:Hget.
  { cbn [fst snd]. split; [eauto |]. intros c. rewrite Hgone. discriminate. }
  destruct (requests.raise_for_status response) as [e | []].
  { cbn [fst snd]. split; [eauto |]. intros c. rewrite Hgone. discriminate. }
  pose proof (write_content_outcome s (requests.content response)
                (emit (EHttpGet url) (emit (EPrint ("downloading from " +:+ url))
                                         (set_fs (delete s) w)))) as Hwrite.
  unfold raise.
  destruct (imerg.write_content s (requests.content response) _) as [[e | []] w2];
    cbn [fst snd] in *.
  - split; [eauto |]. intros c Hc. apply Hwrite in Hc. rewrite Hgone in Hc. discriminate.
  - split; [eauto |]. intros c Hc. split; [reflexivity |].
    exists url, response. split; [apply imerg_url_eq |]. split; [exact Hget |].
    rewrite Hwrite in Hc. now injection Hc as <-.
Qed.

(** X10 at the sample world: the call with the defaults and the messages
    on raises [TypeError] after it has written the two bytes. *)
Lemma X10_witness :
  (imerg.download_imerg example.E200 example.june1 "L" 7 imerg.DEFAULT_SAVE_PATH true
     example.w_empty).1
  = raise "TypeError" "can only concatenate str (not PosixPath) to str".
Proof.
  refine (proj1 (proj2 (X10_verbose_with_a_path_object_raises example.E200 example.june1
                          "L" 7 "temp/imerg_temp.nc" example.w_empty) [x01; x02] _)).
  vm_compute. reflexivity.
Defined.

Section keeps_entries.

Lemma entries_ret {A : Type} (a : A) : keeps_entries (ret a).
Proof. intros w q x H. exact H. Qed.

Lemma entries_lift {A : Type} (r : result A) : keeps_entries (lift r).
Proof. intros w q x H. exact H. Qed.

Lemma entries_bind {A B : Type} (m : M A) (k : A -> M B) :
  keeps_entries m -> (forall a, keeps_entries (k a)) -> keeps_entries (bind m k).
Proof.
  intros Hm Hk w q x H. unfold bind. specialize (Hm w q x H).
  destruct (m w) as [[e | a] w1]; simpl in *; [exact Hm |]. now apply Hk.
Qed.

Lemma entries_try {A : Type} (m : M A) (h : exn -> M A) :
  keeps_entries m -> (forall e, keeps_entries (h e)) -> keeps_entries (try_except m h).
Proof.
  intros Hm Hh w q x H. unfold try_except. specialize (Hm w q x H).
  destruct (m w) as [[e | a] w1]; simpl in *; [| exact Hm]. now apply Hh.
Qed.

Lemma entries_when (b : bool) (m : M unit) : keeps_entries m -> keeps_entries (when b m).
Proof. intros Hm. destruct b; [exact Hm | apply entries_ret]. Qed.

Lemma entries_mkdir p : keeps_entries (os.mkdir p).
Proof.
  intros w q x H. unfold os.mkdir. destruct p as [|a p]; [exact H |].
  destruct (fs w !! String a p) eqn:Hp; [exact H |].
  destruct (os.parent_ok _ _); [exact H |]. simpl.
  rewrite lookup_insert_ne; [exact H |]. intros <-. congruence.
Qed.

Lemma entries_makedirs_go fuel p : keeps_entries (os.makedirs_go fuel p).
Proof.
  revert p. induction fuel as [|fuel IH]; intros p; simpl.
  - apply entries_lift.
  - apply entries_bind.
    + destruct (bool_decide _); [apply entries_ret |].
      apply entries_bind; [intros w q x H; exact H | intros; apply entries_ret].
    + intros missing. apply entries_bind.
      * apply entries_when, entries_try; [apply IH |].
        intros e. destruct (bool_decide _); [apply entries_ret | apply entries_lift].
      * intros _. apply entries_try; [apply entries_mkdir |].
        intros e w q x H. destruct (fs w !! p) as [[c'|]|]; exact H.
Qed.

End keeps_entries.

Section keeps_blobs.

Lemma blobs_ret {A : Type} (a : A) : keeps_blobs (ret a).
Proof. intros w. reflexivity. Qed.

Lemma blobs_lift {A : Type} (r : result A) : keeps_blobs (lift r).
Proof. intros w. reflexivity. Qed.

Lemma blobs_bind {A B : Type} (m : M A) (k : A -> M B) :
  keeps_blobs m -> (forall a, keeps_blobs (k a)) -> keeps_blobs (bind m k).
Proof.
  intros Hm Hk w. unfold bind. specialize (Hm w).
  destruct (m w) as [[e | a] w1]; simpl in *; [exact Hm |]. now rewrite Hk.
Qed.

Lemma blobs_try {A : Type} (m : M A) (h : exn -> M A) :
  keeps_blobs m -> (forall e, keeps_blobs (h e)) -> keeps_blobs (try_except m h).
Proof.
  intros Hm Hh w. unfold try_except. specialize (Hm w).
  destruct (m w) as [[e | a] w1]; simpl in *; [| exact Hm]. now rewrite Hh.
Qed.

Lemma blobs_when (b : bool) (m : M unit) : keeps_blobs m -> keeps_blobs (when b m).
Proof. intros Hm. destruct b; [exact Hm | apply blobs_ret]. Qed.

Lemma blobs_print line : keeps_blobs (print line).
Proof. intros w. reflexivity. Qed.

Lemma blobs_log_call d s : keeps_blobs (log_call d s).
Proof. intros w. reflexivity. Qed.

Lemma blobs_path_exists p : keeps_blobs (os.path_exists p).
Proof. intros w. reflexivity. Qed.

Lemma blobs_remove p : keeps_blobs (os.remove p).
Proof. intros w. unfold os.remove. destruct (fs w !! p) as [[c|]|]; reflexivity. Qed.

Lemma blobs_mkdir p : keeps_blobs (os.mkdir p).
Proof.
  intros w. unfold os.mkdir. destruct p; [reflexivity |].
  destruct (fs w !! _); [reflexivity |]. destruct (os.parent_ok _ _); reflexivity.
Qed.

Lemma blobs_makedirs_go fuel p : keeps_blobs (os.makedirs_go fuel p).
Proof.
  revert p. induction fuel as [|fuel IH]; intros p; simpl.
  - apply blobs_lift.
  - apply blobs_bind.
    + destruct (bool_decide _); [apply blobs_ret |].
      apply blobs_bind; [apply blobs_path_exists | intros; apply blobs_ret].
    + intros missing. apply blobs_bind.
      * apply blobs_when, blobs_try; [apply IH |].
        intros e. destruct (bool_decide _); [apply blobs_ret | apply blobs_lift].
      * intros _. apply blobs_try; [apply blobs_mkdir |].
        intros e w. destruct (fs w !! p) as [[c'|]|]; reflexivity.
Qed.

Lemma blobs_open_wb p : keeps_blobs (os.open_wb p).
Proof.
  intros w. unfold os.open_wb.
  destruct (fs w !! p) as [[c|]|]; try reflexivity; destruct (os.parent_ok _ _); reflexivity.
Qed.

Lemma blobs_write p bytes : keeps_blobs (os.write p bytes).
Proof. intros w. unfold os.write. destruct (fs w !! p) as [[c|]|]; reflexivity. Qed.

Lemma blobs_read_rb p : keeps_blobs (os.read_rb p).
Proof. intros w. unfold os.read_rb. destruct (fs w !! p) as [[c|]|]; reflexivity. Qed.

Lemma write_content_keeps_blobs p content w :
  blobs (imerg.write_content p content w).2 = blobs w.
Proof.
  revert w. change (keeps_blobs (imerg.write_content p content)).
  unfold imerg.write_content.
  apply blobs_bind; [apply blobs_path_exists | intros dir_found].
  apply blobs_bind; [apply blobs_when, blobs_makedirs_go | intros _].
  apply blobs_bind; [apply blobs_open_wb | intros _]. apply blobs_write.
Qed.

Lemma download_imerg_keeps_blobs E date run version save_path verbose :
  keeps_blobs (imerg.download_imerg E date run version save_path verbose).
Proof.
  unfold imerg.download_imerg.
  apply blobs_bind; [apply blobs_path_exists | intros found].
  apply blobs_bind; [apply blobs_when, blobs_remove | intros _].
  apply blobs_bind; [apply blobs_lift | intros url].
  apply blobs_bind; [apply blobs_when, blobs_print | intros _].
  apply blobs_bind; [intros w; reflexivity | intros response].
  apply blobs_bind; [apply blobs_lift | intros _].
  apply blobs_bind; [intros w; apply write_content_keeps_blobs | intros _].
  apply blobs_when, blobs_bind; [apply blobs_lift | intros msg]. apply blobs_print.
Qed.

End keeps_blobs.

(** Writing the content touches no other file, and when it returns the
    directory part of the path is a directory. *)
Lemma write_content_frame (p : string) (content : list byte) (w : world) :
  (forall q c, q <> p ->
     (fs (imerg.write_content p content w).2 !! q = Some (File c)
      <-> fs w !! q = Some (File c)))
  /\ ((imerg.write_content p content w).1 = inr tt ->
      os.path_dirname p = ""
      \/ fs (imerg.write_content p content w).2 !! os.path_dirname p = Some Dir).
Proof.
  rewrite write_content_eq.
  set (prepare := bind (os.path_exists (os.path_dirname p))
                       (fun dir_found => when (negb dir_found) (os.makedirs (os.path_dirname p)))).
  assert (Hkeep : keeps_files prepare).
  { apply keeps_bind; [apply keeps_path_exists | intros b].
    apply keeps_when, keeps_makedirs_go. }
  assert (Hent : keeps_entries prepare).
  { apply entries_bind; [intros w0 q x H; exact H | intros b].
    apply entries_when, entries_makedirs_go. }
  specialize (Hkeep w). specialize (Hent w).
  destruct (prepare w) as [[e | []] w1]; cbn [fst snd] in *.
  { split; [| discriminate]. intros q c Hq. split; [apply Hkeep | apply Hent]. }
  assert (Hparent : forall u, os.parent_ok (fs w1) p = inr u ->
             os.path_dirname p = "" \/ fs w1 !! os.path_dirname p = Some Dir).
  { intros u. unfold os.parent_ok.
    destruct (os.path_dirname p) as [|a d]; [now left |].
    destruct (fs w1 !! String a d) as [[c0|]|]; try discriminate. now right. }
  assert (Hwritten : forall u, os.parent_ok (fs w1) p = inr u -> fs w1 !! p <> Some Dir ->
            (forall q c, q <> p ->
               (fs (set_fs (insert p (File content)) w1) !! q = Some (File c)
                <-> fs w !! q = Some (File c)))
            /\ (os.path_dirname p = ""
                \/ fs (set_fs (insert p (File content)) w1) !! os.path_dirname p = Some Dir)).
  { intros u Hpar Hnotdir. cbn [set_fs fs]. split.
    - intros q c Hq. rewrite lookup_insert_ne by congruence.
      split; [apply Hkeep | apply Hent].
    - destruct (Hparent u Hpar) as [Hd | Hd]; [now left |]. right.
      rewrite lookup_insert_ne; [exact Hd |]. intros Heq. rewrite <- Heq in Hd.
      congruence. }
  destruct (fs w1 !! p) as [[old|]|] eqn:Hp; cbn [fst snd].
  - destruct (os.parent_ok (fs w1) p) as [e | u] eqn:Hpar; cbn [fst snd].
    { split; [| discriminate]. intros q c Hq. split; [apply Hkeep | apply Hent]. }
    destruct (Hwritten u eq_refl ltac:(discriminate)) as [H1 H2]. split; [exact H1 | auto].
  - split; [| discriminate]. intros q c Hq. split; [apply Hkeep | apply Hent].
  - destruct (os.parent_ok (fs w1) p) as [e | u] eqn:Hpar; cbn [fst snd].
    { split; [| discriminate]. intros q c Hq. split; [apply Hkeep | apply Hent]. }
    destruct (Hwritten u eq_refl ltac:(discriminate)) as [H1 H2]. split; [exact H1 | auto].
Qed.

(** X11: a call of [download_imerg] that returns has created the directory
    part of the save path when it did not exist: afterwards it is a
    directory; and whether the call returns or raises, no other regular
    file is created, changed or removed, and the remote container is not
    touched. *)
Theorem X11_download_creates_directory_and_touches_no_other_file
    (E : env) (date : pd.Timestamp) (run : string) (version : Z)
    (save_path : imerg.pathlike) (w : world) :
  let p := imerg.fspath save_path in
  let r := imerg.download_imerg E date run version save_path false w in
  (r.1 = inr tt -> os.path_dirname p = "" \/ fs r.2 !! os.path_dirname p = Some Dir)
  /\ (forall q c, q <> p -> (fs r.2 !! q = Some (File c) <-> fs w !! q = Some (File c)))
  /\ blobs r.2 = blobs w.
Proof.
  intros p r. subst r.
  rewrite (download_imerg_quiet_eq E date run version save_path w _
             (imerg_url_eq date run version)).
  fold p. match goal with |- context [http E ?u] => set (url := u) end.
  assert (Hafter : forall q, q <> p -> fs (after_get url p w) !! q = fs w !! q).
  { intros q Hq. unfold after_get. cbn [emit set_fs fs]. now apply lookup_delete_ne. }
  assert (Hcase : fs w !! p = Some Dir \/ fs w !! p <> Some Dir).
  { destruct (fs w !! p) as [[c0|]|]; [right | left | right]; congruence. }
  destruct Hcase as [Hdir | Hdir].
  { rewrite Hdir. cbn [fst snd]. split; [discriminate |]. split; [tauto | reflexivity]. }
  assert (Hrest : forall T (a b : T), match fs w !! p with
                                      | Some Dir => a
                                      | _ => b
                                      end = b).
  { intros T a b. destruct (fs w !! p) as [[c0|]|]; congruence. }
  rewrite Hrest.
  destruct (http E url) as [e | response].
  { cbn [fst snd]. split; [discriminate |]. split; [| reflexivity].
    intros q c Hq. now rewrite Hafter. }
  destruct (requests.raise_for_status response) as [e | []].
  { cbn [fst snd]. split; [discriminate |]. split; [| reflexivity].
    intros q c Hq. now rewrite Hafter. }
  destruct (write_content_frame p (requests.content response) (after_get url p w))
    as [Hframe Hdirname].
  split; [exact Hdirname |]. split.
  - intros q c Hq. rewrite (Hframe q c Hq). now rewrite Hafter.
  - now rewrite write_content_keeps_blobs.
Qed.

(** ** Blob names and days *)

Lemma valid_date_intro y m d :
  1 <= m <= 12 -> 1 <= d <= calendar.days_in_month y m -> calendar.valid_date y m d = true.
Proof.
  unfold calendar.valid_date. rewrite !andb_true_iff, !Z.leb_le. lia.
Qed.

Lemma days_in_month_bounds y m : 28 <= calendar.days_in_month y m <= 31.
Proof.
  unfold calendar.days_in_month.
  destruct (m =? 2); [destruct (calendar.is_leap y); lia |].
  destruct (_ || _); lia.
Qed.

(** The day after a date of the calendar is a date of the calendar. *)
Lemma next_day y m d :
  calendar.valid_date y m d = true ->
  exists y' m' d',
    calendar.valid_date y' m' d' = true
    /\ calendar.days_from_civil y' m' d' = calendar.days_from_civil y m d + 1.
Proof.
  intros H. apply valid_date_bounds in H as [Hm Hd].
  pose proof (days_in_month_bounds y m) as Hdim.
  destruct (Z.eq_dec d (calendar.days_in_month y m)) as [Hlast | Hnot].
  - destruct (Z.eq_dec m 12) as [-> | Hm12].
    + exists (y + 1), 1, 1. split; [reflexivity |].
      change (calendar.days_in_month y 12) with 31 in Hlast. subst d.
      unfold calendar.days_from_civil.
      change (1 <=? 2) with true. change (12 <=? 2) with false. cbv iota.
      replace (y + 1 - 1) with y by lia. Z.div_mod_to_equations. lia.
    + exists y, (m + 1), 1. split.
      { pose proof (days_in_month_bounds y (m + 1)). apply valid_date_intro; lia. }
      destruct (Z.eq_dec m 2) as [-> | Hm2].
      * unfold calendar.days_in_month, calendar.is_leap in Hlast.
        change (2 =? 2) with true in Hlast. cbv iota in Hlast.
        unfold calendar.days_from_civil.
        change (2 + 1 <=? 2) with false. change (2 <=? 2) with true. cbv iota.
        destruct (Z.eqb_spec (y mod 4) 0), (Z.eqb_spec (y mod 100) 0),
          (Z.eqb_spec (y mod 400) 0); cbn [andb orb negb] in Hlast; subst d;
          (Z.div_mod_to_equations; lia).
      * assert (Hcases : m = 1 \/ m = 3 \/ m = 4 \/ m = 5 \/ m = 6 \/ m = 7
                         \/ m = 8 \/ m = 9 \/ m = 10 \/ m = 11) by lia.
        clear Hd Hdim Hm Hm12 Hm2.
        destruct Hcases as [Hc|[Hc|[Hc|[Hc|[Hc|[Hc|[Hc|[Hc|[Hc|Hc]]]]]]]]];
          subst m; vm_compute in Hlast; subst d; unfold calendar.days_from_civil;
          match goal with
          | |- context [?a + 1 <=? 2] =>
              let b := eval vm_compute in (a + 1 <=? 2) in
              change (a + 1 <=? 2) with b;
              let c := eval vm_compute in (a <=? 2) in
              change (a <=? 2) with c
          end; cbv iota; (Z.div_mod_to_equations; lia).
  - exists y, m, (d + 1). split; [apply valid_date_intro; lia |].
    unfold calendar.days_from_civil. Z.div_mod_to_equations. lia.
Qed.

Lemma day_is_a_date_nat (n : nat) :
  exists y m d,
    calendar.valid_date y m d = true /\ calendar.days_from_civil y m d = Z.of_nat n.
Proof.
  induction n as [|n (y & m & d & Hvalid & Hdays)].
  - exists 1970, 1, 1. split; reflexivity.
  - destruct (next_day y m d Hvalid) as (y' & m' & d' & Hvalid' & Hdays').
    exists y', m', d'. split; [exact Hvalid' | lia].
Qed.

(** The calendar repeats every 400 years, that is every 146097 days. *)
Lemma days_from_civil_shift (y m d e : Z) :
  calendar.days_from_civil (y + 400 * e) m d = calendar.days_from_civil y m d + 146097 * e.
Proof.
  unfold calendar.days_from_civil.
  replace (if m <=? 2 then y + 400 * e - 1 else y + 400 * e)
    with ((if m <=? 2 then y - 1 else y) + e * 400) by (destruct (m <=? 2); lia).
  set (y' := if m <=? 2 then y - 1 else y).
  rewrite Z.div_add by lia.
  replace (y' + e * 400 - (y' / 400 + e) * 400) with (y' - y' / 400 * 400) by lia.
  lia.
Qed.

Lemma is_leap_shift (y e : Z) : calendar.is_leap (y + 400 * e) = calendar.is_leap y.
Proof.
  unfold calendar.is_leap.
  replace ((y + 400 * e) mod 4) with (y mod 4) by (Z.div_mod_to_equations; lia).
  replace ((y + 400 * e) mod 100) with (y mod 100) by (Z.div_mod_to_equations; lia).
  replace ((y + 400 * e) mod 400) with (y mod 400) by (Z.div_mod_to_equations; lia).
  reflexivity.
Qed.

Lemma valid_date_shift (y m d e : Z) :
  calendar.valid_date (y + 400 * e) m d = calendar.valid_date y m d.
Proof. unfold calendar.valid_date, calendar.days_in_month. now rewrite is_leap_shift. Qed.

(** Every day count is the day count of a date of the calendar. *)
Lemma day_is_a_date (z : Z) :
  exists y m d, calendar.valid_date y m d = true /\ calendar.days_from_civil y m d = z.
Proof.
  set (e := z / 146097).
  destruct (day_is_a_date_nat (Z.to_nat (z mod 146097))) as (y & m & d & Hvalid & Hdays).
  exists (y + 400 * e), m, d.
  rewrite valid_date_shift, days_from_civil_shift, Hdays. split; [exact Hvalid |].
  subst e. rewrite Z2Nat.id by (Z.div_mod_to_equations; lia).
  Z.div_mod_to_equations; lia.
Qed.

(** The civil date of a day count is a date of the calendar, and its day
    count is the one it was made from. *)
Lemma days_from_civil_from_days (z : Z) :
  exists y m d,
    calendar.civil_from_days z = (y, m, d)
    /\ calendar.valid_date y m d = true
    /\ calendar.days_from_civil y m d = z.
Proof.
  destruct (day_is_a_date z) as (y & m & d & Hvalid & Hdays).
  exists y, m, d. split; [| now split].
  rewrite <- Hdays. now apply civil_from_days_from_civil.
Qed.

(** The fields of a timestamp of the 64-bit nanosecond range. *)
Lemma ts_fields_in_range (t : pd.Timestamp) :
  pd.TS_MIN <= t <= pd.TS_MAX ->
  1677 <= pd.year t <= 2262 /\ 1 <= pd.month t <= 12 /\ 1 <= pd.day t <= 31
  /\ calendar.days_from_civil (pd.year t) (pd.month t) (pd.day t) = pd.ts_days t.
Proof.
  intros Ht. unfold pd.year, pd.month, pd.day.
  destruct (days_from_civil_from_days (pd.ts_days t)) as (y & m & d & -> & Hvalid & Hdays).
  cbn [fst snd]. apply valid_date_bounds in Hvalid as [Hm Hd].
  pose proof (days_in_month_bounds y m) as Hdim.
  split; [| split; [lia | split; [lia | exact Hdays]]].
  assert (Hz : -106752 <= pd.ts_days t <= 106751).
  { unfold pd.ts_days, pd.TS_MIN, pd.TS_MAX, pd.NS_PER_DAY, pd.NS_PER_SECOND in *.
    Z.div_mod_to_equations. lia. }
  rewrite <- Hdays in Hz. clear Hdays. unfold calendar.days_from_civil in Hz.
  destruct (Z.leb_spec m 2); Z.div_mod_to_equations; lia.
Qed.

(** The text of a date of the years 0 to 9999: ten characters, from which
    the year, the month and the day read back. *)
Lemma date_text (f : pd.fields) :
  0 <= pd.f_year f <= 9999 -> 0 <= pd.f_month f <= 99 -> 0 <= pd.f_day f <= 99 ->
  exists a b c d m1 m2 d1 d2,
    pd.strftime_fields f "%Y-%m-%d"
    = String a (String b (String c (String d (String "-"
        (String m1 (String m2 (String "-" (String d1 (String d2 "")))))))))
    /\ py.parse_digits (String a (String b (String c (String d "")))) = Some (pd.f_year f)
    /\ py.parse_digits (String m1 (String m2 "")) = Some (pd.f_month f)
    /\ py.parse_digits (String d1 (String d2 "")) = Some (pd.f_day f).
Proof.
  intros Hy Hm Hd.
  destruct (four_digits (pd.f_year f) Hy) as (a & b & c & d & Hfy & Hpy).
  destruct (two_digits (pd.f_month f) Hm) as (m1 & m2 & Hfm & Hpm).
  destruct (two_digits (pd.f_day f) Hd) as (d1 & d2 & Hfd & Hpd).
  exists a, b, c, d, m1, m2, d1, d2. split; [| now split].
  cbn -[py.fmt_field String.append]. rewrite Hfy, Hfm, Hfd. reflexivity.
Qed.

(** Two timestamps of the nanosecond range have the same blob name only
    when they lie on the same day. *)
Lemma output_blob_of_day (t1 t2 : pd.Timestamp) :
  pd.TS_MIN <= t1 <= pd.TS_MAX -> pd.TS_MIN <= t2 <= pd.TS_MAX ->
  imerg.output_blob_of t1 = imerg.output_blob_of t2 -> pd.ts_days t1 = pd.ts_days t2.
Proof.
  intros H1 H2 Hname.
  destruct (ts_fields_in_range t1 H1) as (Hy1 & Hm1 & Hd1 & Hdays1).
  destruct (ts_fields_in_range t2 H2) as (Hy2 & Hm2 & Hd2 & Hdays2).
  destruct (date_text (pd.ts_fields t1)) as (a & b & c & d & m1 & m2 & d1 & d2 & Ht1 & Hpy1 & Hpm1 & Hpd1);
    [cbn [pd.ts_fields pd.f_year pd.f_month pd.f_day]; lia .. |].
  destruct (date_text (pd.ts_fields t2)) as (a' & b' & c' & d' & m1' & m2' & d1' & d2' & Ht2 & Hpy2 & Hpm2 & Hpd2);
    [cbn [pd.ts_fields pd.f_year pd.f_month pd.f_day]; lia .. |].
  unfold imerg.output_blob_of, pd.strftime in Hname. rewrite Ht1, Ht2 in Hname.
  cbn in Hname. injection Hname as -> -> -> -> -> -> -> ->.
  rewrite Hpy1 in Hpy2. rewrite Hpm1 in Hpm2. rewrite Hpd1 in Hpd2.
  cbn [pd.ts_fields pd.f_year pd.f_month pd.f_day] in *.
  rewrite <- Hdays1, <- Hdays2. congruence.
Qed.

Lemma output_blob_of_same_day (t1 t2 : pd.Timestamp) :
  pd.ts_days t1 = pd.ts_days t2 -> imerg.output_blob_of t1 = imerg.output_blob_of t2.
Proof.
  intros Hdays. unfold imerg.output_blob_of, pd.strftime.
  cbn -[py.fmt_field String.append]. unfold pd.year, pd.month, pd.day.
  now rewrite Hdays.
Qed.

(** X12: the name of the output blob tells the day, and nothing more: two
    timestamps of the 64-bit nanosecond range get the same blob name
    exactly when they lie on the same day. *)
Theorem X12_blob_name_tells_the_day (t1 t2 : pd.Timestamp) :
  pd.TS_MIN <= t1 <= pd.TS_MAX -> pd.TS_MIN <= t2 <= pd.TS_MAX ->
  (imerg.output_blob_of t1 = imerg.output_blob_of t2 <-> pd.ts_days t1 = pd.ts_days t2).
Proof.
  intros H1 H2. split; [now apply output_blob_of_day | apply output_blob_of_same_day].
Qed.

Lemma X12_witness :
  imerg.output_blob_of example.june1 <> imerg.output_blob_of example.june2
  /\ imerg.output_blob_of example.june1 = imerg.output_blob_of (example.june1 + 1).
Proof.
  split.
  - intros Hname.
    apply (proj1 (X12_blob_name_tells_the_day example.june1 example.june2
                    ltac:(vm_compute; split; discriminate)
                    ltac:(vm_compute; split; discriminate))) in Hname.
    vm_compute in Hname. discriminate.
  - apply (X12_blob_name_tells_the_day example.june1 (example.june1 + 1));
      [vm_compute; split; discriminate | vm_compute; split; discriminate |].
    vm_compute. reflexivity.
Defined.

(** X13: as long as yesterday lies in the nanosecond range, the dates of
    the loop have pairwise distinct blob names, so that no two iterations
    of a run aim at the same blob. *)
Theorem X13_dates_have_distinct_blob_names (E : env) (dates : list pd.Timestamp) :
  imerg.recent_dates E = inr dates ->
  pd.sub_days (pd.Timestamp_of_date (today E)) 1 <= pd.TS_MAX ->
  NoDup (imerg.output_blob_of <$> dates).
Proof.
  rewrite recent_dates_eq. intros [= <-] Hmax.
  assert (Hstop : (today E - 1) * pd.NS_PER_DAY <= pd.TS_MAX).
  { unfold pd.sub_days, pd.Timestamp_of_date in Hmax. lia. }
  apply NoDup_fmap_2_strong.
  - intros t1 t2 Ht1 Ht2 Hname.
    apply elem_of_date_range in Ht1 as (k1 & Hk1 & Hle1 & ->).
    apply elem_of_date_range in Ht2 as (k2 & Hk2 & Hle2 & ->).
    apply output_blob_of_day in Hname.
    + unfold pd.ts_days in Hname.
      replace (19875 * pd.NS_PER_DAY + k1 * pd.NS_PER_DAY)
        with ((19875 + k1) * pd.NS_PER_DAY) in Hname by lia.
      replace (19875 * pd.NS_PER_DAY + k2 * pd.NS_PER_DAY)
        with ((19875 + k2) * pd.NS_PER_DAY) in Hname by lia.
      rewrite !Z.div_mul in Hname by discriminate. f_equal. f_equal. lia.
    + unfold pd.TS_MIN, pd.TS_MAX, pd.NS_PER_DAY, pd.NS_PER_SECOND in *. lia.
    + unfold pd.TS_MIN, pd.TS_MAX, pd.NS_PER_DAY, pd.NS_PER_SECOND in *. lia.
  - pose proof (date_range_sorted (19875 * pd.NS_PER_DAY) ((today E - 1) * pd.NS_PER_DAY))
      as Hsorted.
    induction Hsorted as [|t l _ IH Hlt]; constructor; [| exact IH].
    intros Hin. rewrite List.Forall_forall in Hlt.
    apply list_elem_of_In, Hlt in Hin. lia.
Qed.

Lemma X13_witness :
  NoDup (imerg.output_blob_of <$> [example.june1; example.june2; example.june3]).
Proof.
  apply (X13_dates_have_distinct_blob_names example.E200); [| vm_compute; discriminate].
  vm_compute. reflexivity.
Defined.

(** ** A run and the container *)

Lemma bind_log_call {A : Type} (d : pd.Timestamp) (s : stage) (k : unit -> M A) (w : world) :
  bind (log_call d s) k w = k tt (emit (ECall d s) w).
Proof. reflexivity. Qed.

Lemma bind_returns {A B : Type} (m : M A) (k : A -> M B) (w w' : world) (a : A) :
  m w = (inr a, w') -> bind m k w = k a w'.
Proof. intros H. unfold bind. now rewrite H. Qed.

Lemma process_imerg_world E path w : (imerg.process_imerg E path w).2 = w.
Proof.
  unfold imerg.process_imerg. unfold bind at 1.
  assert (Hopen : (xrops.open_dataset E path w).2 = w).
  { unfold xrops.open_dataset, bind, os.read_rb, lift.
    destruct (fs w !! path) as [[c|]|]; reflexivity. }
  destruct (xrops.open_dataset E path w) as [[e | ds0] w1]; simpl in Hopen; subst w1;
    [reflexivity |].
  unfold bind, lift, ret.
  destruct (xrops.transpose _ ds0) as [e | ds]; [reflexivity |].
  destruct (xrops.getitem ds _) as [e | da0]; [reflexivity |].
  destruct (imerg.times_to_dates ds da0) as [e | da1]; [reflexivity |].
  destruct (xrops.rename _ da1) as [e | da2]; reflexivity.
Qed.

Lemma publishes_bind {A B : Type} (name : string) (m : M A) (k : A -> M B) :
  keeps_blobs m -> (forall a, publishes name (k a)) -> publishes name (bind m k).
Proof.
  intros Hm Hk w. unfold bind. specialize (Hm w).
  destruct (m w) as [[e | a] w1]; cbn [fst snd] in *; [exact Hm |].
  specialize (Hk a w1). now rewrite Hm in Hk.
Qed.

Lemma upload_imerg_publishes E da name : publishes name (imerg.upload_imerg E da name).
Proof.
  intros w. rewrite upload_imerg_eq. cbv zeta.
  destruct (cog_encode E da) as [e | bytes]; [reflexivity |].
  destruct (upload_error E name); [reflexivity |]. now exists bytes.
Qed.

Lemma fetch_transform_publish_publishes E d name :
  publishes name (imerg.fetch_transform_publish E d name).
Proof.
  unfold imerg.fetch_transform_publish.
  apply publishes_bind; [apply blobs_log_call | intros _].
  apply publishes_bind; [apply download_imerg_keeps_blobs | intros _].
  apply publishes_bind; [apply blobs_log_call | intros _].
  apply publishes_bind; [intros w; now rewrite process_imerg_world | intros da].
  apply publishes_bind; [apply blobs_log_call | intros _].
  apply upload_imerg_publishes.
Qed.

(** The blob of a date is in the listing exactly when the container holds
    a blob of that name. *)
Lemma output_blob_listed (store : gmap string (list byte)) (d : pd.Timestamp) :
  imerg.output_blob_of d ∈ blob.blob_names "imerg/v7" store
  <-> is_Some (store !! imerg.output_blob_of d).
Proof.
  unfold blob.blob_names. rewrite list_elem_of_filter, list_elem_of_fmap. split.
  - intros [_ [[n c] [Hn Hin]]]. simpl in Hn. subst n.
    apply elem_of_map_to_list in Hin. eauto.
  - intros [c Hc]. split; [apply output_blob_has_prefix |].
    exists (imerg.output_blob_of d, c). split; [reflexivity |].
    now apply elem_of_map_to_list.
Qed.

(** One iteration and the container: a date in the listing changes
    nothing; for another date, the iteration either puts the blob of the
    date in the container, or leaves the container as it is and prints the
    failure line of the date. *)
Lemma process_date_outcome E existing d w :
  let w' := (imerg.process_date E existing d w).2 in
  (imerg.output_blob_of d ∈ existing /\ blobs w' = blobs w)
  \/ ((imerg.output_blob_of d ∉ existing)
      /\ exists bytes, blobs w' = <[imerg.output_blob_of d := bytes]> (blobs w))
  \/ ((imerg.output_blob_of d ∉ existing)
      /\ blobs w' = blobs w /\ EPrint (failure_line d) ∈ out w').
Proof.
  unfold imerg.process_date.
  destruct (bool_decide_reflect (imerg.output_blob_of d ∈ existing)) as [Hin | Hnew].
  { left. now split. }
  right. rewrite bind_print. unfold try_except.
  pose proof (fetch_transform_publish_publishes E d (imerg.output_blob_of d)
                (emit (EPrint ("downloading and processing " +:+ imerg.output_blob_of d)) w))
    as Hpub.
  destruct (imerg.fetch_transform_publish E d (imerg.output_blob_of d) _) as [[e | []] w1];
    cbn [fst snd] in *.
  - right. split; [exact Hnew |]. split; [exact Hpub |].
    unfold bind, print, emit. cbn [fst snd out]. unfold failure_line.
    rewrite !elem_of_app. left. right. apply list_elem_of_singleton. reflexivity.
  - left. split; [exact Hnew | exact Hpub].
Qed.

(** What the loop does to one blob name: it leaves it as it is, or it is
    the name of the blob of a date of the loop that was not in the
    listing, and the container holds a blob of that name after the loop. *)
Lemma for_each_blobs E existing dates w n :
  let w' := (for_each dates (imerg.process_date E existing) w).2 in
  blobs w' !! n = blobs w !! n
  \/ (exists d, d ∈ dates /\ n = imerg.output_blob_of d
                /\ (imerg.output_blob_of d ∉ existing) /\ is_Some (blobs w' !! n)).
Proof.
  revert w. induction dates as [|d dates IH]; intros w; cbn [for_each]; [now left |].
  unfold bind.
  destruct (process_date_iteration E existing d w) as [Hret _].
  pose proof (process_date_outcome E existing d w) as Hd.
  destruct (imerg.process_date E existing d w) as [[e | []] w1]; cbn [fst snd] in *;
    [discriminate |].
  destruct (IH w1) as [Hsame | (d' & Hd' & Hn & Hnew & Hsome)].
  - destruct Hd as [[_ Hb] | [[Hnew [bytes Hb]] | [_ [Hb _]]]].
    + left. now rewrite Hsame, Hb.
    + destruct (decide (n = imerg.output_blob_of d)) as [-> | Hne].
      * right. exists d. split; [left |]. split; [reflexivity |]. split; [exact Hnew |].
        rewrite Hsame, Hb, lookup_insert_eq. eauto.
      * left. rewrite Hsame, Hb. now apply lookup_insert_ne.
    + left. now rewrite Hsame, Hb.
  - right. exists d'. split; [now right |]. auto.
Qed.

(** X14: a run never changes or removes a blob that was in the container
    when the listing was taken, and every blob it adds is the output blob
    of a date of the loop. *)
Theorem X14_run_keeps_the_blobs_it_found (E : env) (w : world) :
  let w' := (imerg.download_recent_imerg E w).2 in
  (forall n c, blobs w !! n = Some c -> blobs w' !! n = Some c)
  /\ (forall n, blobs w !! n = None -> is_Some (blobs w' !! n) ->
                exists dates d, imerg.recent_dates E = inr dates /\ d ∈ dates
                                /\ n = imerg.output_blob_of d).
Proof.
  rewrite download_recent_imerg_eq. rewrite recent_dates_eq.
  destruct (list_error E) as [e|]; cbn [snd].
  { split; [auto |]. intros n Hnone [c Hc]. congruence. }
  split.
  - intros n c Hn.
    destruct (for_each_blobs E (blob.blob_names "imerg/v7" (blobs w))
                (pd.date_range (19875 * pd.NS_PER_DAY) ((today E - 1) * pd.NS_PER_DAY)) w n)
      as [Hsame | (d & _ & -> & Hnew & _)]; [now rewrite Hsame |].
    exfalso. apply Hnew, output_blob_listed. eauto.
  - intros n Hnone Hsome.
    destruct (for_each_blobs E (blob.blob_names "imerg/v7" (blobs w))
                (pd.date_range (19875 * pd.NS_PER_DAY) ((today E - 1) * pd.NS_PER_DAY)) w n)
      as [Hsame | (d & Hd & -> & _ & _)].
    + rewrite Hsame, Hnone in Hsome. destruct Hsome as [c Hc]. discriminate.
    + eexists _, d. split; [reflexivity |]. now split.
Qed.

Lemma X14_witness :
  blobs (imerg.download_recent_imerg example.E200 example.w_listed).2
    !! "imerg/v7/imerg-daily-late-2024-06-02.tif" = Some [x09].
Proof.
  apply (proj1 (X14_run_keeps_the_blobs_it_found example.E200 example.w_listed)).
  vm_compute. reflexivity.
Defined.

Lemma for_each_keeps_blob E existing dates w n :
  is_Some (blobs w !! n) ->
  is_Some (blobs (for_each dates (imerg.process_date E existing) w).2 !! n).
Proof.
  intros Hsome.
  destruct (for_each_blobs E existing dates w n) as [Hsame | (d & _ & _ & _ & Hafter)];
    [now rewrite Hsame | exact Hafter].
Qed.

Lemma for_each_keeps_event E existing dates w ev :
  ev ∈ out w -> ev ∈ out (for_each dates (imerg.process_date E existing) w).2.
Proof.
  intros Hev. destruct (for_each_process_date E existing dates w) as [_ [chunks [-> _]]].
  apply elem_of_app. now left.
Qed.

Lemma for_each_accounts E existing dates w d :
  d ∈ dates ->
  (imerg.output_blob_of d ∈ existing -> is_Some (blobs w !! imerg.output_blob_of d)) ->
  let w' := (for_each dates (imerg.process_date E existing) w).2 in
  is_Some (blobs w' !! imerg.output_blob_of d) \/ EPrint (failure_line d) ∈ out w'.
Proof.
  revert w. induction dates as [|d0 dates IH]; intros w Hd Hlisted;
    [now apply elem_of_nil in Hd |].
  cbn [for_each]. unfold bind.
  destruct (process_date_iteration E existing d0 w) as [Hret _].
  pose proof (process_date_outcome E existing d0 w) as Hd0.
  destruct (imerg.process_date E existing d0 w) as [[e | []] w1]; cbn [fst snd] in *;
    [discriminate |].
  assert (Hgrow : forall n, is_Some (blobs w !! n) -> is_Some (blobs w1 !! n)).
  { intros n Hn. destruct Hd0 as [[_ Hb] | [[_ [bytes Hb]] | [_ [Hb _]]]]; rewrite Hb;
      [exact Hn | | exact Hn].
    destruct (decide (n = imerg.output_blob_of d0)) as [-> | Hne];
      [rewrite lookup_insert_eq; eauto | now rewrite lookup_insert_ne]. }
  apply elem_of_cons in Hd as [-> | Hd]; [| apply IH; auto].
  destruct Hd0 as [[Hin _] | [[_ [bytes Hb]] | [_ [_ Hev]]]].
  - left. apply for_each_keeps_blob, Hgrow, Hlisted, Hin.
  - left. apply for_each_keeps_blob. rewrite Hb, lookup_insert_eq. eauto.
  - right. now apply for_each_keeps_event.
Qed.

(** X15: every date of the loop is accounted for: after a run that
    returns, for each date from 2024-06-01 to yesterday either the
    container holds the output blob of the date, or the failure line of
    the date was printed. *)
Theorem X15_every_date_is_accounted_for
    (E : env) (w : world) (dates : list pd.Timestamp) (d : pd.Timestamp) :
  (imerg.download_recent_imerg E w).1 = inr tt ->
  imerg.recent_dates E = inr dates ->
  d ∈ dates ->
  let w' := (imerg.download_recent_imerg E w).2 in
  is_Some (blobs w' !! imerg.output_blob_of d) \/ EPrint (failure_line d) ∈ out w'.
Proof.
  rewrite download_recent_imerg_eq, recent_dates_eq.
  destruct (list_error E) as [e|]; [discriminate |].
  intros _ [= <-] Hd. apply for_each_accounts; [exact Hd |].
  apply output_blob_listed.
Qed.

Lemma X15_witness :
  is_Some (blobs (imerg.download_recent_imerg example.E404 example.w_listed).2
             !! imerg.output_blob_of example.june1)
  \/ EPrint "failed to download and process 2024-06-01 00:00:00"
     ∈ out (imerg.download_recent_imerg example.E404 example.w_listed).2.
Proof.
  apply (X15_every_date_is_accounted_for example.E404 example.w_listed
           [example.june1; example.june2; example.june3] example.june1);
    [vm_compute; reflexivity | vm_compute; reflexivity | left].
Defined.

(** ** An iteration that succeeds *)

Lemma dirname_default_path : os.path_dirname imerg.DEFAULT_PATH = "temp".
Proof. reflexivity. Qed.

(** With the default path, the content can be written as soon as nothing
    but a directory is in the way: temp is a directory or does not exist,
    and the path is not a directory. *)
Lemma write_content_default_returns (content : list byte) (w : world) :
  fs w !! imerg.DEFAULT_PATH <> Some Dir ->
  fs w !! "temp" = None \/ fs w !! "temp" = Some Dir ->
  (imerg.write_content imerg.DEFAULT_PATH content w).1 = inr tt.
Proof.
  intros Hp Htemp. rewrite write_content_eq, dirname_default_path.
  assert (Hprep : exists w1,
             bind (os.path_exists "temp")
                  (fun dir_found => when (negb dir_found) (os.makedirs "temp")) w
             = (inr tt, w1)
             /\ fs w1 !! "temp" = Some Dir
             /\ fs w1 !! imerg.DEFAULT_PATH = fs w !! imerg.DEFAULT_PATH).
  { unfold bind at 1, os.path_exists. cbv beta iota.
    destruct Htemp as [Hnone | Hdir].
    - rewrite bool_decide_eq_false_2 by (rewrite Hnone; intros [x Hx]; discriminate).
      cbn [negb when]. unfold os.makedirs. cbn [String.length os.makedirs_go].
      change (os.path_dirname "temp") with "".
      rewrite bool_decide_eq_true_2 by reflexivity.
      unfold bind, ret, when, try_except, os.mkdir, os.parent_ok.
      change (os.path_dirname "temp") with "". unfold ret. cbv beta iota.
      rewrite Hnone. eexists. split; [reflexivity |]. cbn [set_fs fs].
      split; [apply lookup_insert_eq | now apply lookup_insert_ne].
    - rewrite bool_decide_eq_true_2 by (rewrite Hdir; eauto).
      exists w. now split. }
  destruct Hprep as (w1 & -> & Hdir & Hsame).
  assert (Hok : os.parent_ok (fs w1) imerg.DEFAULT_PATH = inr tt).
  { unfold os.parent_ok. rewrite dirname_default_path, Hdir. reflexivity. }
  rewrite Hok, Hsame.
  destruct (fs w !! imerg.DEFAULT_PATH) as [[c|]|]; [reflexivity | congruence | reflexivity].
Qed.

(** X16: one iteration, when nothing fails, publishes the transformed
    download: for a date whose blob is not in the listing, if the provider
    answers the GET of the URL of the date with a status that is not from
    400 to 599, nothing but a directory is in the way of the raw file,
    [process_imerg] returns an array for a file with the body of the
    response, the array encodes and the upload is accepted, then the
    iteration returns, the container holds the encoding of that array
    under the blob name of the date (and is otherwise as before), and the
    iteration has printed one line, sent one GET and called the three
    stages in order. *)
Theorem X16_iteration_publishes_the_transformed_download
    (E : env) (existing : list string) (d : pd.Timestamp) (w : world)
    (url : string) (response : requests.Response) (da : xr.DataArray) (bytes : list byte) :
  imerg.output_blob_of d ∉ existing ->
  imerg.imerg_url d imerg.DEFAULT_RUN imerg.DEFAULT_VERSION = inr url ->
  http E url = inr response ->
  ~ 400 <= requests.status_code response < 600 ->
  fs w !! imerg.DEFAULT_PATH <> Some Dir ->
  fs w !! "temp" = None \/ fs w !! "temp" = Some Dir ->
  (forall w0, fs w0 !! imerg.DEFAULT_PATH = Some (File (requests.content response)) ->
              (imerg.process_imerg E imerg.DEFAULT_PATH w0).1 = inr da) ->
  cog_encode E da = inr bytes ->
  upload_error E (imerg.output_blob_of d) = None ->
  let r := imerg.process_date E existing d w in
  r.1 = inr tt
  /\ blobs r.2 = <[imerg.output_blob_of d := bytes]> (blobs w)
  /\ out r.2 = out w ++ [EPrint ("downloading and processing " +:+ imerg.output_blob_of d);
                         ECall d Fetch; EHttpGet url; ECall d Transform; ECall d Publish].
Proof.
  intros Hnew Hurl Hget Hstatus Hp Htemp Hproc Henc Hup r. subst r.
  unfold imerg.process_date. rewrite bool_decide_eq_false_2 by exact Hnew.
  rewrite bind_print.
  set (w0 := emit (EPrint ("downloading and processing " +:+ imerg.output_blob_of d)) w).
  unfold try_except, imerg.fetch_transform_publish. rewrite bind_log_call.
  set (w1 := emit (ECall d Fetch) w0).
  assert (Hrfs : requests.raise_for_status response = inr tt).
  { pose proof (raise_for_status_raises response) as Hiff.
    destruct (requests.raise_for_status response) as [e | []]; [| reflexivity].
    exfalso. apply Hstatus, Hiff. eauto. }
  set (wa := after_get url imerg.DEFAULT_PATH w1).
  assert (Hwa : fs wa !! imerg.DEFAULT_PATH = None /\ fs wa !! "temp" = fs w !! "temp").
  { subst wa w1 w0. unfold after_get. cbn [emit set_fs fs].
    split; [apply lookup_delete_eq | now apply lookup_delete_ne]. }
  destruct Hwa as [Hwa_p Hwa_temp].
  assert (Hdl : exists w2,
             imerg.download_imerg E d imerg.DEFAULT_RUN imerg.DEFAULT_VERSION
               imerg.DEFAULT_SAVE_PATH false w1 = (inr tt, w2)
             /\ fs w2 !! imerg.DEFAULT_PATH = Some (File (requests.content response))
             /\ blobs w2 = blobs w
             /\ out w2 = out w1 ++ [EHttpGet url]).
  { rewrite (download_imerg_quiet_eq _ _ _ _ _ _ _ Hurl).
    change (imerg.fspath imerg.DEFAULT_SAVE_PATH) with imerg.DEFAULT_PATH.
    assert (Hrest : forall T (a b : T), match fs w1 !! imerg.DEFAULT_PATH with
                                        | Some Dir => a
                                        | _ => b
                                        end = b).
    { intros T a b. change (fs w1) with (fs w).
      destruct (fs w !! imerg.DEFAULT_PATH) as [[c0|]|]; congruence. }
    rewrite Hrest, Hget, Hrfs. fold wa.
    pose proof (write_content_default_returns (requests.content response) wa) as Hret.
    pose proof (write_content_outcome imerg.DEFAULT_PATH (requests.content response) wa)
      as Hfile.
    pose proof (write_content_out imerg.DEFAULT_PATH (requests.content response) wa)
      as Hout.
    pose proof (write_content_keeps_blobs imerg.DEFAULT_PATH (requests.content response) wa)
      as Hblobs.
    destruct (imerg.write_content imerg.DEFAULT_PATH (requests.content response) wa)
      as [[e | []] w2]; cbn [fst snd] in *.
    - exfalso. assert (Hx : @inl exn unit e = inr tt); [| discriminate].
      apply Hret; [rewrite Hwa_p; discriminate | now rewrite Hwa_temp].
    - exists w2. split; [reflexivity |]. split; [exact Hfile |].
      split; [exact Hblobs | exact Hout]. }
  destruct Hdl as (w2 & Hdl & Hfile & Hblobs & Hout).
  rewrite (bind_returns _ _ _ _ _ Hdl), bind_log_call.
  set (w3 := emit (ECall d Transform) w2).
  assert (Hpr : imerg.process_imerg E imerg.DEFAULT_PATH w3 = (inr da, w3)).
  { pose proof (process_imerg_world E imerg.DEFAULT_PATH w3) as Hworld.
    pose proof (Hproc w3 Hfile) as Hda.
    destruct (imerg.process_imerg E imerg.DEFAULT_PATH w3) as [res w3']; cbn [fst snd] in *.
    now subst. }
  rewrite (bind_returns _ _ _ _ _ Hpr), bind_log_call, upload_imerg_eq, Henc, Hup.
  cbv zeta. cbn [fst snd set_blobs blobs out emit].
  split; [reflexivity |]. split.
  - subst w3. cbn [emit blobs]. now rewrite Hblobs.
  - subst w3. cbn [emit out]. rewrite Hout. subst w1 w0. cbn [emit out].
    rewrite <- !app_assoc. reflexivity.
Qed.

Lemma X16_witness :
  blobs (imerg.process_date example.E200 [] example.june1 example.w_empty).2
  = {["imerg/v7/imerg-daily-late-2024-06-01.tif" := [x03]]}.
Proof.
  destruct (X16_iteration_publishes_the_transformed_download
              example.E200 [] example.june1 example.w_empty
              "https://gpm1.gesdisc.eosdis.nasa.gov/data/GPM_L3/GPM_3IMERGDL.07/2024/06/3B-DAY-L.MS.MRG.3IMERG.20240601-S000000-E235959.V07B.nc4"
              {| requests.status_code := 200; requests.content := [x01; x02] |}
              example.da_out [x03])
    as (_ & Hblobs & _).
  - apply not_elem_of_nil.
  - vm_compute. reflexivity.
  - reflexivity.
  - cbn. lia.
  - vm_compute. discriminate.
  - left. reflexivity.
  - intros w0 Hfile.
    unfold imerg.process_imerg, xrops.open_dataset, os.read_rb, bind, lift, ret.
    rewrite Hfile. vm_compute. reflexivity.
  - reflexivity.
  - reflexivity.
  - rewrite Hblobs. vm_compute. reflexivity.
Defined.

(** ** A run after a run *)

(** A call recorded in the events of the iterations is a call for a date
    of the loop whose blob is not in the listing. *)
Lemma call_in_chunks existing dates chunks d s :
  Forall2 (iteration_events existing) dates chunks ->
  ECall d s ∈ concat chunks ->
  d ∈ dates /\ imerg.output_blob_of d ∉ existing.
Proof.
  intros Hchunks Hin. apply elem_of_concat in Hin as [chunk [Hchunk Hin]].
  destruct (Forall2_date_of_chunk _ _ _ _ Hchunks Hchunk) as [d' [Hd' [rest [-> [Hall _]]]]].
  apply elem_of_cons in Hin as [Heq | Hin]; [discriminate |].
  rewrite List.Forall_forall in Hall. apply list_elem_of_In, Hall in Hin.
  simpl in Hin. destruct Hin as [-> Hnew]. now split.
Qed.

(** X17: a run retries only what failed: when a run that returned is
    followed by another run on the world it left (whatever the clock and
    the answers of the outside world by then), the second run calls a
    stage for a date of the first run only if the first run printed the
    failure line of that date; the container then holds no blob for it. *)
Theorem X17_next_run_retries_only_failures (E1 E2 : env) (w : world) :
  (imerg.download_recent_imerg E1 w).1 = inr tt ->
  let w1 := (imerg.download_recent_imerg E1 w).2 in
  exists evs,
    out (imerg.download_recent_imerg E2 w1).2 = out w1 ++ evs
    /\ forall dates1 d s,
         imerg.recent_dates E1 = inr dates1 -> d ∈ dates1 -> ECall d s ∈ evs ->
         EPrint (failure_line d) ∈ out w1 /\ blobs w1 !! imerg.output_blob_of d = None.
Proof.
  intros Hret w1. rewrite (download_recent_imerg_eq E2 w1).
  destruct (list_error E2) as [e2|]; cbn [snd].
  { exists []. split; [now rewrite app_nil_r |]. intros dates1 d s _ _ Hin.
    now apply elem_of_nil in Hin. }
  destruct (for_each_process_date E2 (blob.blob_names "imerg/v7" (blobs w1))
              (pd.date_range (19875 * pd.NS_PER_DAY) ((today E2 - 1) * pd.NS_PER_DAY)) w1)
    as [_ [chunks [Hout Hchunks]]].
  exists (concat chunks). split; [exact Hout |].
  intros dates1 d s Hdates Hd Hcall.
  destruct (call_in_chunks _ _ _ _ _ Hchunks Hcall) as [_ Hnew].
  assert (Hnone : blobs w1 !! imerg.output_blob_of d = None).
  { destruct (blobs w1 !! imerg.output_blob_of d) as [c|] eqn:Hc; [| reflexivity].
    exfalso. apply Hnew, output_blob_listed. eauto. }
  split; [| exact Hnone].
  rewrite recent_dates_eq in Hdates. injection Hdates as <-.
  subst w1. rewrite download_recent_imerg_eq in Hret, Hnone |- *.
  destruct (list_error E1) as [e1|]; [discriminate |].
  destruct (for_each_accounts E1 (blob.blob_names "imerg/v7" (blobs w))
              (pd.date_range (19875 * pd.NS_PER_DAY) ((today E1 - 1) * pd.NS_PER_DAY))
              w d Hd) as [[c Hc] | Hfail].
  - apply output_blob_listed.
  - rewrite Hnone in Hc. discriminate.
  - exact Hfail.
Qed.

Lemma X17_witness :
  exists evs,
    out (imerg.download_recent_imerg example.E200
           (imerg.download_recent_imerg example.E404 example.w_listed).2).2
    = out (imerg.download_recent_imerg example.E404 example.w_listed).2 ++ evs
    /\ forall dates1 d s,
         imerg.recent_dates example.E404 = inr dates1 -> d ∈ dates1 -> ECall d s ∈ evs ->
         EPrint (failure_line d)
           ∈ out (imerg.download_recent_imerg example.E404 example.w_listed).2
         /\ blobs (imerg.download_recent_imerg example.E404 example.w_listed).2
              !! imerg.output_blob_of d = None.
Proof.
  apply (X17_next_run_retries_only_failures example.E404 example.E200 example.w_listed).
  vm_compute. reflexivity.
Defined.
